(** * LifeLogger: the daily metrics pipeline

    A shallow embedding of the scheduled jobs and pattern detectors of
    [functions/src/data-capture-engine.ts] (the Daily Aggregator) and of the
    insight engine (Cognitive Mirror Builder, Forecast Engine, Behavioral
    Recovery and Life Event detectors), with the properties the specification
    states about them; then of the remaining handlers of the two files
    (device signals, shadow cognition, obscura patterns, voice profiles, GPS
    and audio events, rhythm scoring), with further properties of the code.

    Conventions of the embedding.
    - A JavaScript number is a rational [Q]: every quantity of the pipeline is
      built from stored numbers by [+], [-], [*], [/], [Math.min], [Math.max]
      and [Math.round], and is compared against constants.  Equality of
      numbers is [==] ([Qeq]).  Where the rounding of doubles decides an
      outcome (the thresholds of the Life Event detector, the order of the
      additions of the Daily Aggregator), the arithmetic operations are
      parameters of the definitions, and [Js.toDouble] gives those of the
      platform.
    - A document field that may be absent is an [option]; [x || 0] is
      [or_zero x].
    - A handler is a computation in the [Job] monad: it appends effects
      (document writes, log lines) and either completes or throws.  What the
      store answers to a query is an input of the handler.
    - Fresh document ids ([uuidv4()]) and clock readings ([Date.now()]) are
      left out of the records: no decision of the code depends on them
      (a voice profile keeps its clock readings, taken as an input).  A log
      line keeps its fixed text and the user id.
    - [xs[i].field] is [nth i (map field xs) 0]; the indices the handlers
      use are within bounds ([recentWeek_length], [lowestIndex_in_range]).
      Every division a handler performs has a divisor that is not zero: the
      guards on the snapshot sizes come first. *)

From Stdlib Require Import ZArith QArith Qround Qminmax Qabs Lqa Lia.
From Stdlib Require Import List String Bool Permutation.
Import ListNotations.

Open Scope Q_scope.

(** ** JavaScript numbers *)

Module Js.

(** Truthiness of an optional number: [null], [undefined] and [0] are falsy. *)
Definition truthy (x : option Q) : bool :=
  match x with
  | Some q => negb (Qeq_bool q 0)
  | None => false
  end.

(** [x || 0]. *)
Definition or_zero (x : option Q) : Q :=
  match x with
  | Some q => if Qeq_bool q 0 then 0 else q
  | None => 0
  end.

Definition ltb (x y : Q) : bool := negb (Qle_bool y x).
Definition gtb (x y : Q) : bool := ltb y x.

(** [Math.round]: the nearest integer, halves rounded up. *)
Definition Math_round (x : Q) : Q := inject_Z (Qfloor (x + (1 # 2))).

Definition Math_min (x y : Q) : Q := Qmin x y.
Definition Math_max (x y : Q) : Q := Qmax x y.
Definition Math_abs (x : Q) : Q := Qabs x.

(** [xs.reduce((sum, x) => sum + f(x), 0)]. *)
Definition sum_by {A : Type} (f : A -> Q) (xs : list A) : Q :=
  fold_left (fun sum x => sum + f x) xs 0.

(** [xs.length] as a number. *)
Definition len {A : Type} (xs : list A) : Q := inject_Z (Z.of_nat (List.length xs)).

(** [snapshot.empty]. *)
Definition empty {A : Type} (xs : list A) : bool :=
  match xs with [] => true | _ :: _ => false end.

(** *** Doubles

    The value an arithmetic operation of the platform returns is the exact
    result rounded to the nearest number with a 53-bit significand, ties to
    the even one (IEEE 754 binary64; overflow and subnormal results are left
    out). *)
Definition pow2 (e : Z) : Q :=
  if (0 <=? e)%Z then inject_Z (2 ^ e) else / inject_Z (2 ^ (- e)).

Definition roundHalfEven (q : Q) : Z :=
  let f := Qfloor q in
  match Qcompare (q - inject_Z f) (1 # 2) with
  | Lt => f
  | Gt => (f + 1)%Z
  | Eq => if Z.even f then f else (f + 1)%Z
  end.

(** The exponent [e] with [2^e <= |q| < 2^(e+1)], for [q] other than 0. *)
Definition binade (q : Q) : Z :=
  let e := (Z.log2 (Z.abs (Qnum q)) - Z.log2 (Zpos (Qden q)))%Z in
  if Qle_bool (pow2 e) (Qabs q) then e else (e - 1)%Z.

Definition toDouble (x : Q) : Q :=
  let q := Qred x in
  if Qeq_bool q 0 then 0
  else
    let ulp := pow2 (binade q - 52) in
    Qred (inject_Z (roundHalfEven (q / ulp)) * ulp).

(** [x + y], [x - y] and [x / y] on doubles. *)
Definition double_add (x y : Q) : Q := toDouble (x + y).
Definition double_sub (x y : Q) : Q := toDouble (x - y).
Definition double_div (x y : Q) : Q := toDouble (x / y).

End Js.

Infix "<?" := Js.ltb (at level 70, no associativity) : Q_scope.
Infix ">?" := Js.gtb (at level 70, no associativity) : Q_scope.

(** ** Handlers: effects and exceptions *)

Definition UserId := string.

(** How an awaited operation ends. *)
Inductive completion (A : Type) : Type :=
| Normal (a : A)
| Throw (error : string).
Arguments Normal {A} a.
Arguments Throw {A} error.

(** What a handler does to the outside: a document written into a collection
    on behalf of a user, or a log line. *)
Inductive Effect (Doc : Type) : Type :=
| DbSet (collection : string) (doc : Doc)
| LogInfo (message : string)
| LogError (message : string) (error : string).
Arguments DbSet {Doc} collection doc.
Arguments LogInfo {Doc} message.
Arguments LogError {Doc} message error.

Section JobMonad.
Context {Doc : Type}.

(** The effects performed so far, and how the computation ended.  Effects
    performed before a throw stay performed: the store has no rollback. *)
Definition Job (A : Type) : Type := (list (Effect Doc) * completion A)%type.

Definition ret {A : Type} (a : A) : Job A := ([], Normal a).

Definition bind {A B : Type} (m : Job A) (k : A -> Job B) : Job B :=
  match m with
  | (w, Normal a) => let '(w', r) := k a in (w ++ w', r)
  | (w, Throw e) => (w, Throw e)
  end.

Definition await {A : Type} (r : completion A) : Job A := ([], r).

Definition emit (e : Effect Doc) : Job unit := ([e], Normal tt).

(** [try { m } catch (error) { handler(error) }]. *)
Definition try_catch (m : Job unit) (handler : string -> Job unit) : Job unit :=
  match m with
  | (w, Normal a) => (w, Normal a)
  | (w, Throw e) => let '(w', r) := handler e in (w ++ w', r)
  end.

(** [for (const x of xs) { body(x) }]; a [continue] is a body that returns. *)
Fixpoint for_of {A : Type} (xs : list A) (body : A -> Job unit) : Job unit :=
  match xs with
  | [] => ret tt
  | x :: xs' => bind (body x) (fun _ => for_of xs' body)
  end.

(** The entries a loop gets to: those up to and including the first one whose
    iteration throws. *)
Fixpoint started {A : Type} (body : A -> Job unit) (xs : list A) : list A :=
  match xs with
  | [] => []
  | x :: xs' =>
      x :: match snd (body x) with
           | Normal _ => started body xs'
           | Throw _ => []
           end
  end.

Definition effects {A : Type} (m : Job A) : list (Effect Doc) := fst m.

Definition throws {A : Type} (m : Job A) : Prop :=
  exists e, snd m = Throw e.

(** The documents a list of effects writes into one collection. *)
Definition written (collection : string) (w : list (Effect Doc)) : list Doc :=
  flat_map (fun e => match e with
                     | DbSet c d => if String.eqb c collection then [d] else []
                     | _ => []
                     end) w.

End JobMonad.

Notation "x <- m ;; k" := (bind m (fun x => k))
  (at level 61, m at next level, right associativity).
Notation "m ;;; k" := (bind m (fun _ => k))
  (at level 61, right associativity).

(** ** The Daily Aggregator ([data-capture-engine.ts]) *)

Module DataCapture.

Record TelemetryEvent : Type := {
  eventType : string;
  eventDuration : option Q
}.

Record RhythmMap : Type := {
  rm_userId : UserId;
  rm_date : string;
  sleepHours : Q;
  movementScore : Q;
  rhythmState : string;
  wakeTime : option Q;
  bedTime : option Q;
  deepSleepMinutes : Q;
  restfulnessScore : Q
}.

Record HealthEcho : Type := {
  he_userId : UserId;
  he_date : string;
  heartRateAvg : Q;
  he_movementScore : Q;
  wellnessIndex : Q;
  stepsCount : Z;
  activeMinutes : Q;
  he_stressIndex : Q
}.

Inductive Doc : Type :=
| RhythmMapDoc (r : RhythmMap)
| HealthEchoDoc (h : HealthEcho).

(** What the store answers, and whether it accepts a write. *)
Record Firestore : Type := {
  users : completion (list UserId);
  telemetryEvents : UserId -> completion (list TelemetryEvent);
  set_result : string -> UserId -> completion unit
}.

(** The body of [telemetrySnapshot.docs.forEach]: only motion events count,
    and nothing assigns the sleep markers. *)
Definition count_motion (acc : Q * Z) (data : TelemetryEvent) : Q * Z :=
  let '(totalMovement, motionEvents) := acc in
  if String.eqb data.(eventType) "motion_event"
  then (totalMovement + Js.or_zero data.(eventDuration), (motionEvents + 1)%Z)
  else (totalMovement, motionEvents).

(** "Determine rhythm state". *)
Definition determineRhythmState (sleepHours movementScore : Q) (motionEvents : Z) : string :=
  if (sleepHours <? 6) || (movementScore <? 20) then "Off-Rhythm"
  else if (movementScore >? 80) && (100 <? motionEvents)%Z then "Overstimulated"
  else "Stable".

(** One user's records from a non-empty telemetry snapshot. *)
Definition dailyHealthMetrics (userId : UserId) (dateKey : string)
    (docs : list TelemetryEvent) : RhythmMap * HealthEcho :=
  let sleepStart : option Q := None in
  let sleepEnd : option Q := None in
  let '(totalMovement, motionEvents) := fold_left count_motion docs (0, 0%Z) in
  let movementScore := Js.Math_min 100 (totalMovement / 60) in
  let sleepHours :=
    if Js.truthy sleepStart && Js.truthy sleepEnd
    then (Js.or_zero sleepEnd - Js.or_zero sleepStart) / (1000 * 60 * 60)
    else 8 in
  let rhythmState := determineRhythmState sleepHours movementScore motionEvents in
  ({| rm_userId := userId;
      rm_date := dateKey;
      sleepHours := sleepHours;
      movementScore := movementScore;
      rhythmState := rhythmState;
      wakeTime := sleepEnd;
      bedTime := sleepStart;
      deepSleepMinutes := sleepHours * 60 * 0.2;
      restfulnessScore := Js.Math_min 100 (sleepHours * 12.5) |},
   {| he_userId := userId;
      he_date := dateKey;
      heartRateAvg := 72;
      he_movementScore := movementScore;
      wellnessIndex := (movementScore + sleepHours * 12.5) / 2;
      stepsCount := (motionEvents * 100)%Z;
      activeMinutes := totalMovement / 60;
      he_stressIndex :=
        if String.eqb rhythmState "Overstimulated" then 80
        else if String.eqb rhythmState "Off-Rhythm" then 60 else 30 |}).

Definition db_set (fs : Firestore) (collection : string) (userId : UserId)
    (doc : Doc) : Job unit :=
  await (fs.(set_result) collection userId) ;;;
  emit (DbSet collection doc).

(** The body of the loop over users. *)
Definition aggregateUser (fs : Firestore) (dateKey : string) (userId : UserId)
    : Job (Doc := Doc) unit :=
  telemetrySnapshot <- await (fs.(telemetryEvents) userId) ;;
  if Js.empty telemetrySnapshot then ret tt
  else
    let '(rhythmMap, healthEcho) := dailyHealthMetrics userId dateKey telemetrySnapshot in
    db_set fs "rhythmMap" userId (RhythmMapDoc rhythmMap) ;;;
    db_set fs "healthEcho" userId (HealthEchoDoc healthEcho) ;;;
    emit (LogInfo ("Health metrics aggregated for user " ++ userId ++ " on " ++ dateKey)).

(** The scheduled handler: one [try] around the whole loop. *)
Definition aggregateDailyHealthMetrics (fs : Firestore) (dateKey : string)
    : Job (Doc := Doc) unit :=
  emit (LogInfo "Starting daily health metrics aggregation") ;;;
  try_catch
    (usersSnapshot <- await fs.(users) ;;
     for_of usersSnapshot (aggregateUser fs dateKey))
    (fun error => emit (LogError "Error aggregating daily health metrics:" error)).

Definition rhythmMaps (w : list (Effect Doc)) : list RhythmMap :=
  flat_map (fun d => match d with RhythmMapDoc r => [r] | _ => [] end)
           (written "rhythmMap" w).

(** *** Vocabulary of further properties *)

Definition healthEchos (w : list (Effect Doc)) : list HealthEcho :=
  flat_map (fun d => match d with HealthEchoDoc h => [h] | _ => [] end)
           (written "healthEcho" w).

(** No event of the snapshot has a negative duration. *)
Definition nonnegative_durations (docs : list TelemetryEvent) : Prop :=
  forall data, In data docs -> 0 <= Js.or_zero data.(eventDuration).

(** The body of [telemetrySnapshot.docs.forEach] with the addition of the
    platform as a parameter; [count_motion] is the instance at the addition of
    the rationals. *)
Definition count_motion_with (add : Q -> Q -> Q) (acc : Q * Z) (data : TelemetryEvent)
    : Q * Z :=
  let '(totalMovement, motionEvents) := acc in
  if String.eqb data.(eventType) "motion_event"
  then (add totalMovement (Js.or_zero data.(eventDuration)), (motionEvents + 1)%Z)
  else (totalMovement, motionEvents).

(** An addition that returns the sum of two whole numbers that are not
    negative when the sum is at most 2^53, as the addition of doubles does. *)
Definition exact_on_whole (add : Q -> Q -> Q) : Prop :=
  forall (x y : Q) (a b : Z),
    x == inject_Z a -> y == inject_Z b ->
    (0 <= a)%Z -> (0 <= b)%Z -> (a + b <= 2 ^ 53)%Z ->
    add x y == inject_Z (a + b).

(** Every duration of the snapshot is a whole number that is not negative,
    and the durations of the motion events add up to at most 2^53. *)
Definition whole_durations (docs : list TelemetryEvent) : Prop :=
  (forall data, In data docs ->
     exists d, (0 <= d)%Z /\ Js.or_zero data.(eventDuration) == inject_Z d)
  /\ fst (fold_left count_motion docs (0, 0%Z)) <= inject_Z (2 ^ 53).

End DataCapture.

(** ** The insight engine: Cognitive Mirror, Forecast, Recovery, Life Events *)

Module Insight.

(** *** Documents *)

Record VoiceEvent : Type := { sentimentScore : option Q }.

Record DeviceSignal : Type := {
  notificationCount : option Q;
  screenTimeMinutes : option Q
}.

Record ShadowCognition : Type := { frictionTaps : option Q }.

(** The field of a [rhythmMap] document the builder reads. *)
Record RhythmData : Type := { rhythmState : string }.

Record CognitiveMirror : Type := {
  userId : UserId;
  date : string;
  moodScore : Q;
  stressIndex : Q;
  highlightInsights : list string;
  energyLevel : Q;
  socialConnection : Q;
  purposeAlignment : Q
}.

Record EmotionForecast : Type := {
  ef_userId : UserId;
  ef_date : string;
  predictedMood : string;
  confidence : Q;
  predictionHorizonDays : Q;
  influencingFactors : list string;
  recommendedActions : list string
}.

Record RecoveryEngine : Type := {
  re_userId : UserId;
  startDate : string;
  reboundDetected : bool;
  improvementScore : Q;
  recoveryType : string;
  triggerEvent : string;
  durationDays : nat
}.

(** [eventDescription], a display string that renders [significance] with
    [toFixed(1)], is not part of the model. *)
Record LifeEvent : Type := {
  le_userId : UserId;
  eventType : string;
  detectedOn : string;
  metricsInvolved : list string;
  significance : Q;
  correlatedMoodShift : Q;
  correlatedStressShift : Q
}.

Inductive Doc : Type :=
| CognitiveMirrorDoc (c : CognitiveMirror)
| EmotionForecastDoc (f : EmotionForecast)
| RecoveryEngineDoc (r : RecoveryEngine)
| LifeEventDoc (l : LifeEvent).

(** What the store answers to the queries of the handlers, and whether it
    accepts a write. *)
Record Firestore : Type := {
  users : completion (list UserId);
  voiceEvents : UserId -> completion (list VoiceEvent);
  deviceSignals : UserId -> completion (list DeviceSignal);
  shadowCognition : UserId -> completion (list ShadowCognition);
  rhythmMap : UserId -> completion (list RhythmData);
  (** the user's mirrors of the trailing 30 days, latest first *)
  mirrorsLast30Days : UserId -> completion (list CognitiveMirror);
  (** the user's mirrors of the 7 days up to a date, earliest first *)
  mirrorsLast7Days : UserId -> string -> completion (list CognitiveMirror);
  (** the user's mirrors of the trailing 4 weeks, earliest first *)
  mirrorsLast4Weeks : UserId -> completion (list CognitiveMirror);
  set_result : string -> UserId -> completion unit
}.

(** What the handlers take from [Date]. *)
Record Calendar : Type := {
  yesterdayKey : string;
  todayKey : string;
  tomorrowKey : string;
  (** [today.getDay()] *)
  dayOfWeek : Z;
  (** [new Date(date).getDay()] *)
  getDay : string -> Z
}.

Definition db_set (fs : Firestore) (collection : string) (uid : UserId)
    (doc : Doc) : Job unit :=
  await (fs.(set_result) collection uid) ;;;
  emit (DbSet collection doc).

(** *** Cognitive Mirror Builder *)

Definition computeMoodScore (voiceEventsSnap : list VoiceEvent) : Q :=
  if Js.empty voiceEventsSnap then 50
  else
    let totalSentiment :=
      Js.sum_by (fun doc => Js.or_zero doc.(sentimentScore)) voiceEventsSnap in
    Js.Math_max 0
      (Js.Math_min 100 (50 + (totalSentiment / Js.len voiceEventsSnap) * 50)).

Definition notificationStress (deviceData : DeviceSignal) : Q :=
  Js.Math_min 40 (Js.or_zero deviceData.(notificationCount) * 2).

Definition screenTimeStress (deviceData : DeviceSignal) : Q :=
  Js.Math_min 30 (Js.or_zero deviceData.(screenTimeMinutes) / 10).

Definition frictionStress (shadowData : ShadowCognition) : Q :=
  Js.Math_min 30 (Js.or_zero shadowData.(frictionTaps) * 3).

(** The stress index before it is rounded for storage. *)
Definition computeStressIndex (deviceSignalsSnap : list DeviceSignal)
    (shadowCognitionSnap : list ShadowCognition) : Q :=
  let stressIndex := 30 in
  let stressIndex :=
    match deviceSignalsSnap with
    | [] => stressIndex
    | deviceData :: _ =>
        stressIndex + (notificationStress deviceData + screenTimeStress deviceData)
    end in
  let stressIndex :=
    match shadowCognitionSnap with
    | [] => stressIndex
    | shadowData :: _ => stressIndex + frictionStress shadowData
    end in
  Js.Math_min 100 stressIndex.

Definition goodBalanceInsight : string :=
  "You maintained good digital balance today".

Definition computeInsights (moodScore stressIndex : Q)
    (rhythmMapSnap : list RhythmData) : list string :=
  (if moodScore >? 70
   then ["You had a particularly positive day with uplifting conversations"%string]
   else if moodScore <? 30
   then ["Today felt heavy - your voice carried more tension than usual"%string]
   else [])
  ++ (if stressIndex >? 70
      then ["High digital activity and friction suggests elevated stress"%string]
      else if stressIndex <? 30
      then [goodBalanceInsight]
      else [])
  ++ match rhythmMapSnap with
     | [] => []
     | rhythmData :: _ =>
         if String.eqb rhythmData.(rhythmState) "Stable"
         then ["Your sleep and movement patterns were well-balanced"%string]
         else if String.eqb rhythmData.(rhythmState) "Off-Rhythm"
         then ["Your natural rhythms were disrupted today"%string]
         else []
     end.

(** The record built for one user from the four snapshots. *)
Definition cognitiveMirror (uid : UserId) (dateKey : string)
    (voiceEventsSnap : list VoiceEvent) (deviceSignalsSnap : list DeviceSignal)
    (shadowCognitionSnap : list ShadowCognition) (rhythmMapSnap : list RhythmData)
    : CognitiveMirror :=
  let moodScore := computeMoodScore voiceEventsSnap in
  let stressIndex := computeStressIndex deviceSignalsSnap shadowCognitionSnap in
  {| userId := uid;
     date := dateKey;
     moodScore := Js.Math_round moodScore;
     stressIndex := Js.Math_round stressIndex;
     highlightInsights := computeInsights moodScore stressIndex rhythmMapSnap;
     energyLevel := 100 - stressIndex;
     socialConnection := Js.Math_min 100 (Js.len voiceEventsSnap * 10);
     purposeAlignment := Js.Math_round ((moodScore + (100 - stressIndex)) / 2) |}.

(** The body of the loop over users.  The four queries of [Promise.all] are
    awaited in their listed order. *)
Definition mirrorUser (fs : Firestore) (cal : Calendar) (uid : UserId)
    : Job (Doc := Doc) unit :=
  voiceEventsSnap <- await (fs.(voiceEvents) uid) ;;
  deviceSignalsSnap <- await (fs.(deviceSignals) uid) ;;
  shadowCognitionSnap <- await (fs.(shadowCognition) uid) ;;
  rhythmMapSnap <- await (fs.(rhythmMap) uid) ;;
  db_set fs "cognitiveMirror" uid
    (CognitiveMirrorDoc
       (cognitiveMirror uid cal.(yesterdayKey) voiceEventsSnap deviceSignalsSnap
          shadowCognitionSnap rhythmMapSnap)) ;;;
  emit (LogInfo ("Cognitive mirror generated for user " ++ uid ++ " on "
                 ++ cal.(yesterdayKey))).

Definition generateCognitiveMirror (fs : Firestore) (cal : Calendar)
    : Job (Doc := Doc) unit :=
  emit (LogInfo "Starting cognitive mirror generation") ;;;
  try_catch
    (usersSnapshot <- await fs.(users) ;;
     for_of usersSnapshot (mirrorUser fs cal))
    (fun error => emit (LogError "Error generating cognitive mirror:" error)).

Definition mirrors (w : list (Effect Doc)) : list CognitiveMirror :=
  flat_map (fun d => match d with CognitiveMirrorDoc c => [c] | _ => [] end)
           (written "cognitiveMirror" w).

(** *** Forecast Engine *)

(** Day-of-week estimate from the records that fall on tomorrow's weekday. *)
Definition seasonalEstimate (sameDayHistory : list CognitiveMirror) : string * Q :=
  if (2 <? List.length sameDayHistory)%nat then
    let avgSameDayMood :=
      Js.sum_by moodScore (firstn 4 sameDayHistory)
      / inject_Z (Z.of_nat (Nat.min 4 (List.length sameDayHistory))) in
    if avgSameDayMood >? 70 then ("positive"%string, 0.75)
    else if avgSameDayMood <? 40 then ("challenging"%string, 0.7)
    else ("stable"%string, 0.6)
  else ("stable"%string, 0.6).

(** "Trend adjustment". *)
Definition trendAdjustment (trendSlope : Q) (estimate : string * Q) : string * Q :=
  let '(predictedMood, confidence) := estimate in
  if trendSlope >? 5 then
    ((if String.eqb predictedMood "challenging" then "stable" else "positive")%string,
     confidence + 0.1)
  else if trendSlope <? -5 then
    ((if String.eqb predictedMood "positive" then "stable" else "challenging")%string,
     confidence + 0.1)
  else (predictedMood, confidence).

(** The forecast for a user with at least a week of history, latest first. *)
Definition emotionForecast (cal : Calendar) (uid : UserId)
    (moodHistory : list CognitiveMirror) : EmotionForecast :=
  let recentWeek := firstn 7 moodHistory in
  let avgRecentStress := Js.sum_by stressIndex recentWeek / Js.len recentWeek in
  let sameDayHistory :=
    filter (fun day => (cal.(getDay) day.(date) =? (cal.(dayOfWeek) + 1) mod 7)%Z)
           moodHistory in
  let trendSlope :=
    (nth 0 (map moodScore recentWeek) 0 - nth 6 (map moodScore recentWeek) 0) / 6 in
  let '(predictedMood, confidence) :=
    trendAdjustment trendSlope (seasonalEstimate sameDayHistory) in
  {| ef_userId := uid;
     ef_date := cal.(tomorrowKey);
     predictedMood := predictedMood;
     confidence := Js.Math_round (confidence * 100) / 100;
     predictionHorizonDays := 1;
     influencingFactors :=
       (if avgRecentStress >? 60 then ["elevated stress patterns"%string] else [])
       ++ (if trendSlope >? 5 then ["improving mood trend"%string]
           else if trendSlope <? -5 then ["declining mood trend"%string]
           else []);
     recommendedActions :=
       if String.eqb predictedMood "challenging"
       then ["Consider extra self-care tomorrow"%string;
             "Schedule lighter activities if possible"%string]
       else if String.eqb predictedMood "positive"
       then ["Good day to tackle challenging tasks"%string;
             "Consider connecting with friends"%string]
       else [] |}.

(** The body of the loop over users. *)
Definition forecastUser (fs : Firestore) (cal : Calendar) (uid : UserId)
    : Job (Doc := Doc) unit :=
  historicalData <- await (fs.(mirrorsLast30Days) uid) ;;
  if (List.length historicalData <? 7)%nat then ret tt
  else
    db_set fs "emotionForecast" uid
      (EmotionForecastDoc (emotionForecast cal uid historicalData)) ;;;
    emit (LogInfo ("Emotion forecast generated for user " ++ uid)).

Definition generateEmotionForecast (fs : Firestore) (cal : Calendar)
    : Job (Doc := Doc) unit :=
  emit (LogInfo "Starting emotion forecast generation") ;;;
  try_catch
    (usersSnapshot <- await fs.(users) ;;
     for_of usersSnapshot (forecastUser fs cal))
    (fun error => emit (LogError "Error generating emotion forecast:" error)).

Definition forecasts (w : list (Effect Doc)) : list EmotionForecast :=
  flat_map (fun d => match d with EmotionForecastDoc f => [f] | _ => [] end)
           (written "emotionForecast" w).

(** *** Behavioral Recovery detector *)

Record DailyScore : Type := {
  ds_date : string;
  ds_moodScore : Q;
  ds_stressIndex : Q;
  combined : Q
}.

Definition dailyScore (doc : CognitiveMirror) : DailyScore :=
  {| ds_date := doc.(date);
     ds_moodScore := doc.(moodScore);
     ds_stressIndex := doc.(stressIndex);
     combined := doc.(moodScore) - doc.(stressIndex) |}.

(** One step of the [reduce] that looks for the lowest point: the
    accumulator is the index of the lowest entry so far, paired with the
    index of the entry being visited. *)
Definition lowerOf (dailyScores : list DailyScore) (acc : nat * nat)
    (current : DailyScore) : nat * nat :=
  let '(minIdx, idx) := acc in
  (if current.(combined) <? nth minIdx (map combined dailyScores) 0
   then idx else minIdx,
   S idx).

Definition lowestIndex (dailyScores : list DailyScore) : nat :=
  fst (fold_left (lowerOf dailyScores) dailyScores (0%nat, 0%nat)).

(** The recovery pattern: [Some (recoveryType, triggerEvent)] when
    [recoveryDetected] is set. *)
Definition recoveryPattern (mirrorData : CognitiveMirror)
    (dailyScores : list DailyScore) : option (string * string) :=
  let lowestIndex := lowestIndex dailyScores in
  if (lowestIndex <? List.length dailyScores - 1)%nat then
    let lowestScore := nth lowestIndex (map combined dailyScores) 0 in
    let currentScore :=
      nth (List.length dailyScores - 1) (map combined dailyScores) 0 in
    let improvement := currentScore - lowestScore in
    if (improvement >? 30) && (lowestScore <? 20) then
      let moodImprovement :=
        mirrorData.(moodScore) - nth lowestIndex (map ds_moodScore dailyScores) 0 in
      let stressReduction :=
        nth lowestIndex (map ds_stressIndex dailyScores) 0 - mirrorData.(stressIndex) in
      if moodImprovement >? stressReduction
      then Some ("emotional"%string, "mood_rebound"%string)
      else Some ("stress_relief"%string, "stress_reduction"%string)
    else None
  else None.

(** The record the detector writes for the mirror that triggered it, given
    the mirrors of the trailing window, earliest first; [None] when it
    writes nothing. *)
Definition recoveryEngine (mirrorData : CognitiveMirror)
    (recentMirrors : list CognitiveMirror) : option RecoveryEngine :=
  if (List.length recentMirrors <? 3)%nat then None
  else
    let dailyScores := map dailyScore recentMirrors in
    match recoveryPattern mirrorData dailyScores with
    | Some (recoveryType, triggerEvent) =>
        let lowestIndex := lowestIndex dailyScores in
        Some {| re_userId := mirrorData.(userId);
                startDate := nth lowestIndex (map ds_date dailyScores) EmptyString;
                reboundDetected := true;
                improvementScore :=
                  Js.Math_round
                    (nth (List.length dailyScores - 1) (map combined dailyScores) 0
                     - nth lowestIndex (map combined dailyScores) 0);
                recoveryType := recoveryType;
                triggerEvent := triggerEvent;
                durationDays := List.length dailyScores - 1 - lowestIndex |}
    | None => None
    end.

(** The handler, triggered by the creation of a mirror document. *)
Definition detectBehavioralRecovery (fs : Firestore)
    (eventData : option CognitiveMirror) : Job (Doc := Doc) unit :=
  match eventData with
  | None => emit (LogError "No cognitive mirror data found" EmptyString)
  | Some mirrorData =>
      try_catch
        (recentMirrors <-
           await (fs.(mirrorsLast7Days) mirrorData.(userId) mirrorData.(date)) ;;
         match recoveryEngine mirrorData recentMirrors with
         | Some record =>
             db_set fs "recoveryEngine" mirrorData.(userId) (RecoveryEngineDoc record) ;;;
             emit (LogInfo ("Recovery detected for user " ++ mirrorData.(userId)))
         | None => ret tt
         end)
        (fun error => emit (LogError "Error detecting behavioral recovery:" error))
  end.

(** *** Life Event detector *)

Record DetectedEvent : Type := {
  de_eventType : string;
  de_significance : Q;
  de_metricsInvolved : list string;
  de_moodShift : Q;
  de_stressShift : Q
}.

(** The [if]/[else if] chain that names a flagged shift. *)
Definition classifyShift (moodShift stressShift : Q) : string :=
  if (moodShift >? 25) && (stressShift <? -15) then "positive_life_change"
  else if (moodShift <? -25) && (stressShift >? 15) then "challenging_life_event"
  else if Js.Math_abs stressShift >? 25 then "major_stress_shift"
  else if Js.Math_abs moodShift >? 30 then "significant_mood_change"
  else "unknown_transition".

Definition flagged (moodShift stressShift : Q) : bool :=
  (Js.Math_abs moodShift >? 25) || (Js.Math_abs stressShift >? 20).

Definition average (field : CognitiveMirror -> Q) (docs : list CognitiveMirror) : Q :=
  Js.sum_by field docs / Js.len docs.

(** Second-half average minus first-half average of a field. *)
Definition shift (field : CognitiveMirror -> Q) (docs : list CognitiveMirror) : Q :=
  let half := (List.length docs / 2)%nat in
  average field (skipn half docs) - average field (firstn half docs).

Definition detectedEvents (cognitiveMirrors : list CognitiveMirror)
    : list DetectedEvent :=
  let moodShift := shift moodScore cognitiveMirrors in
  let stressShift := shift stressIndex cognitiveMirrors in
  if flagged moodShift stressShift then
    [ {| de_eventType := classifyShift moodShift stressShift;
         de_significance :=
           Js.Math_max (Js.Math_abs moodShift) (Js.Math_abs stressShift);
         de_metricsInvolved := ["mood"%string; "stress"%string];
         de_moodShift := Js.Math_round moodShift;
         de_stressShift := Js.Math_round stressShift |} ]
  else [].

Definition lifeEvent (cal : Calendar) (uid : UserId) (event : DetectedEvent)
    : LifeEvent :=
  {| le_userId := uid;
     eventType := event.(de_eventType);
     detectedOn := cal.(todayKey);
     metricsInvolved := event.(de_metricsInvolved);
     significance := event.(de_significance);
     correlatedMoodShift := event.(de_moodShift);
     correlatedStressShift := event.(de_stressShift) |}.

(** The life events the detector writes for one user, given the mirrors of
    the trailing four weeks, earliest first. *)
Definition lifeEvents (cal : Calendar) (uid : UserId)
    (cognitiveMirrors : list CognitiveMirror) : list LifeEvent :=
  if (List.length cognitiveMirrors <? 14)%nat then []
  else map (lifeEvent cal uid) (detectedEvents cognitiveMirrors).

(** The body of the loop over users. *)
Definition lifeEventsUser (fs : Firestore) (cal : Calendar) (uid : UserId)
    : Job (Doc := Doc) unit :=
  cognitiveMirrors <- await (fs.(mirrorsLast4Weeks) uid) ;;
  for_of (lifeEvents cal uid cognitiveMirrors)
    (fun record =>
       db_set fs "lifeEvents" uid (LifeEventDoc record) ;;;
       emit (LogInfo ("Life event detected for user " ++ uid ++ ": "
                      ++ record.(eventType)))).

Definition detectLifeEvents (fs : Firestore) (cal : Calendar)
    : Job (Doc := Doc) unit :=
  emit (LogInfo "Starting life event detection") ;;;
  try_catch
    (usersSnapshot <- await fs.(users) ;;
     for_of usersSnapshot (lifeEventsUser fs cal))
    (fun error => emit (LogError "Error detecting life events:" error)).

(** *** The Life Event detector in the arithmetic of the platform

    The averages and their difference are computed in IEEE doubles, and at a
    threshold the rounding of a division decides whether a shift is flagged
    and how it is named: 225/7 - 50/7 is 25 in the rationals and exceeds 25
    in doubles.  Here the three operations are parameters, so that what is
    proved holds of the doubles' operations as of any others, on finite
    values.  The comparisons with the constant thresholds, [Math.abs],
    [Math.max] and [Math.round] are exact on the values computed.  [shift],
    [lifeEvents] and [detectLifeEvents] above are the instance at the
    operations of the rationals, [exactArithmetic]; the platform's is
    [doubleArithmetic]. *)
Record Arithmetic : Type := {
  fadd : Q -> Q -> Q;
  fsub : Q -> Q -> Q;
  fdiv : Q -> Q -> Q
}.

Definition exactArithmetic : Arithmetic :=
  {| fadd := Qplus; fsub := Qminus; fdiv := Qdiv |}.

Definition doubleArithmetic : Arithmetic :=
  {| fadd := Js.double_add; fsub := Js.double_sub; fdiv := Js.double_div |}.

(** [docs.reduce((sum, doc) => sum + doc.data().field, 0) / docs.length]. *)
Definition averageIn (ar : Arithmetic) (field : CognitiveMirror -> Q)
    (docs : list CognitiveMirror) : Q :=
  ar.(fdiv) (fold_left (fun sum doc => ar.(fadd) sum (field doc)) docs 0)
            (Js.len docs).

(** Second-half average minus first-half average of a field. *)
Definition shiftIn (ar : Arithmetic) (field : CognitiveMirror -> Q)
    (docs : list CognitiveMirror) : Q :=
  let half := (List.length docs / 2)%nat in
  ar.(fsub) (averageIn ar field (skipn half docs))
            (averageIn ar field (firstn half docs)).

Definition detectedEventsIn (ar : Arithmetic) (cognitiveMirrors : list CognitiveMirror)
    : list DetectedEvent :=
  let moodShift := shiftIn ar moodScore cognitiveMirrors in
  let stressShift := shiftIn ar stressIndex cognitiveMirrors in
  if flagged moodShift stressShift then
    [ {| de_eventType := classifyShift moodShift stressShift;
         de_significance :=
           Js.Math_max (Js.Math_abs moodShift) (Js.Math_abs stressShift);
         de_metricsInvolved := ["mood"%string; "stress"%string];
         de_moodShift := Js.Math_round moodShift;
         de_stressShift := Js.Math_round stressShift |} ]
  else [].

Definition lifeEventsIn (ar : Arithmetic) (cal : Calendar) (uid : UserId)
    (cognitiveMirrors : list CognitiveMirror) : list LifeEvent :=
  if (List.length cognitiveMirrors <? 14)%nat then []
  else map (lifeEvent cal uid) (detectedEventsIn ar cognitiveMirrors).

(** The body of the loop over users. *)
Definition lifeEventsUserIn (ar : Arithmetic) (fs : Firestore) (cal : Calendar)
    (uid : UserId) : Job (Doc := Doc) unit :=
  cognitiveMirrors <- await (fs.(mirrorsLast4Weeks) uid) ;;
  for_of (lifeEventsIn ar cal uid cognitiveMirrors)
    (fun record =>
       db_set fs "lifeEvents" uid (LifeEventDoc record) ;;;
       emit (LogInfo ("Life event detected for user " ++ uid ++ ": "
                      ++ record.(eventType)))).

Definition detectLifeEventsIn (ar : Arithmetic) (fs : Firestore) (cal : Calendar)
    : Job (Doc := Doc) unit :=
  emit (LogInfo "Starting life event detection") ;;;
  try_catch
    (usersSnapshot <- await fs.(users) ;;
     for_of usersSnapshot (lifeEventsUserIn ar fs cal))
    (fun error => emit (LogError "Error detecting life events:" error)).

(** The life events among the documents written. *)
Definition lifeEventRecords (w : list (Effect Doc)) : list LifeEvent :=
  flat_map (fun d => match d with LifeEventDoc l => [l] | _ => [] end)
           (written "lifeEvents" w).

(** The life events a run writes for one user. *)
Definition lifeEventsFor (uid : UserId) (ar : Arithmetic) (fs : Firestore)
    (cal : Calendar) : list LifeEvent :=
  filter (fun l => String.eqb l.(le_userId) uid)
         (lifeEventRecords (effects (detectLifeEventsIn ar fs cal))).

(** *** Vocabulary of the properties *)

(** The stress inputs the builder reads are not negative. *)
Definition nonnegative_inputs (deviceSignalsSnap : list DeviceSignal)
    (shadowCognitionSnap : list ShadowCognition) : Prop :=
  (forall deviceData, hd_error deviceSignalsSnap = Some deviceData ->
     0 <= Js.or_zero deviceData.(notificationCount)
     /\ 0 <= Js.or_zero deviceData.(screenTimeMinutes))
  /\ (forall shadowData, hd_error shadowCognitionSnap = Some shadowData ->
        0 <= Js.or_zero shadowData.(frictionTaps)).

(** The three stress terms of a pair of snapshots; a missing snapshot
    contributes nothing. *)
Definition stressTerms (deviceSignalsSnap : list DeviceSignal)
    (shadowCognitionSnap : list ShadowCognition) : Q * Q * Q :=
  (match deviceSignalsSnap with
   | deviceData :: _ => notificationStress deviceData
   | [] => 0
   end,
   match deviceSignalsSnap with
   | deviceData :: _ => screenTimeStress deviceData
   | [] => 0
   end,
   match shadowCognitionSnap with
   | shadowData :: _ => frictionStress shadowData
   | [] => 0
   end).

(** The forecasts a run writes for one user. *)
Definition forecastsFor (uid : UserId) (fs : Firestore) (cal : Calendar)
    : list EmotionForecast :=
  filter (fun f => String.eqb f.(ef_userId) uid)
         (forecasts (effects (generateEmotionForecast fs cal))).

(** What the [reduce] has established after the entries of [pre]: either it
    has not started, or [minIdx] is the index of a lowest entry of [pre]. *)
Definition lowest_so_far (dailyScores pre : list DailyScore) (minIdx : nat) : Prop :=
  (pre = [] /\ minIdx = 0%nat)
  \/ ((minIdx < List.length pre)%nat
      /\ forall j, (j < List.length pre)%nat ->
           nth minIdx (map combined dailyScores) 0 <= nth j (map combined dailyScores) 0).

(** *** Vocabulary of further properties *)

(** The slope the trend adjustment reads off the latest seven records. *)
Definition trendSlope (moodHistory : list CognitiveMirror) : Q :=
  let recentWeek := firstn 7 moodHistory in
  (nth 0 (map moodScore recentWeek) 0 - nth 6 (map moodScore recentWeek) 0) / 6.

(** What the [reduce] has established after the entries of [pre], with the
    tie-break: [minIdx] is the index of the earliest lowest entry of [pre]. *)
Definition earliest_lowest_so_far (dailyScores pre : list DailyScore) (minIdx : nat)
    : Prop :=
  (pre = [] /\ minIdx = 0%nat)
  \/ ((minIdx < List.length pre)%nat
      /\ (forall j, (j < List.length pre)%nat ->
            nth minIdx (map combined dailyScores) 0
            <= nth j (map combined dailyScores) 0)
      /\ (forall j, (j < minIdx)%nat ->
            nth minIdx (map combined dailyScores) 0
            < nth j (map combined dailyScores) 0)).

End Insight.

(** ** Rhythm State Scoring *)

Module RhythmScoring.

Record RhythmScore : Type := {
  rs_userId : UserId;
  rs_date : string;
  classification : string;
  score : Q;
  factorSleep : Q;
  factorMovement : Q;
  factorConsistency : Q;
  stabilityTrend : string
}.

(** What the store answers to the health-echo query of a user and date, and
    whether it accepts a write. *)
Record Firestore : Type := {
  healthEcho : UserId -> string -> completion (list DataCapture.HealthEcho);
  set_result : string -> UserId -> completion unit
}.

Definition sleepScore (rhythmData : DataCapture.RhythmMap) : Q :=
  Js.Math_min 100 (rhythmData.(DataCapture.sleepHours) * 12.5).

(** The score before it is rounded for storage. *)
Definition computeScore (rhythmData : DataCapture.RhythmMap)
    (healthEchoSnap : list DataCapture.HealthEcho) : Q :=
  let score := 50 in
  let score := score + (sleepScore rhythmData - 50) * 0.4 in
  let score := score + (rhythmData.(DataCapture.movementScore) - 50) * 0.3 in
  let score :=
    match healthEchoSnap with
    | [] => score
    | doc :: _ => score + (doc.(DataCapture.wellnessIndex) - 50) * 0.3
    end in
  Js.Math_max 0 (Js.Math_min 100 score).

(** "Determine classification": the stored state, unless the score or the
    movement and sleep override it. *)
Definition classify (rhythmData : DataCapture.RhythmMap) (score : Q) : string :=
  if score >? 75 then "Stable"
  else if score <? 40 then "Off-Rhythm"
  else if (rhythmData.(DataCapture.movementScore) >? 80)
          && (rhythmData.(DataCapture.sleepHours) <? 7)
  then "Overstimulated"
  else rhythmData.(DataCapture.rhythmState).

Definition rhythmScore (rhythmData : DataCapture.RhythmMap)
    (healthEchoSnap : list DataCapture.HealthEcho) : RhythmScore :=
  let score := computeScore rhythmData healthEchoSnap in
  {| rs_userId := rhythmData.(DataCapture.rm_userId);
     rs_date := rhythmData.(DataCapture.rm_date);
     classification := classify rhythmData score;
     score := Js.Math_round score;
     factorSleep := sleepScore rhythmData;
     factorMovement := rhythmData.(DataCapture.movementScore);
     factorConsistency := 50;
     stabilityTrend :=
       if score >? 60 then "improving"
       else if score <? 40 then "declining" else "stable" |}.

(** The handler, triggered by the creation of a rhythm map document. *)
Definition generateRhythmScore (fs : Firestore)
    (eventData : option DataCapture.RhythmMap) : Job (Doc := RhythmScore) unit :=
  match eventData with
  | None => emit (LogError "No rhythm map data found" EmptyString)
  | Some rhythmData =>
      let userId := rhythmData.(DataCapture.rm_userId) in
      try_catch
        (healthEcho <- await (fs.(healthEcho) userId rhythmData.(DataCapture.rm_date)) ;;
         await (fs.(set_result) "rhythmScores" userId) ;;;
         emit (DbSet "rhythmScores" (rhythmScore rhythmData healthEcho)) ;;;
         emit (LogInfo ("Rhythm score generated for user " ++ userId)))
        (fun error => emit (LogError "Error generating rhythm score:" error))
  end.

End RhythmScoring.

(** ** Device signals, shadow cognition and obscura patterns
    ([data-capture-engine.ts]) *)

Module DeviceCapture.

(** A telemetry event with the fields these aggregators read. *)
Record Telemetry : Type := {
  eventType : string;
  eventDuration : option Q;
  timestamp : Q
}.

Record CameraCapture : Type := {
  cameraAngle : option string;
  objectTags : option (list string)
}.

Record DeviceSignal : Type := {
  ds_userId : UserId;
  dndState : bool;
  notificationCount : Z;
  missedCalls : Z;
  screenTimeMinutes : Q;
  appSwitches : Z;
  batteryLevel : Q
}.

Record ShadowCognition : Type := {
  sc_userId : UserId;
  sc_date : string;
  frictionTaps : Z;
  anxietyMotion : Q;
  bedtimeScroll : Q;
  compulsiveOpenCount : Z;
  hesitationTaps : Z;
  avoidanceBehaviors : Z
}.

Record ObscuraPatterns : Type := {
  op_userId : UserId;
  op_date : string;
  faceTiltScore : Q;
  cancelBehaviorCount : Q;
  stillnessIndex : Q;
  postureShifts : Q;
  microExpressionChanges : Q;
  environmentalStillness : Q
}.

Inductive Doc : Type :=
| DeviceSignalDoc (d : DeviceSignal)
| ShadowCognitionDoc (s : ShadowCognition)
| ObscuraPatternsDoc (o : ObscuraPatterns).

Record Firestore : Type := {
  users : completion (list UserId);
  telemetryEvents : UserId -> completion (list Telemetry);
  cameraCaptures : UserId -> completion (list CameraCapture);
  set_result : string -> UserId -> completion unit
}.

Definition db_set (fs : Firestore) (collection : string) (userId : UserId)
    (doc : Doc) : Job unit :=
  await (fs.(set_result) collection userId) ;;;
  emit (DbSet collection doc).

(** *** Device signals *)

(** The [switch] on the event type: the accumulator holds
    [notificationCount], [screenTimeMinutes] and [appSwitches]. *)
Definition tally (acc : Z * Q * Z) (data : Telemetry) : Z * Q * Z :=
  let '(notificationCount, screenTimeMinutes, appSwitches) := acc in
  if String.eqb data.(eventType) "notification_received"
  then ((notificationCount + 1)%Z, screenTimeMinutes, appSwitches)
  else if String.eqb data.(eventType) "screen_on"
  then (notificationCount,
        screenTimeMinutes + Js.or_zero data.(eventDuration) / (1000 * 60),
        appSwitches)
  else if String.eqb data.(eventType) "app_opened"
  then (notificationCount, screenTimeMinutes, (appSwitches + 1)%Z)
  else acc.

Definition deviceSignal (userId : UserId) (docs : list Telemetry) : DeviceSignal :=
  let dndActive := false in
  let '(notificationCount, screenTimeMinutes, appSwitches) :=
    fold_left tally docs (0%Z, 0, 0%Z) in
  {| ds_userId := userId;
     dndState := dndActive;
     notificationCount := notificationCount;
     missedCalls := 0;
     screenTimeMinutes := screenTimeMinutes;
     appSwitches := appSwitches;
     batteryLevel := 100 |}.

Definition deviceSignalsUser (fs : Firestore) (userId : UserId)
    : Job (Doc := Doc) unit :=
  telemetrySnapshot <- await (fs.(telemetryEvents) userId) ;;
  if Js.empty telemetrySnapshot then ret tt
  else
    db_set fs "deviceSignals" userId
      (DeviceSignalDoc (deviceSignal userId telemetrySnapshot)) ;;;
    emit (LogInfo ("Device signals aggregated for user " ++ userId)).

Definition aggregateDeviceSignals (fs : Firestore) : Job (Doc := Doc) unit :=
  emit (LogInfo "Starting device signals aggregation") ;;;
  try_catch
    (usersSnapshot <- await fs.(users) ;;
     for_of usersSnapshot (deviceSignalsUser fs))
    (fun error => emit (LogError "Error aggregating device signals:" error)).

(** *** Shadow cognition *)

Definition isAppOpened (event : Telemetry) : bool :=
  String.eqb event.(eventType) "app_opened".

(** The loop from index 1 that counts rapid app switches: an event and its
    predecessor both opened an app, less than five seconds apart. *)
Fixpoint countFrictionTaps (events : list Telemetry) : Z :=
  match events with
  | previous :: ((current :: _) as rest) =>
      let rapid :=
        isAppOpened current && isAppOpened previous
        && (current.(timestamp) - previous.(timestamp) <? 5000) in
      ((if rapid then 1 else 0) + countFrictionTaps rest)%Z
  | _ => 0%Z
  end.

(** The body of the [forEach] that adds up late-night screen time; [getHours]
    is [new Date(timestamp).getHours()]. *)
Definition addBedtimeScroll (getHours : Q -> Z) (bedtimeScrolling : Q)
    (event : Telemetry) : Q :=
  let hour := getHours event.(timestamp) in
  if ((22 <=? hour)%Z || (hour <=? 6)%Z) && String.eqb event.(eventType) "screen_on"
  then bedtimeScrolling + Js.or_zero event.(eventDuration) / (1000 * 60)
  else bedtimeScrolling.

Definition shadowCognition (getHours : Q -> Z) (userId : UserId) (dateKey : string)
    (events : list Telemetry) : ShadowCognition :=
  let anxietyMotion := 0 in
  let frictionTaps := countFrictionTaps events in
  let bedtimeScrolling := fold_left (addBedtimeScroll getHours) events 0 in
  {| sc_userId := userId;
     sc_date := dateKey;
     frictionTaps := frictionTaps;
     anxietyMotion := anxietyMotion;
     bedtimeScroll := bedtimeScrolling;
     compulsiveOpenCount := Qfloor (inject_Z frictionTaps * 1.5);
     hesitationTaps := Qfloor (inject_Z frictionTaps * 0.3);
     avoidanceBehaviors := Qfloor (inject_Z frictionTaps * 0.8) |}.

Definition shadowCognitionUser (fs : Firestore) (getHours : Q -> Z)
    (dateKey : string) (userId : UserId) : Job (Doc := Doc) unit :=
  telemetrySnapshot <- await (fs.(telemetryEvents) userId) ;;
  if Js.empty telemetrySnapshot then ret tt
  else
    db_set fs "shadowCognition" userId
      (ShadowCognitionDoc (shadowCognition getHours userId dateKey telemetrySnapshot)) ;;;
    emit (LogInfo ("Shadow cognition metrics aggregated for user " ++ userId)).

Definition aggregateShadowCognition (fs : Firestore) (getHours : Q -> Z)
    (dateKey : string) : Job (Doc := Doc) unit :=
  emit (LogInfo "Starting shadow cognition aggregation") ;;;
  try_catch
    (usersSnapshot <- await fs.(users) ;;
     for_of usersSnapshot (shadowCognitionUser fs getHours dateKey))
    (fun error => emit (LogError "Error aggregating shadow cognition:" error)).

(** *** Obscura patterns *)

(** [data.cameraAngle && data.cameraAngle !== "straight"]: the empty string
    is falsy. *)
Definition tilted (data : CameraCapture) : bool :=
  match data.(cameraAngle) with
  | Some angle =>
      negb (String.eqb angle EmptyString) && negb (String.eqb angle "straight")
  | None => false
  end.

(** [data.objectTags && data.objectTags.length < 3]: an array is truthy even
    when empty. *)
Definition still (data : CameraCapture) : bool :=
  match data.(objectTags) with
  | Some tags => (List.length tags <? 3)%nat
  | None => false
  end.

(** The body of the [forEach] over the captures: the accumulator holds
    [faceTiltScore] and [stillnessIndex]. *)
Definition observe (acc : Q * Q) (data : CameraCapture) : Q * Q :=
  let '(faceTiltScore, stillnessIndex) := acc in
  (if tilted data then faceTiltScore + 10 else faceTiltScore,
   if still data then stillnessIndex + 5 else stillnessIndex).

Definition obscuraPatterns (userId : UserId) (dateKey : string)
    (docs : list CameraCapture) : ObscuraPatterns :=
  let cancelBehaviorCount := 0 in
  let '(faceTiltScore, stillnessIndex) := fold_left observe docs (0, 0) in
  {| op_userId := userId;
     op_date := dateKey;
     faceTiltScore := faceTiltScore;
     cancelBehaviorCount := cancelBehaviorCount;
     stillnessIndex := stillnessIndex;
     postureShifts := faceTiltScore * 2;
     microExpressionChanges := faceTiltScore * 0.5;
     environmentalStillness := stillnessIndex |}.

Definition obscuraPatternsUser (fs : Firestore) (dateKey : string) (userId : UserId)
    : Job (Doc := Doc) unit :=
  capturesSnapshot <- await (fs.(cameraCaptures) userId) ;;
  if Js.empty capturesSnapshot then ret tt
  else
    db_set fs "obscuraPatterns" userId
      (ObscuraPatternsDoc (obscuraPatterns userId dateKey capturesSnapshot)) ;;;
    emit (LogInfo ("Obscura patterns aggregated for user " ++ userId)).

Definition aggregateObscuraPatterns (fs : Firestore) (dateKey : string)
    : Job (Doc := Doc) unit :=
  emit (LogInfo "Starting obscura patterns aggregation") ;;;
  try_catch
    (usersSnapshot <- await fs.(users) ;;
     for_of usersSnapshot (obscuraPatternsUser fs dateKey))
    (fun error => emit (LogError "Error aggregating obscura patterns:" error)).

(** *** The records as the Cognitive Mirror Builder reads them back *)

Definition storedDeviceSignal (d : DeviceSignal) : Insight.DeviceSignal :=
  {| Insight.notificationCount := Some (inject_Z d.(notificationCount));
     Insight.screenTimeMinutes := Some d.(screenTimeMinutes) |}.

Definition storedShadowCognition (s : ShadowCognition) : Insight.ShadowCognition :=
  {| Insight.frictionTaps := Some (inject_Z s.(frictionTaps)) |}.

(** *** Vocabulary of the properties *)

(** No event of the snapshot has a negative duration. *)
Definition nonnegative_durations (docs : list Telemetry) : Prop :=
  forall data, In data docs -> 0 <= Js.or_zero data.(eventDuration).

End DeviceCapture.

(** ** Voice profiles ([data-capture-engine.ts]) *)

Module VoiceProfiles.

Record Tone : Type := {
  tone_date : Q;
  dominantTone : string
}.

(** A stored voice profile; [voicePrintHash], a string built from the clock,
    is left out.  A field the handler guards with [||] may be missing. *)
Record VoiceProfile : Type := {
  vp_userId : UserId;
  familiarityScore : option Q;
  emotionalTrend : string;
  speakerName : string;
  relationshipType : string;
  lastInteraction : Q;
  conversationCount : option Q;
  toneEvolution : option (list Tone)
}.

Record Updates : Type := {
  u_familiarityScore : Q;
  u_emotionalTrend : string;
  u_lastInteraction : Q;
  u_conversationCount : Q;
  u_toneEvolution : list Tone
}.

(** [xs.slice(-n)]: the last [n] entries. *)
Definition slice_last {A : Type} (n : nat) (xs : list A) : list A :=
  skipn (List.length xs - n) xs.

(** [xs || []]. *)
Definition or_empty {A : Type} (xs : option (list A)) : list A :=
  match xs with Some l => l | None => [] end.

(** The profile created for a speaker heard for the first time; [now] is
    [Date.now()]. *)
Definition newProfile (userId : UserId) (speakerLabel emotion : string) (now : Q)
    : VoiceProfile :=
  {| vp_userId := userId;
     familiarityScore := Some 1;
     emotionalTrend := emotion;
     speakerName := speakerLabel;
     relationshipType := "unknown";
     lastInteraction := now;
     conversationCount := Some 1;
     toneEvolution := Some [ {| tone_date := now; dominantTone := emotion |} ] |}.

(** The fields the handler sends to [update] for an existing profile. *)
Definition updates (voiceProfileData : VoiceProfile) (emotion : string) (now : Q)
    : Updates :=
  {| u_familiarityScore :=
       Js.Math_min 100 (Js.or_zero voiceProfileData.(familiarityScore) + 1);
     u_emotionalTrend := emotion;
     u_lastInteraction := now;
     u_conversationCount := Js.or_zero voiceProfileData.(conversationCount) + 1;
     u_toneEvolution :=
       slice_last 10
         (or_empty voiceProfileData.(toneEvolution)
          ++ [ {| tone_date := now; dominantTone := emotion |} ]) |}.

(** [ref.update(updates)]: the named fields are replaced, the others kept. *)
Definition update (voiceProfileData : VoiceProfile) (u : Updates) : VoiceProfile :=
  {| vp_userId := voiceProfileData.(vp_userId);
     familiarityScore := Some u.(u_familiarityScore);
     emotionalTrend := u.(u_emotionalTrend);
     speakerName := voiceProfileData.(speakerName);
     relationshipType := voiceProfileData.(relationshipType);
     lastInteraction := u.(u_lastInteraction);
     conversationCount := Some u.(u_conversationCount);
     toneEvolution := Some u.(u_toneEvolution) |}.

(** The profile of the speaker in the store once the handler has processed
    a voice event, given what the profile query returned. *)
Definition updateVoiceProfile (voiceProfileQuery : list VoiceProfile)
    (userId : UserId) (speakerLabel emotion : string) (now : Q) : VoiceProfile :=
  match voiceProfileQuery with
  | [] => newProfile userId speakerLabel emotion now
  | voiceProfileData :: _ => update voiceProfileData (updates voiceProfileData emotion now)
  end.

(** A voice event of one speaker: the clock reading and the emotion. *)
Definition VoiceEvent : Type := (Q * string)%type.

(** The profile of a speaker after a sequence of voice events, each one
    handled with the profile the previous one left. *)
Definition profileAfter (userId : UserId) (speakerLabel : string)
    (events : list VoiceEvent) : option VoiceProfile :=
  fold_left
    (fun profile event =>
       Some (updateVoiceProfile
               (match profile with Some p => [p] | None => [] end)
               userId speakerLabel (snd event) (fst event)))
    events None.

(** *** Vocabulary of the properties *)

(** The step of [profileAfter]. *)
Definition step (uid : UserId) (speakerLabel : string) (profile : option VoiceProfile)
    (event : VoiceEvent) : option VoiceProfile :=
  Some (updateVoiceProfile (match profile with Some p => [p] | None => [] end)
          uid speakerLabel (snd event) (fst event)).

Definition toneOf (event : VoiceEvent) : Tone :=
  {| tone_date := fst event; dominantTone := snd event |}.

(** What holds of the profile after the events [seen]. *)
Definition profile_tracks (uid : UserId) (speakerLabel : string)
    (seen : list VoiceEvent) (p : VoiceProfile) : Prop :=
  (exists c, p.(conversationCount) = Some c /\ c == Js.len seen)
  /\ (exists f, p.(familiarityScore) = Some f /\ f == Js.Math_min 100 (Js.len seen))
  /\ p.(toneEvolution) = Some (slice_last 10 (map toneOf seen))
  /\ p.(speakerName) = speakerLabel /\ p.(vp_userId) = uid
  /\ p.(relationshipType) = "unknown"%string.

End VoiceProfiles.

(** ** GPS events ([data-capture-engine.ts]) *)

Module Gps.

Record Coords : Type := {
  c_lat : Q;
  c_lng : Q;
  c_accuracy : Q
}.

Record LocationLog : Type := {
  uid : UserId;
  placeId : option string;
  coords : Coords;
  timestamp : Q;
  eventType : string
}.

Record GpsEvent : Type := {
  userId : UserId;
  locationName : string;
  lat : Q;
  lng : Q;
  taggedEmotion : string;
  gps_timestamp : Q;
  accuracy : Q;
  dwellTimeMinutes : Q;
  visitType : string
}.

(** The [emotion] fields of the user's latest voice events (at most five, of
    the last 30 minutes, latest first), and whether a write is accepted. *)
Record Firestore : Type := {
  recentEmotions : UserId -> completion (list string);
  set_result : string -> UserId -> completion unit
}.

(** [acc[emotion] = (acc[emotion] || 0) + 1] on an object whose entries are
    kept in insertion order and start absent, as they are for the labels of
    [plain_label] below: a name inherited from [Object.prototype] would be
    read as truthy before any count is stored, and an array index would be
    listed before the other keys. *)
Fixpoint increment (emotion : string) (acc : list (string * Z)) : list (string * Z) :=
  match acc with
  | [] => [(emotion, 1%Z)]
  | (key, count) :: rest =>
      if String.eqb key emotion then (key, (count + 1)%Z) :: rest
      else (key, count) :: increment emotion rest
  end.

Definition emotionCounts (emotions : list string) : list (string * Z) :=
  fold_left (fun acc emotion => increment emotion acc) emotions [].

(** [(a, b) => emotionCounts[a[0]] > emotionCounts[b[0]] ? a : b]. *)
Definition larger (a b : string * Z) : string * Z :=
  if (snd b <? snd a)%Z then a else b.

(** "Simple majority voting for dominant emotion". *)
Definition dominantEmotion (emotions : list string) : string :=
  if Js.empty emotions then "neutral"
  else
    match emotionCounts emotions with
    | first :: rest => fst (fold_left larger rest first)
    | [] => "neutral"
    end.

(** [placeId || "Unknown Location"]: the empty string is falsy. *)
Definition locationNameOf (placeId : option string) : string :=
  match placeId with
  | Some name => if String.eqb name EmptyString then "Unknown Location" else name
  | None => "Unknown Location"
  end.

Definition gpsEvent (locationData : LocationLog) (emotions : list string) : GpsEvent :=
  {| userId := locationData.(uid);
     locationName := locationNameOf locationData.(placeId);
     lat := locationData.(coords).(c_lat);
     lng := locationData.(coords).(c_lng);
     taggedEmotion := dominantEmotion emotions;
     gps_timestamp := locationData.(timestamp);
     accuracy := locationData.(coords).(c_accuracy);
     dwellTimeMinutes := 0;
     visitType := locationData.(eventType) |}.

(** The handler, triggered by the creation of a location log. *)
Definition processGpsEvent (fs : Firestore) (eventData : option LocationLog)
    : Job (Doc := GpsEvent) unit :=
  match eventData with
  | None => emit (LogError "No location data found" EmptyString)
  | Some locationData =>
      let userId := locationData.(uid) in
      try_catch
        (recentEmotions <- await (fs.(recentEmotions) userId) ;;
         let record := gpsEvent locationData recentEmotions in
         await (fs.(set_result) "gpsEvents" userId) ;;;
         emit (DbSet "gpsEvents" record) ;;;
         emit (LogInfo ("GPS event processed for " ++ userId ++ " at "
                        ++ record.(locationName))))
        (fun error => emit (LogError "Error processing GPS event:" error))
  end.

(** *** Vocabulary of the properties *)

(** [emotionCounts[emotion] || 0]. *)
Fixpoint countOf (emotion : string) (acc : list (string * Z)) : Z :=
  match acc with
  | [] => 0%Z
  | (key, count) :: rest =>
      if String.eqb key emotion then count else countOf emotion rest
  end.

(** How often an emotion occurs among the recent ones. *)
Definition occurrences (emotion : string) (emotions : list string) : Z :=
  Z.of_nat (count_occ string_dec emotions emotion).

(** The keys of the counting object are distinct, and every count is at
    least 1. *)
Definition well_counted (acc : list (string * Z)) : Prop :=
  NoDup (map fst acc) /\ forall entry, In entry acc -> (1 <= snd entry)%Z.

(** The names an object literal inherits from [Object.prototype]. *)
Definition inheritedNames : list string :=
  ["constructor"; "__proto__"; "hasOwnProperty"; "isPrototypeOf";
   "propertyIsEnumerable"; "toLocaleString"; "toString"; "valueOf";
   "__defineGetter__"; "__defineSetter__"; "__lookupGetter__";
   "__lookupSetter__"]%string.

(** A label the counting object holds as a plain key: not an inherited
    name, and not starting with a digit, which every array index does. *)
Definition plain_label (emotion : string) : bool :=
  negb (existsb (String.eqb emotion) inheritedNames)
  && match emotion with
     | String c _ =>
         negb ((48 <=? Ascii.nat_of_ascii c)%nat && (Ascii.nat_of_ascii c <=? 57)%nat)
     | EmptyString => true
     end.

End Gps.

(** ** Audio events ([data-capture-engine.ts]) *)

Module Audio.

Record AudioEvent : Type := {
  uid : UserId;
  durationSec : option Q
}.

(** The placeholder conversation; its own fresh id is left out, and
    [conversationId] is the id of the audio event. *)
Record Conversation : Type := {
  userId : UserId;
  transcript : string;
  speakerId : string;
  emotionTag : string;
  conversationId : string;
  c_durationSec : Q;
  confidence : Q
}.

(** A write the handler sends: the conversation it stores, or the
    [transcriptionStatus] it sets on the audio event with [update]. *)
Inductive Write : Type :=
| SetConversation (c : Conversation)
| UpdateStatus (audioEventId : string) (transcriptionStatus : string).

(** Whether the store accepts the conversation, and the status update. *)
Record Firestore : Type := {
  set_conversation : completion unit;
  update_status : string -> completion unit
}.

Definition conversation (audioEventId : string) (audioEventData : AudioEvent)
    : Conversation :=
  {| userId := audioEventData.(uid);
     transcript := "Placeholder transcript";
     speakerId := "speaker_1";
     emotionTag := "neutral";
     conversationId := audioEventId;
     c_durationSec := Js.or_zero audioEventData.(durationSec);
     confidence := 0.85 |}.

Definition update_audioEvent (fs : Firestore) (audioEventId status : string)
    : Job (Doc := Write) unit :=
  await (fs.(update_status) status) ;;;
  emit (DbSet "audioEvents" (UpdateStatus audioEventId status)).

(** The handler, triggered by the creation of an audio event.  The [catch]
    block itself awaits a write. *)
Definition processAudioEvent (fs : Firestore) (audioEventId : string)
    (eventData : option AudioEvent) : Job (Doc := Write) unit :=
  match eventData with
  | None => emit (LogError "No audio event data found" EmptyString)
  | Some audioEventData =>
      try_catch
        (await fs.(set_conversation) ;;;
         emit (DbSet "conversations"
                 (SetConversation (conversation audioEventId audioEventData))) ;;;
         update_audioEvent fs audioEventId "complete" ;;;
         emit (LogInfo ("Audio processing completed for " ++ audioEventId)))
        (fun error =>
           emit (LogError "Error processing audio event:" error) ;;;
           update_audioEvent fs audioEventId "error")
  end.

End Audio.

(** ** Sample stores

    Concrete answers of the store, used to run the handlers. *)

Module Sample.
Local Open Scope string_scope.

Definition motion (ms : Q) : DataCapture.TelemetryEvent :=
  {| DataCapture.eventType := "motion_event";
     DataCapture.eventDuration := Some ms |}.

(** One user, one motion event of duration 1500: a movement score of 25. *)
Definition telemetryStore : DataCapture.Firestore :=
  {| DataCapture.users := Normal ["ada"%string];
     DataCapture.telemetryEvents := fun _ => Normal [motion 1500];
     DataCapture.set_result := fun _ _ => Normal tt |}.

(** The rhythm map the aggregator builds from that telemetry. *)
Definition rhythmMapOfAda : DataCapture.RhythmMap :=
  fst (DataCapture.dailyHealthMetrics "ada" "2024-05-04" [motion 1500]).

(** Two users with the same telemetry; the query for the first one fails. *)
Definition faultyTelemetryStore : DataCapture.Firestore :=
  {| DataCapture.users := Normal ["ada"%string; "bob"%string];
     DataCapture.telemetryEvents :=
       fun uid => if String.eqb uid "ada" then Throw "UNAVAILABLE"
                  else Normal [motion 1500];
     DataCapture.set_result := fun _ _ => Normal tt |}.

Definition calendar : Insight.Calendar :=
  {| Insight.yesterdayKey := "2024-05-04";
     Insight.todayKey := "2024-05-05";
     Insight.tomorrowKey := "2024-05-06";
     Insight.dayOfWeek := 0;
     Insight.getDay := fun key =>
       match find (fun entry => String.eqb (fst entry) key)
                  [("2024-05-04"%string, 6%Z); ("2024-05-02"%string, 4%Z);
                   ("2024-04-29"%string, 1%Z); ("2024-04-25"%string, 4%Z);
                   ("2024-04-22"%string, 1%Z); ("2024-04-18"%string, 4%Z);
                   ("2024-04-15"%string, 1%Z)] with
       | Some entry => snd entry
       | None => 0%Z
       end |}.

(** A stored mirror with the given date, mood score and stress index. *)
Definition mirrorOn (uid : UserId) (key : string) (mood stress : Q)
    : Insight.CognitiveMirror :=
  {| Insight.userId := uid;
     Insight.date := key;
     Insight.moodScore := mood;
     Insight.stressIndex := stress;
     Insight.highlightInsights := [];
     Insight.energyLevel := 100 - stress;
     Insight.socialConnection := 0;
     Insight.purposeAlignment := Js.Math_round ((mood + (100 - stress)) / 2) |}.

(** A store that answers every query with nothing and accepts every write. *)
Definition emptyStore (us : list UserId) : Insight.Firestore :=
  {| Insight.users := Normal us;
     Insight.voiceEvents := fun _ => Normal [];
     Insight.deviceSignals := fun _ => Normal [];
     Insight.shadowCognition := fun _ => Normal [];
     Insight.rhythmMap := fun _ => Normal [];
     Insight.mirrorsLast30Days := fun _ => Normal [];
     Insight.mirrorsLast7Days := fun _ _ => Normal [];
     Insight.mirrorsLast4Weeks := fun _ => Normal [];
     Insight.set_result := fun _ _ => Normal tt |}.

(** A day with no notifications and five minutes of screen time. *)
Definition quietDevice : Insight.DeviceSignal :=
  {| Insight.notificationCount := Some 0;
     Insight.screenTimeMinutes := Some 5 |}.

(** A device record whose notification count is negative. *)
Definition negativeDevice : Insight.DeviceSignal :=
  {| Insight.notificationCount := Some (-100);
     Insight.screenTimeMinutes := None |}.

Definition quietStore : Insight.Firestore :=
  {| Insight.users := Normal ["ada"%string];
     Insight.voiceEvents := fun _ => Normal [];
     Insight.deviceSignals := fun _ => Normal [quietDevice];
     Insight.shadowCognition := fun _ => Normal [];
     Insight.rhythmMap := fun _ => Normal [];
     Insight.mirrorsLast30Days := fun _ => Normal [];
     Insight.mirrorsLast7Days := fun _ _ => Normal [];
     Insight.mirrorsLast4Weeks := fun _ => Normal [];
     Insight.set_result := fun _ _ => Normal tt |}.

(** Two users; the voice-event query for the first one fails. *)
Definition faultyStore : Insight.Firestore :=
  {| Insight.users := Normal ["ada"; "bob"];
     Insight.voiceEvents :=
       fun uid => if String.eqb uid "ada" then Throw "UNAVAILABLE" else Normal [];
     Insight.deviceSignals := fun _ => Normal [quietDevice];
     Insight.shadowCognition := fun _ => Normal [];
     Insight.rhythmMap := fun _ => Normal [];
     Insight.mirrorsLast30Days := fun _ => Normal [];
     Insight.mirrorsLast7Days := fun _ _ => Normal [];
     Insight.mirrorsLast4Weeks := fun _ => Normal [];
     Insight.set_result := fun _ _ => Normal tt |}.

(** Seven mirrors of one user, latest first; three fall on a Monday. *)
Definition risingWeek (uid : UserId) : list Insight.CognitiveMirror :=
  [mirrorOn uid "2024-05-04" 90 30; mirrorOn uid "2024-05-02" 80 30;
   mirrorOn uid "2024-04-29" 85 30; mirrorOn uid "2024-04-25" 70 30;
   mirrorOn uid "2024-04-22" 80 30; mirrorOn uid "2024-04-18" 60 30;
   mirrorOn uid "2024-04-15" 50 30].

(** Two users: the first has six mirrors in the trailing 30 days, the
    second seven. *)
Definition historyStore : Insight.Firestore :=
  {| Insight.users := Normal ["ada"; "bob"];
     Insight.voiceEvents := fun _ => Normal [];
     Insight.deviceSignals := fun _ => Normal [];
     Insight.shadowCognition := fun _ => Normal [];
     Insight.rhythmMap := fun _ => Normal [];
     Insight.mirrorsLast30Days :=
       fun uid => if String.eqb uid "ada" then Normal (firstn 6 (risingWeek uid))
                  else Normal (risingWeek uid);
     Insight.mirrorsLast7Days := fun _ _ => Normal [];
     Insight.mirrorsLast4Weeks := fun _ => Normal [];
     Insight.set_result := fun _ _ => Normal tt |}.

(** The store of [historyStore], but the history query of the first user
    throws. *)
Definition brokenHistoryStore : Insight.Firestore :=
  {| Insight.users := Normal ["ada"; "bob"];
     Insight.voiceEvents := fun _ => Normal [];
     Insight.deviceSignals := fun _ => Normal [];
     Insight.shadowCognition := fun _ => Normal [];
     Insight.rhythmMap := fun _ => Normal [];
     Insight.mirrorsLast30Days :=
       fun uid => if String.eqb uid "ada" then Throw "UNAVAILABLE"
                  else Normal (risingWeek uid);
     Insight.mirrorsLast7Days := fun _ _ => Normal [];
     Insight.mirrorsLast4Weeks := fun _ => Normal [];
     Insight.set_result := fun _ _ => Normal tt |}.

(** Seven mirrors at mood 50, none of them on a Monday. *)
Definition flatWeek (uid : UserId) : list Insight.CognitiveMirror :=
  repeat (mirrorOn uid "2024-05-02" 50 30) 7.

(** The forecast the engine builds for the second user of [historyStore]. *)
Definition forecastOfBob : Insight.EmotionForecast :=
  Insight.emotionForecast calendar "bob" (risingWeek "bob").

(** A store that answers the window queries of the detectors with the given
    mirrors and accepts every write. *)
Definition windowStore (docs : list Insight.CognitiveMirror) : Insight.Firestore :=
  {| Insight.users := Normal ["ada"];
     Insight.voiceEvents := fun _ => Normal [];
     Insight.deviceSignals := fun _ => Normal [];
     Insight.shadowCognition := fun _ => Normal [];
     Insight.rhythmMap := fun _ => Normal [];
     Insight.mirrorsLast30Days := fun _ => Normal docs;
     Insight.mirrorsLast7Days := fun _ _ => Normal docs;
     Insight.mirrorsLast4Weeks := fun _ => Normal docs;
     Insight.set_result := fun _ _ => Normal tt |}.

(** The mirror whose creation triggers the recovery detector in the samples. *)
Definition reboundMirror : Insight.CognitiveMirror := mirrorOn "ada" "2024-05-04" 80 30.

(** Combined scores 25, 19, 50: a trough of 19 and an improvement of 31. *)
Definition reboundWindow : list Insight.CognitiveMirror :=
  [mirrorOn "ada" "2024-05-02" 55 30; mirrorOn "ada" "2024-05-03" 49 30;
   reboundMirror].

(** Combined scores 25, 21, 52: a trough of 21 and an improvement of 31. *)
Definition shallowMirror : Insight.CognitiveMirror := mirrorOn "ada" "2024-05-04" 82 30.

Definition shallowWindow : list Insight.CognitiveMirror :=
  [mirrorOn "ada" "2024-05-02" 55 30; mirrorOn "ada" "2024-05-03" 51 30;
   shallowMirror].

(** Two mirrors only, with combined scores -20 and 50. *)
Definition shortWindow : list Insight.CognitiveMirror :=
  [mirrorOn "ada" "2024-05-03" 10 30; reboundMirror].

(** Fourteen mirrors, earliest first: a week at mood 40 and stress 30, then
    a week at mood 66 and stress 46.  The mood shift is 26, the stress shift
    16. *)
Definition shiftedFortnight : list Insight.CognitiveMirror :=
  repeat (mirrorOn "ada" "2024-04-21" 40 30) 7
  ++ repeat (mirrorOn "ada" "2024-04-28" 66 46) 7.

(** Thirteen mirrors, earliest first: six at mood 0, then seven at mood 100. *)
Definition thirteenDays : list Insight.CognitiveMirror :=
  repeat (mirrorOn "ada" "2024-04-21" 0 30) 6
  ++ repeat (mirrorOn "ada" "2024-04-28" 100 30) 7.

(** Two users: the first has thirteen mirrors in the trailing four weeks,
    the second the fourteen of [shiftedFortnight]. *)
Definition fortnightStore : Insight.Firestore :=
  {| Insight.users := Normal ["ada"; "bob"];
     Insight.voiceEvents := fun _ => Normal [];
     Insight.deviceSignals := fun _ => Normal [];
     Insight.shadowCognition := fun _ => Normal [];
     Insight.rhythmMap := fun _ => Normal [];
     Insight.mirrorsLast30Days := fun _ => Normal [];
     Insight.mirrorsLast7Days := fun _ _ => Normal [];
     Insight.mirrorsLast4Weeks :=
       fun uid => if String.eqb uid "ada" then Normal thirteenDays
                  else Normal shiftedFortnight;
     Insight.set_result := fun _ _ => Normal tt |}.

(** The window query of the first user throws; the second user has the
    fourteen mirrors of [shiftedFortnight]. *)
Definition brokenWindowStore : Insight.Firestore :=
  {| Insight.users := Normal ["ada"; "bob"];
     Insight.voiceEvents := fun _ => Normal [];
     Insight.deviceSignals := fun _ => Normal [];
     Insight.shadowCognition := fun _ => Normal [];
     Insight.rhythmMap := fun _ => Normal [];
     Insight.mirrorsLast30Days := fun _ => Normal [];
     Insight.mirrorsLast7Days := fun _ _ => Normal [];
     Insight.mirrorsLast4Weeks :=
       fun uid => if String.eqb uid "ada" then Throw "UNAVAILABLE"
                  else Normal shiftedFortnight;
     Insight.set_result := fun _ _ => Normal tt |}.

(** Fourteen mirrors, earliest first, whose mood averages are 50/7 and
    225/7: the mood shift is 25 in the rationals and 25 + 2^-48 in doubles.
    The stress index stays at the given values in each half. *)
Definition thresholdFortnight (stressBefore stressAfter : Q)
    : list Insight.CognitiveMirror :=
  map (fun mood => mirrorOn "ada" "2024-04-21" mood stressBefore) [50; 0; 0; 0; 0; 0; 0]
  ++ map (fun mood => mirrorOn "ada" "2024-04-28" mood stressAfter)
         [100; 100; 25; 0; 0; 0; 0].

(** The mirror the builder builds from the answers of [quietStore]. *)
Definition quietMirror : Insight.CognitiveMirror :=
  Insight.cognitiveMirror "ada" "2024-05-04" [] [quietDevice] [] [].

(** Two users: the first has no telemetry in the window, the second one
    motion event. *)
Definition sparseTelemetryStore : DataCapture.Firestore :=
  {| DataCapture.users := Normal ["ada"; "bob"];
     DataCapture.telemetryEvents :=
       fun uid => if String.eqb uid "ada" then Normal [] else Normal [motion 1500];
     DataCapture.set_result := fun _ _ => Normal tt |}.

(** One user with telemetry; the store accepts the rhythm map and rejects
    the health echo. *)
Definition halfWrittenStore : DataCapture.Firestore :=
  {| DataCapture.users := Normal ["ada"];
     DataCapture.telemetryEvents := fun _ => Normal [motion 1500];
     DataCapture.set_result :=
       fun collection _ =>
         if String.eqb collection "healthEcho" then Throw "UNAVAILABLE"
         else Normal tt |}.

(** Two users without any data for the day. *)
Definition silentStore : Insight.Firestore := emptyStore ["ada"; "bob"].

(** Telemetry of an evening: two apps opened within a second, a screen
    session at 23 h and one at noon; the clock of the sample reads the hour
    off the timestamp. *)
Definition evening : list DeviceCapture.Telemetry :=
  [ {| DeviceCapture.eventType := "app_opened";
       DeviceCapture.eventDuration := None;
       DeviceCapture.timestamp := 1000 |};
    {| DeviceCapture.eventType := "app_opened";
       DeviceCapture.eventDuration := None;
       DeviceCapture.timestamp := 1800 |};
    {| DeviceCapture.eventType := "screen_on";
       DeviceCapture.eventDuration := Some 600000;
       DeviceCapture.timestamp := 23 |};
    {| DeviceCapture.eventType := "screen_on";
       DeviceCapture.eventDuration := Some 300000;
       DeviceCapture.timestamp := 12 |} ].

Definition hourOf (timestamp : Q) : Z :=
  if Qeq_bool timestamp 23 then 23%Z else 12%Z.

(** Three mirrors with combined scores 10, 10, 50: the lowest score occurs
    twice. *)
Definition tiedWindow : list Insight.CognitiveMirror :=
  [mirrorOn "ada" "2024-05-02" 40 30; mirrorOn "ada" "2024-05-03" 40 30;
   reboundMirror].


(** Two recent emotions that are names every object inherits. *)
Definition inheritedEmotions : list string := ["constructor"; "__proto__"].

(** Five recent emotions, "calm" three times. *)
Definition recentEmotions : list string := ["calm"; "tense"; "calm"; "happy"; "calm"].

(** The store accepts the conversation and rejects every status update. *)
Definition statusRejectingStore : Audio.Firestore :=
  {| Audio.set_conversation := Normal tt;
     Audio.update_status := fun _ => Throw "UNAVAILABLE" |}.

(** The store accepts everything but the status "complete". *)
Definition completeRejectingStore : Audio.Firestore :=
  {| Audio.set_conversation := Normal tt;
     Audio.update_status :=
       fun status => if String.eqb status "complete" then Throw "UNAVAILABLE"
                     else Normal tt |}.

Definition audioOfAda : Audio.AudioEvent :=
  {| Audio.uid := "ada"; Audio.durationSec := Some 12 |}.

(** Twelve voice events of one speaker, at seconds 1 to 12. *)
Definition twelveEvents : list VoiceProfiles.VoiceEvent :=
  map (fun n => (inject_Z (Z.of_nat n), "calm")) (seq 1 12).

End Sample.

(** * Properties *)

(** ** Numbers *)

Section JsFacts.

Lemma ltb_lt (x y : Q) : (x <? y) = true <-> x < y.
Proof.
  unfold Js.ltb. rewrite negb_true_iff, <- not_true_iff_false, Qle_bool_iff.
  split; [apply Qnot_le_lt | apply Qlt_not_le].
Qed.

Lemma ltb_ge (x y : Q) : (x <? y) = false <-> y <= x.
Proof.
  unfold Js.ltb. rewrite negb_false_iff. apply Qle_bool_iff.
Qed.

Lemma gtb_gt (x y : Q) : (x >? y) = true <-> y < x.
Proof. apply ltb_lt. Qed.

Lemma gtb_le (x y : Q) : (x >? y) = false <-> x <= y.
Proof. apply ltb_ge. Qed.

Lemma or_zero_Some (q : Q) : Js.or_zero (Some q) == q.
Proof.
  simpl. destruct (Qeq_bool q 0) eqn:E; [|reflexivity].
  apply Qeq_bool_iff in E. now symmetry.
Qed.

Lemma Math_min_le_l (x y : Q) : Js.Math_min x y <= x.
Proof. apply Q.le_min_l. Qed.

Lemma Math_min_le_r (x y : Q) : Js.Math_min x y <= y.
Proof. apply Q.le_min_r. Qed.

Lemma Math_min_glb (x y z : Q) : z <= x -> z <= y -> z <= Js.Math_min x y.
Proof. apply Q.min_glb. Qed.

(** [Math.round] moves a number by at most one half. *)
Lemma Math_round_lower (x : Q) : x - (1 # 2) < Js.Math_round x.
Proof.
  unfold Js.Math_round.
  pose proof (Qlt_floor (x + (1 # 2))) as H.
  rewrite inject_Z_plus in H. change (inject_Z 1) with 1 in H. lra.
Qed.

Lemma Math_round_upper (x : Q) : Js.Math_round x <= x + (1 # 2).
Proof. unfold Js.Math_round. apply Qfloor_le. Qed.

(** [Math.round] is monotone and leaves integers alone. *)
Lemma Math_round_mono (x y : Q) : x <= y -> Js.Math_round x <= Js.Math_round y.
Proof.
  intros H. unfold Js.Math_round. rewrite <- Zle_Qle.
  apply Qfloor_resp_le. lra.
Qed.

Lemma Math_round_Z (z : Z) : Js.Math_round (inject_Z z) = inject_Z z.
Proof.
  unfold Js.Math_round. f_equal.
  apply Z.le_antisymm.
  - apply Z.lt_succ_r. rewrite Zlt_Qlt.
    unfold Z.succ. rewrite inject_Z_plus. change (inject_Z 1) with 1.
    pose proof (Qfloor_le (inject_Z z + (1 # 2))). lra.
  - rewrite <- (Qfloor_Z z) at 1. apply Qfloor_resp_le. lra.
Qed.

(** *** Doubles *)

Lemma roundHalfEven_whole (q : Q) (m : Z) :
  q == inject_Z m -> Js.roundHalfEven q = m.
Proof.
  intros E. unfold Js.roundHalfEven.
  assert (F : Qfloor q = m) by (rewrite E; apply Qfloor_Z).
  rewrite F.
  destruct (Qcompare_spec (q - inject_Z m) (1 # 2)) as [H | H | H];
    [rewrite E in H; lra | reflexivity | rewrite E in H; lra].
Qed.

Lemma Qred_whole (q : Q) (z : Z) : q == inject_Z z -> Qred q = inject_Z z.
Proof.
  intros E. rewrite (Qred_complete _ _ E).
  unfold Qred, inject_Z.
  pose proof (Z.ggcd_gcd z 1) as Hg.
  pose proof (Z.ggcd_correct_divisors z 1) as Hd.
  destruct (Z.ggcd z 1) as (g, (a, b)). simpl in Hg, Hd.
  rewrite Z.gcd_1_r in Hg. subst g. destruct Hd as [Ha Hb].
  assert (Ea : a = z) by lia. assert (Eb : b = 1%Z) by lia.
  rewrite Ea, Eb. reflexivity.
Qed.

(** A whole number up to 2^53 is a double: rounding leaves it as it is. *)
Lemma toDouble_whole (q : Q) (z : Z) :
  q == inject_Z z -> (0 <= z <= 2 ^ 53)%Z -> Js.toDouble q == inject_Z z.
Proof.
  intros E Hz. unfold Js.toDouble. rewrite (Qred_whole q z E).
  destruct (Qeq_bool (inject_Z z) 0) eqn:E0.
  { apply Qeq_bool_iff in E0. now rewrite E0. }
  assert (Hpos : (0 < z)%Z).
  { destruct (Z.eq_dec z 0) as [-> | Hne]; [discriminate | lia]. }
  rewrite Qred_correct.
  assert (Hb : Js.binade (inject_Z z) = Z.log2 z).
  { unfold Js.binade. simpl Qnum. simpl Qden. rewrite Z.abs_eq by lia.
    change (Z.log2 1) with 0%Z. rewrite Z.sub_0_r.
    assert (Hl : Qle_bool (Js.pow2 (Z.log2 z)) (Qabs (inject_Z z)) = true).
    { apply Qle_bool_iff. unfold Js.pow2.
      pose proof (Z.log2_nonneg z) as Hn. apply Z.leb_le in Hn. rewrite Hn.
      change (Qabs (inject_Z z)) with (inject_Z (Z.abs z)).
      rewrite Z.abs_eq by lia.
      rewrite <- Zle_Qle. apply Z.log2_spec. exact Hpos. }
    now rewrite Hl. }
  rewrite Hb.
  pose proof (Z.log2_spec z Hpos) as [Hlo Hhi].
  pose proof (Z.log2_nonneg z) as Hn.
  assert (Hle : (Z.log2 z <= 53)%Z).
  { pose proof (Z.log2_le_mono z (2 ^ 53) (proj2 Hz)) as Hm.
    rewrite Z.log2_pow2 in Hm by lia. exact Hm. }
  destruct (Z.eq_dec (Z.log2 z) 53) as [E53 | Hne].
  - rewrite E53 in *.
    assert (Ez : z = (2 ^ 53)%Z) by (apply Z.le_antisymm; [apply Hz | exact Hlo]).
    rewrite Ez. reflexivity.
  - unfold Js.pow2.
    destruct (0 <=? Z.log2 z - 52)%Z eqn:E52.
    + apply Z.leb_le in E52. assert (E' : Z.log2 z = 52%Z) by lia.
      rewrite E'. change (2 ^ (52 - 52))%Z with 1%Z.
      rewrite (roundHalfEven_whole _ z); [field |]. field.
    + apply Z.leb_gt in E52.
      assert (Hp : (0 < 2 ^ (- (Z.log2 z - 52)))%Z) by (apply Z.pow_pos_nonneg; lia).
      assert (Hq : ~ inject_Z (2 ^ (- (Z.log2 z - 52))) == 0).
      { revert Hp. generalize (2 ^ (- (Z.log2 z - 52)))%Z. intros p Hp Hc.
        unfold Qeq in Hc. simpl in Hc. lia. }
      rewrite (roundHalfEven_whole _ (z * 2 ^ (- (Z.log2 z - 52)))).
      * rewrite inject_Z_mult. field. exact Hq.
      * rewrite inject_Z_mult. field. exact Hq.
Qed.

(** The doubles nearest to 225/7 and 50/7 differ by 25 + 2^-48, and a tenth
    plus two tenths is not three tenths. *)
Example toDouble_samples :
  Js.double_sub (Js.toDouble (225 # 7)) (Js.toDouble (50 # 7))
  == 25 + / inject_Z (2 ^ 48)
  /\ ~ Js.double_add (Js.toDouble (1 # 10)) (Js.toDouble (2 # 10))
        == Js.toDouble (3 # 10).
Proof. split; vm_compute; [reflexivity | discriminate]. Qed.

End JsFacts.

(** ** Handlers *)

Section JobFacts.
Context {Doc : Type}.
Implicit Types (w : list (Effect Doc)).
Local Abbreviation Job := (Job (Doc := Doc)).

Lemma effects_bind {A B : Type} (m : Job A) (k : A -> Job B) :
  effects (bind m k)
  = effects m ++ match snd m with
                 | Normal a => effects (k a)
                 | Throw _ => []
                 end.
Proof.
  destruct m as [w [a | e]]; simpl.
  - now destruct (k a).
  - now rewrite app_nil_r.
Qed.

Lemma snd_bind {A B : Type} (m : Job A) (k : A -> Job B) :
  snd (bind m k) = match snd m with
                   | Normal a => snd (k a)
                   | Throw e => Throw e
                   end.
Proof.
  destruct m as [w [a | e]]; simpl; [now destruct (k a) | reflexivity].
Qed.

Lemma in_effects_bind {A B : Type} (m : Job A) (k : A -> Job B) (e : Effect Doc) :
  In e (effects (bind m k)) ->
  In e (effects m) \/ exists a, snd m = Normal a /\ In e (effects (k a)).
Proof.
  rewrite effects_bind, in_app_iff. intros [H | H]; [now left |].
  destruct (snd m) as [a | err]; [right; now exists a | contradiction].
Qed.

(** An effect of a loop is an effect of one of its iterations. *)
Lemma in_effects_for_of {A : Type} (xs : list A) (body : A -> Job unit)
    (e : Effect Doc) :
  In e (effects (for_of xs body)) ->
  exists x, In x xs /\ In e (effects (body x)).
Proof.
  induction xs as [| x xs IH]; simpl; [contradiction |].
  intros H. apply in_effects_bind in H as [H | (_ & _ & H)].
  - exists x. auto.
  - destruct (IH H) as (y & Hy & He). exists y. auto.
Qed.

Lemma in_effects_try_catch (m : Job unit) (handler : string -> Job unit)
    (e : Effect Doc) :
  In e (effects (try_catch m handler)) ->
  In e (effects m) \/ exists err, In e (effects (handler err)).
Proof.
  destruct m as [w [[] | err]]; simpl; [now left |].
  destruct (handler err) as [w' r] eqn:E. simpl.
  rewrite in_app_iff. intros [H | H]; [now left | right].
  exists err. now rewrite E.
Qed.

Lemma in_written (collection : string) (w : list (Effect Doc)) (d : Doc) :
  In d (written collection w) <-> In (DbSet collection d) w.
Proof.
  unfold written. rewrite in_flat_map. split.
  - intros ([c d' | msg | msg err] & Hin & Hd); simpl in Hd; try contradiction.
    destruct (String.eqb c collection) eqn:E; [| contradiction].
    apply String.eqb_eq in E. destruct Hd as [-> | []]. now subst.
  - intros H. exists (DbSet collection d). split; [assumption |].
    simpl. rewrite String.eqb_refl. now left.
Qed.

Lemma bind_await_Normal_job {A B : Type} (a : A) (k : A -> Job B) :
  (x <- await (Normal a) ;; k x) = k a.
Proof. unfold bind, await. now destruct (k a). Qed.

(** A loop whose iterations all complete performs their effects in order. *)
Lemma for_of_complete {A : Type} (xs : list A) (body : A -> Job unit) :
  (forall x, In x xs -> snd (body x) = Normal tt) ->
  for_of xs body = (flat_map (fun x => effects (body x)) xs, Normal tt).
Proof.
  induction xs as [| x xs IH]; intros H; simpl; [reflexivity |].
  pose proof (H x (or_introl eq_refl)) as Hx.
  destruct (body x) as [w r]. simpl in Hx. subst r. simpl.
  rewrite IH by (intros y Hy; apply H; now right). reflexivity.
Qed.

(** A loop stops at the first iteration that throws: the entries after it
    are never visited. *)
Lemma for_of_throw {A : Type} (pre post : list A) (x : A)
    (body : A -> Job unit) (err : string) :
  (forall p, In p pre -> snd (body p) = Normal tt) ->
  snd (body x) = Throw err ->
  for_of (pre ++ x :: post) body
  = (flat_map (fun p => effects (body p)) pre ++ effects (body x), Throw err).
Proof.
  induction pre as [| p pre IH]; intros Hpre Hx; simpl.
  - destruct (body x) as [w r]. simpl in Hx. subst r. reflexivity.
  - pose proof (Hpre p (or_introl eq_refl)) as Hp.
    destruct (body p) as [w r]. simpl in Hp. subst r. simpl.
    rewrite IH by (auto; intros q Hq; apply Hpre; now right).
    now rewrite app_assoc.
Qed.

End JobFacts.

(** Splits a hypothesis [In e (effects m)] along the structure of [m]. *)
Ltac in_effects H :=
  repeat match type of H with
         | In _ (effects (bind _ _)) =>
             apply in_effects_bind in H as [H | (? & ? & H)]
         | In _ (effects (await _)) => destruct H
         | In _ (effects (ret _)) => destruct H
         | In _ (effects (emit _)) => simpl in H; destruct H as [H | []]
         end.

(** ** Scheduled runs *)

Section ScheduledRuns.
Context {Doc : Type}.
Local Abbreviation Job := (Job (Doc := Doc)).

Lemma filter_all {A : Type} (p : A -> bool) (xs : list A) :
  (forall x, In x xs -> p x = true) -> filter p xs = xs.
Proof.
  induction xs as [| x xs IH]; intros H; simpl; [reflexivity |].
  rewrite (H x (or_introl eq_refl)), IH; [reflexivity |].
  intros y Hy. apply H. now right.
Qed.

Lemma filter_none {A : Type} (p : A -> bool) (xs : list A) :
  (forall x, In x xs -> p x = false) -> filter p xs = [].
Proof.
  induction xs as [| x xs IH]; intros H; simpl; [reflexivity |].
  rewrite (H x (or_introl eq_refl)). apply IH.
  intros y Hy. apply H. now right.
Qed.

(** Among the records produced per user, those owned by one user of a
    duplicate-free list are the ones produced for that user. *)
Lemma filter_owner {A : Type} (owner : A -> UserId) (produced : UserId -> list A)
    (us : list UserId) (uid : UserId) :
  (forall p a, In p us -> In a (produced p) -> owner a = p) ->
  NoDup us -> In uid us ->
  filter (fun a => String.eqb (owner a) uid) (flat_map produced us) = produced uid.
Proof.
  induction us as [| p us IH]; intros Hown Hnd Hin; [destruct Hin |].
  inversion Hnd as [| ? ? Hnotin Hnd']; subst.
  simpl. rewrite filter_app.
  destruct (String.eqb_spec p uid) as [-> | Hne].
  - rewrite filter_all.
    2: { intros a Ha. apply String.eqb_eq. apply Hown; [now left | exact Ha]. }
    rewrite filter_none; [apply app_nil_r |].
    intros a Ha. apply in_flat_map in Ha as (q & Hq & Ha).
    apply String.eqb_neq. rewrite (Hown q a (or_intror Hq) Ha).
    intros ->. contradiction.
  - rewrite filter_none.
    2: { intros a Ha. apply String.eqb_neq.
         now rewrite (Hown p a (or_introl eq_refl) Ha). }
    destruct Hin as [-> | Hin]; [contradiction |].
    apply IH; auto. intros q a Hq. apply Hown. now right.
Qed.

Lemma flat_map_flat_map {A B C : Type} (f : A -> list B) (g : B -> list C)
    (xs : list A) :
  flat_map g (flat_map f xs) = flat_map (fun x => flat_map g (f x)) xs.
Proof.
  induction xs as [| x xs IH]; simpl; [reflexivity |].
  now rewrite flat_map_app, IH.
Qed.

Lemma NoDup_app_disjoint {A : Type} (xs ys : list A) (x : A) :
  NoDup (xs ++ ys) -> In x xs -> In x ys -> False.
Proof.
  induction xs as [| y xs IH]; intros Hnd Hx Hy; [destruct Hx |].
  inversion Hnd as [| ? ? Hnotin Hnd']; subst.
  destruct Hx as [-> | Hx]; [| now apply IH].
  apply Hnotin, in_or_app. now right.
Qed.

(** The effects of a loop are those of the iterations it gets to. *)
Lemma effects_for_of_started {A : Type} (xs : list A) (body : A -> Job unit) :
  effects (for_of xs body) = flat_map (fun x => effects (body x)) (started body xs).
Proof.
  induction xs as [| x xs IH]; [reflexivity |].
  change (for_of (x :: xs) body) with (body x ;;; for_of xs body).
  rewrite effects_bind. simpl.
  destruct (snd (body x)); [now rewrite IH | reflexivity].
Qed.

Lemma started_prefix {A : Type} (xs : list A) (body : A -> Job unit) :
  exists rest, xs = started body xs ++ rest.
Proof.
  induction xs as [| x xs (rest & IH)]; simpl; [now exists [] |].
  destruct (snd (body x)).
  - exists rest. simpl. now rewrite <- IH.
  - now exists xs.
Qed.

Lemma started_In {A : Type} (xs : list A) (body : A -> Job unit) (x : A) :
  In x (started body xs) -> In x xs.
Proof.
  destruct (started_prefix xs body) as (rest & E). intros H.
  rewrite E. apply in_or_app. now left.
Qed.

Lemma started_NoDup {A : Type} (xs : list A) (body : A -> Job unit) :
  NoDup xs -> NoDup (started body xs).
Proof.
  destruct (started_prefix xs body) as (rest & E). intros H.
  rewrite E in H. now apply NoDup_app_remove_r in H.
Qed.

(** The loop gets to an entry when the iterations before it complete, and
    goes on after it when its own iteration completes. *)
Lemma started_reached {A : Type} (pre post : list A) (x : A) (body : A -> Job unit) :
  (forall p, In p pre -> snd (body p) = Normal tt) ->
  started body (pre ++ x :: post)
  = pre ++ x :: match snd (body x) with
                | Normal _ => started body post
                | Throw _ => []
                end.
Proof.
  induction pre as [| p pre IH]; intros Hpre; [reflexivity |].
  simpl. rewrite (Hpre p (or_introl eq_refl)).
  rewrite IH by (intros q Hq; apply Hpre; now right). reflexivity.
Qed.

(** The effects of a scheduled run: the start line, the effects of the users
    the loop gets to, and the error line when one of them throws. *)
Lemma effects_scheduled_run (start message : string) (us : list UserId)
    (body : UserId -> Job unit) :
  effects (emit (LogInfo start) ;;;
           try_catch (usersSnapshot <- await (Normal us) ;; for_of usersSnapshot body)
                     (fun error => emit (LogError message error)))
  = LogInfo start
    :: flat_map (fun p => effects (body p)) (started body us)
       ++ match snd (for_of us body) with
          | Normal _ => []
          | Throw err => [LogError message err]
          end.
Proof.
  rewrite <- effects_for_of_started.
  unfold bind, await, emit, try_catch, effects.
  destruct (for_of us body) as [w [[] | err]]; simpl;
    rewrite ?app_nil_r; reflexivity.
Qed.

(** Of the records a scheduled run writes, those owned by one user of a
    duplicate-free snapshot are the ones written while that user is
    processed, and there are none when the loop does not get to the user. *)
Lemma records_of_user {A : Type} (g : Effect Doc -> list A) (owner : A -> UserId)
    (start message : string) (us : list UserId) (body : UserId -> Job unit)
    (uid : UserId) :
  (forall s, g (LogInfo s) = []) ->
  (forall m err, g (LogError m err) = []) ->
  (forall p a, In p us -> In a (flat_map g (effects (body p))) -> owner a = p) ->
  NoDup us ->
  filter (fun a => String.eqb (owner a) uid)
         (flat_map g
            (effects (emit (LogInfo start) ;;;
                      try_catch (usersSnapshot <- await (Normal us) ;;
                                 for_of usersSnapshot body)
                                (fun error => emit (LogError message error)))))
  = if in_dec string_dec uid (started body us)
    then flat_map g (effects (body uid))
    else [].
Proof.
  intros Hinfo Herror Hown Hnd.
  rewrite effects_scheduled_run.
  cbn [flat_map]. rewrite Hinfo, flat_map_app, flat_map_flat_map.
  assert (Htail : flat_map g match snd (for_of us body) with
                             | Normal _ => []
                             | Throw err => [LogError message err]
                             end = []).
  { destruct (snd (for_of us body)); simpl; [reflexivity |].
    now rewrite Herror. }
  rewrite Htail, app_nil_r. cbn [app].
  assert (Hown' : forall p a, In p (started body us) ->
                    In a (flat_map g (effects (body p))) -> owner a = p).
  { intros p a Hp. apply Hown. eapply started_In, Hp. }
  destruct (in_dec string_dec uid (started body us)) as [Hin | Hout].
  - apply (filter_owner owner (fun p => flat_map g (effects (body p)))); auto.
    now apply started_NoDup.
  - apply filter_none. intros a Ha.
    apply in_flat_map in Ha as (p & Hp & Ha).
    apply String.eqb_neq. rewrite (Hown' p a Hp Ha).
    intros ->. contradiction.
Qed.

End ScheduledRuns.

(** ** Daily Aggregator *)

Section DailyAggregator.
Import DataCapture.

(** The movement score never exceeds 100. *)
Lemma movementScore_capped (uid : UserId) (dateKey : string) (docs : list TelemetryEvent) :
  movementScore (fst (dailyHealthMetrics uid dateKey docs)) <= 100.
Proof.
  unfold dailyHealthMetrics.
  destruct (fold_left count_motion docs (0, 0%Z)) as [totalMovement motionEvents].
  simpl. apply Math_min_le_l.
Qed.

(** Every rhythm map the handler writes is the one [dailyHealthMetrics]
    builds for some user from a snapshot the store returned. *)
Lemma written_rhythmMap (fs : Firestore) (dateKey : string) (r : RhythmMap) :
  In r (rhythmMaps (effects (aggregateDailyHealthMetrics fs dateKey))) ->
  exists uid docs,
    fs.(telemetryEvents) uid = Normal docs /\
    r = fst (dailyHealthMetrics uid dateKey docs).
Proof.
  unfold rhythmMaps. rewrite in_flat_map.
  intros ([r' | h] & Hin & Hr); simpl in Hr; [| contradiction].
  destruct Hr as [-> | []].
  apply in_written in Hin. unfold aggregateDailyHealthMetrics in Hin.
  apply in_effects_bind in Hin as [Hin | (_ & _ & Hin)].
  { simpl in Hin. destruct Hin as [Hin | []]. discriminate. }
  apply in_effects_try_catch in Hin as [Hin | (err & Hin)].
  2: { simpl in Hin. destruct Hin as [Hin | []]. discriminate. }
  apply in_effects_bind in Hin as [Hin | (us & _ & Hin)].
  { destruct (users fs); contradiction. }
  apply in_effects_for_of in Hin as (uid & _ & Hin).
  exists uid. unfold aggregateUser in Hin.
  apply in_effects_bind in Hin as [Hin | (docs & Hdocs & Hin)].
  { destruct (telemetryEvents fs uid); contradiction. }
  exists docs. split.
  { unfold await in Hdocs. simpl in Hdocs. exact Hdocs. }
  destruct (Js.empty docs); [contradiction |].
  destruct (dailyHealthMetrics uid dateKey docs) as [rhythmMap healthEcho].
  unfold db_set in Hin.
  repeat match type of Hin with
         | In _ (effects (bind _ _)) =>
             apply in_effects_bind in Hin as [Hin | (? & _ & Hin)]
         | In _ (effects (await ?c)) => destruct c; contradiction
         | In _ (effects (emit _)) => simpl in Hin; destruct Hin as [Hin | []]
         end; inversion Hin; reflexivity.
Qed.

(** The state stored in a rhythm map is the classification of the sleep
    hours and movement score stored next to it. *)
Lemma dailyHealthMetrics_state (uid : UserId) (dateKey : string)
    (docs : list TelemetryEvent) :
  let r := fst (dailyHealthMetrics uid dateKey docs) in
  rhythmState r
  = determineRhythmState (sleepHours r) (movementScore r)
      (snd (fold_left count_motion docs (0, 0%Z))).
Proof.
  unfold dailyHealthMetrics.
  destruct (fold_left count_motion docs (0, 0%Z)) as [totalMovement motionEvents].
  reflexivity.
Qed.

(** C2.  In the rhythm-state classification the Off-Rhythm test comes first:
    whenever [sleepHours < 6] or [movementScore < 20] the state is
    "Off-Rhythm", whatever the other inputs; otherwise it is "Overstimulated"
    when [movementScore > 80] and [motionEvents > 100], and "Stable" when
    not. *)
Theorem rhythm_state_order (sleepHours movementScore : Q) (motionEvents : Z) :
  (sleepHours < 6 \/ movementScore < 20 ->
   determineRhythmState sleepHours movementScore motionEvents = "Off-Rhythm"%string)
  /\ (~ (sleepHours < 6 \/ movementScore < 20) ->
      (80 < movementScore /\ (100 < motionEvents)%Z ->
       determineRhythmState sleepHours movementScore motionEvents
       = "Overstimulated"%string)
      /\ (~ (80 < movementScore /\ (100 < motionEvents)%Z) ->
          determineRhythmState sleepHours movementScore motionEvents
          = "Stable"%string)).
Proof.
  unfold determineRhythmState.
  destruct (sleepHours <? 6) eqn:Hs; destruct (movementScore <? 20) eqn:Hm;
    simpl;
    try apply ltb_lt in Hs; try apply ltb_lt in Hm;
    try apply ltb_ge in Hs; try apply ltb_ge in Hm.
  1-3: split; [reflexivity | intros H; exfalso; apply H; auto].
  split; [intros [H | H]; lra |]. intros _.
  destruct (movementScore >? 80) eqn:Hg; destruct (100 <? motionEvents)%Z eqn:He;
    simpl;
    try apply gtb_gt in Hg; try apply gtb_le in Hg;
    try apply Z.ltb_lt in He; try apply Z.ltb_ge in He.
  - split; [reflexivity | intros H; exfalso; apply H; auto].
  - split; [intros [_ H]; lia | reflexivity].
  - split; [intros [H _]; lra | reflexivity].
  - split; [intros [H _]; lra | reflexivity].
Qed.

(** At five hours of sleep the state is "Off-Rhythm" even with the movement
    of an overstimulated day. *)
Lemma rhythm_state_order_witness :
  determineRhythmState 5 90 200 = "Off-Rhythm"%string.
Proof.
  apply (proj1 (rhythm_state_order 5 90 200)).
  left. reflexivity.
Defined.

(** C9.  Every rhythm map the daily health aggregator writes has
    [sleepHours] 8: the sleep markers stay [null], so the default is taken.
    Its [rhythmState] is therefore "Off-Rhythm" exactly when
    [movementScore < 20], and its [restfulnessScore] is 100. *)
Theorem written_rhythmMap_default_sleep (fs : Firestore) (dateKey : string)
    (r : RhythmMap) :
  In r (rhythmMaps (effects (aggregateDailyHealthMetrics fs dateKey))) ->
  sleepHours r = 8
  /\ (rhythmState r = "Off-Rhythm"%string <-> movementScore r < 20)
  /\ restfulnessScore r == 100
  /\ wakeTime r = None /\ bedTime r = None.
Proof.
  intros H. apply written_rhythmMap in H as (uid & docs & _ & ->).
  unfold dailyHealthMetrics.
  destruct (fold_left count_motion docs (0, 0%Z)) as [totalMovement motionEvents].
  simpl. repeat split; try reflexivity.
  - unfold determineRhythmState. change (8 <? 6) with false. simpl.
    destruct (Js.Math_min 100 (totalMovement / 60) <? 20) eqn:E.
    + intros _. now apply ltb_lt.
    + destruct (_ && _); discriminate.
  - intros Hlt. unfold determineRhythmState. apply ltb_lt in Hlt.
    rewrite Hlt. now rewrite orb_true_r.
Qed.

End DailyAggregator.

(** In the sample store the record written for the user has the default
    sleep hours. *)
Lemma written_rhythmMap_default_sleep_witness :
  DataCapture.sleepHours Sample.rhythmMapOfAda = 8
  /\ (DataCapture.rhythmState Sample.rhythmMapOfAda = "Off-Rhythm"%string
      <-> DataCapture.movementScore Sample.rhythmMapOfAda < 20)
  /\ DataCapture.restfulnessScore Sample.rhythmMapOfAda == 100
  /\ DataCapture.wakeTime Sample.rhythmMapOfAda = None
  /\ DataCapture.bedTime Sample.rhythmMapOfAda = None.
Proof.
  apply (written_rhythmMap_default_sleep Sample.telemetryStore "2024-05-04"%string).
  vm_compute. left. reflexivity.
Defined.

(** ** Cognitive Mirror Builder *)

Section MirrorBuilder.
Import Insight.

Lemma computeStressIndex_terms (ds : list DeviceSignal) (ss : list ShadowCognition) :
  let '(n, s, f) := stressTerms ds ss in
  computeStressIndex ds ss == Js.Math_min 100 (30 + n + s + f).
Proof.
  unfold computeStressIndex, stressTerms, Js.Math_min.
  destruct ds as [| d ds], ss as [| x ss]; apply Q.min_compat; try reflexivity; ring.
Qed.

Lemma stressTerms_capped (ds : list DeviceSignal) (ss : list ShadowCognition) :
  let '(n, s, f) := stressTerms ds ss in n <= 40 /\ s <= 30 /\ f <= 30.
Proof.
  unfold stressTerms, notificationStress, screenTimeStress, frictionStress.
  destruct ds as [| d ds], ss as [| x ss]; repeat split;
    try apply Math_min_le_l; lra.
Qed.

Lemma stressTerms_nonnegative (ds : list DeviceSignal) (ss : list ShadowCognition) :
  nonnegative_inputs ds ss ->
  let '(n, s, f) := stressTerms ds ss in 0 <= n /\ 0 <= s /\ 0 <= f.
Proof.
  intros [Hd Hs].
  unfold stressTerms, notificationStress, screenTimeStress, frictionStress.
  destruct ds as [| d ds]; destruct ss as [| x ss];
    try (destruct (Hd d eq_refl) as [Hn Ht]);
    try (pose proof (Hs x eq_refl) as Hf);
    repeat split; try apply Math_min_glb; try lra.
  all: apply Qle_shift_div_l; lra.
Qed.

Lemma computeStressIndex_le_100 (ds : list DeviceSignal) (ss : list ShadowCognition) :
  computeStressIndex ds ss <= 100.
Proof. unfold computeStressIndex. apply Math_min_le_l. Qed.

(** With inputs that are not negative the stress index stays between the
    baseline and the cap. *)
Lemma computeStressIndex_range (ds : list DeviceSignal) (ss : list ShadowCognition) :
  nonnegative_inputs ds ss -> 30 <= computeStressIndex ds ss <= 100.
Proof.
  intros H. split; [| apply computeStressIndex_le_100].
  pose proof (computeStressIndex_terms ds ss) as E.
  pose proof (stressTerms_nonnegative ds ss H) as N.
  destruct (stressTerms ds ss) as [[n s] f]. destruct N as (Hn & Hs & Hf).
  rewrite E. apply Math_min_glb; lra.
Qed.

(** Every mirror the builder writes is the one [cognitiveMirror] builds for
    some user from the snapshots the store returned for that user. *)
Lemma written_mirror (fs : Firestore) (cal : Calendar) (c : CognitiveMirror) :
  In c (mirrors (effects (generateCognitiveMirror fs cal))) ->
  exists v d s r,
    fs.(voiceEvents) c.(userId) = Normal v
    /\ fs.(deviceSignals) c.(userId) = Normal d
    /\ fs.(shadowCognition) c.(userId) = Normal s
    /\ fs.(rhythmMap) c.(userId) = Normal r
    /\ c = cognitiveMirror c.(userId) cal.(yesterdayKey) v d s r.
Proof.
  unfold mirrors. rewrite in_flat_map.
  intros ([c' | | |] & Hin & Hc); simpl in Hc; try contradiction.
  destruct Hc as [-> | []].
  apply in_written in Hin. unfold generateCognitiveMirror in Hin.
  apply in_effects_bind in Hin as [Hin | (_ & _ & Hin)].
  { in_effects Hin. discriminate. }
  apply in_effects_try_catch in Hin as [Hin | (err & Hin)].
  2: { in_effects Hin. discriminate. }
  apply in_effects_bind in Hin as [Hin | (us & _ & Hin)]; [destruct Hin |].
  apply in_effects_for_of in Hin as (uid & _ & Hin).
  unfold mirrorUser, db_set in Hin.
  apply in_effects_bind in Hin as [[] | (v & Hv & Hin)].
  apply in_effects_bind in Hin as [[] | (d & Hd & Hin)].
  apply in_effects_bind in Hin as [[] | (s & Hs & Hin)].
  apply in_effects_bind in Hin as [[] | (r & Hr & Hin)].
  in_effects Hin; try discriminate.
  inversion Hin; subst c. simpl.
  exists v, d, s, r. simpl in Hv, Hd, Hs, Hr. auto.
Qed.

(** C1, as the code has it.  Each of the three additive stress terms is
    capped on its own before the sum (notifications times 2 at 40, screen
    minutes over 10 at 30, friction taps times 3 at 30), and the total with
    the baseline 30 is capped at 100.  Nothing clamps the total from below:
    it is at least 0 (indeed at least 30) when no input is negative. *)
Theorem stress_index_capped (ds : list DeviceSignal) (ss : list ShadowCognition) :
  let '(n, s, f) := stressTerms ds ss in
  n <= 40 /\ s <= 30 /\ f <= 30
  /\ computeStressIndex ds ss == Js.Math_min 100 (30 + n + s + f)
  /\ computeStressIndex ds ss <= 100
  /\ (nonnegative_inputs ds ss -> 0 <= computeStressIndex ds ss).
Proof.
  pose proof (stressTerms_capped ds ss) as C.
  pose proof (computeStressIndex_terms ds ss) as E.
  destruct (stressTerms ds ss) as [[n s] f]. destruct C as (Hn & Hs & Hf).
  repeat split; auto using computeStressIndex_le_100.
  intros H. apply computeStressIndex_range in H. lra.
Qed.

(** A quiet day: half a point of screen-time stress on top of the baseline. *)
Lemma stress_index_capped_witness :
  computeStressIndex [Sample.quietDevice] [] == 30.5
  /\ 0 <= computeStressIndex [Sample.quietDevice] [].
Proof.
  split; [reflexivity |].
  apply (stress_index_capped [Sample.quietDevice] []).
  split.
  - intros d [= <-]. split; vm_compute; discriminate.
  - intros x [=].
Defined.

(** C1, as stated, fails: a negative notification count takes the total
    below 0, and no lower clamp brings it back. *)
Lemma stress_index_below_zero :
  ~ (0 <= computeStressIndex [Sample.negativeDevice] [] <= 100).
Proof.
  intros [H _]. vm_compute in H. apply H. reflexivity.
Qed.

(** C7, as the code has it.  In every mirror the builder writes,
    [energyLevel] is 100 minus the stress index as computed, before the
    rounding that produces the stored [stressIndex]; it is 100 minus the
    stored [stressIndex] whenever that computed index is an integer, and
    within one half of it always.  [purposeAlignment] is the rounded mean of
    the mood score as computed and [energyLevel]. *)
Theorem energy_inverse_of_computed_stress (fs : Firestore) (cal : Calendar)
    (c : CognitiveMirror) :
  In c (mirrors (effects (generateCognitiveMirror fs cal))) ->
  exists v d s,
    fs.(voiceEvents) c.(userId) = Normal v
    /\ fs.(deviceSignals) c.(userId) = Normal d
    /\ fs.(shadowCognition) c.(userId) = Normal s
    /\ c.(moodScore) = Js.Math_round (computeMoodScore v)
    /\ c.(stressIndex) = Js.Math_round (computeStressIndex d s)
    /\ c.(energyLevel) == 100 - computeStressIndex d s
    /\ c.(purposeAlignment)
       = Js.Math_round ((computeMoodScore v + c.(energyLevel)) / 2)
    /\ (Js.Math_round (computeStressIndex d s) == computeStressIndex d s ->
        c.(energyLevel) == 100 - c.(stressIndex))
    /\ 100 - c.(stressIndex) - (1 # 2) < c.(energyLevel)
       <= 100 - c.(stressIndex) + (1 # 2).
Proof.
  intros H. apply written_mirror in H as (v & d & s & r & Hv & Hd & Hs & _ & E).
  exists v, d, s. rewrite E. simpl.
  repeat split; try reflexivity; try assumption.
  - intros R. rewrite R. reflexivity.
  - pose proof (Math_round_lower (computeStressIndex d s)). lra.
  - pose proof (Math_round_upper (computeStressIndex d s)). lra.
Qed.

Lemma energy_inverse_of_computed_stress_witness :
  100 - Sample.quietMirror.(stressIndex) - (1 # 2) < Sample.quietMirror.(energyLevel)
  /\ Sample.quietMirror.(energyLevel) <= 100 - Sample.quietMirror.(stressIndex) + (1 # 2).
Proof.
  destruct (energy_inverse_of_computed_stress Sample.quietStore Sample.calendar
              Sample.quietMirror)
    as (v & d & s & _ & _ & _ & _ & _ & _ & _ & _ & Hnear).
  - vm_compute. left. reflexivity.
  - exact Hnear.
Defined.

(** C7, as stated, fails: with five minutes of screen time the stress index
    is computed as 30.5 and stored as 31, while [energyLevel] is stored as
    69.5, not 69. *)
Lemma energy_not_inverse_of_stored_stress :
  exists c,
    In c (mirrors (effects (generateCognitiveMirror Sample.quietStore Sample.calendar)))
    /\ ~ c.(energyLevel) == 100 - c.(stressIndex).
Proof.
  exists Sample.quietMirror.
  split.
  - vm_compute. left. reflexivity.
  - vm_compute. discriminate.
Qed.

(** C10.  In a run of the builder whose stress inputs are not negative, the
    stress index of every mirror written lies between 30 and 100, as
    computed and as stored: the code has no lower clamp, only the baseline.
    So the insight of the band below 30, "You maintained good digital
    balance today", is never among [highlightInsights]. *)
Theorem good_balance_never_reported (fs : Firestore) (cal : Calendar) :
  (forall uid d s,
     fs.(deviceSignals) uid = Normal d -> fs.(shadowCognition) uid = Normal s ->
     nonnegative_inputs d s) ->
  forall c, In c (mirrors (effects (generateCognitiveMirror fs cal))) ->
    (exists d s,
       fs.(deviceSignals) c.(userId) = Normal d
       /\ fs.(shadowCognition) c.(userId) = Normal s
       /\ 30 <= computeStressIndex d s <= 100
       /\ c.(stressIndex) = Js.Math_round (computeStressIndex d s))
    /\ 30 <= c.(stressIndex) <= 100
    /\ ~ In goodBalanceInsight c.(highlightInsights).
Proof.
  intros Hnn c H.
  apply written_mirror in H as (v & d & s & r & Hv & Hd & Hs & _ & E).
  pose proof (computeStressIndex_range d s (Hnn _ d s Hd Hs)) as [Hlo Hhi].
  split; [| split].
  - exists d, s. rewrite E at 3. simpl. auto.
  - rewrite E. simpl. split.
    + change 30 with (inject_Z 30). rewrite <- (Math_round_Z 30).
      now apply Math_round_mono.
    + change 100 with (inject_Z 100). rewrite <- (Math_round_Z 100).
      now apply Math_round_mono.
  - rewrite E. simpl. unfold computeInsights, goodBalanceInsight.
    rewrite !in_app_iff. intros [Hm | [Hst | Hr]].
    + destruct (_ >? 70); [| destruct (_ <? 30)]; simpl in Hm;
        try contradiction; destruct Hm as [Hm | []]; discriminate.
    + destruct (_ >? 70) eqn:Hgt.
      * destruct Hst as [Hst | []]. discriminate.
      * destruct (_ <? 30) eqn:Hlt; [| contradiction].
        apply ltb_lt in Hlt. lra.
    + destruct r as [| rhythmData r]; [contradiction |].
      destruct (String.eqb _ "Stable"); [| destruct (String.eqb _ "Off-Rhythm")];
        simpl in Hr; try contradiction; destruct Hr as [Hr | []]; discriminate.
Qed.

Lemma good_balance_never_reported_witness :
  30 <= Sample.quietMirror.(stressIndex) <= 100
  /\ ~ In goodBalanceInsight Sample.quietMirror.(highlightInsights).
Proof.
  refine (proj2 (good_balance_never_reported Sample.quietStore Sample.calendar _
                   Sample.quietMirror _)).
  - intros uid d s [= <-] [= <-]. split.
    + intros x [= <-]. split; vm_compute; discriminate.
    + intros x [=].
  - vm_compute. left. reflexivity.
Defined.

End MirrorBuilder.

(** ** Failure of one user in a scheduled run *)

Section FailureSemantics.

(** The shape shared by the scheduled handlers: a start line, then one [try]
    around the user query and the loop over users. *)
Lemma run_stops_at_failure {Doc : Type} (start message : string)
    (body : UserId -> Job (Doc := Doc) unit)
    (pre post : list UserId) (uid : UserId) (err : string) :
  (forall p, In p pre -> snd (body p) = Normal tt) ->
  snd (body uid) = Throw err ->
  (emit (LogInfo start) ;;;
   try_catch (usersSnapshot <- await (Normal (pre ++ uid :: post)) ;;
              for_of usersSnapshot body)
             (fun error => emit (LogError message error)))
  = (LogInfo start
       :: flat_map (fun p => effects (body p)) pre
       ++ effects (body uid) ++ [LogError message err],
     Normal tt).
Proof.
  intros Hpre Hthrow. unfold bind at 2. simpl.
  rewrite (for_of_throw pre post uid body err Hpre Hthrow). simpl.
  now rewrite <- app_assoc.
Qed.

(** C8, as the code has it.  In the Daily Aggregator and in the Cognitive
    Mirror Builder the one [try]/[catch] encloses the whole loop over users.
    An exception raised while a user is processed is caught and logged, and
    the handler returns: the run consists of the complete processing of the
    users before the failing one, the effects of the failing user up to the
    exception, and the error line.  The users after the failing one are not
    processed. *)
Theorem failing_user_ends_run (pre post : list UserId) (uid : UserId) (err : string) :
  (forall (fs : DataCapture.Firestore) (dateKey : string),
     fs.(DataCapture.users) = Normal (pre ++ uid :: post) ->
     (forall p, In p pre -> snd (DataCapture.aggregateUser fs dateKey p) = Normal tt) ->
     snd (DataCapture.aggregateUser fs dateKey uid) = Throw err ->
     DataCapture.aggregateDailyHealthMetrics fs dateKey
     = (LogInfo "Starting daily health metrics aggregation"%string
          :: flat_map (fun p => effects (DataCapture.aggregateUser fs dateKey p)) pre
          ++ effects (DataCapture.aggregateUser fs dateKey uid)
          ++ [LogError "Error aggregating daily health metrics:"%string err],
        Normal tt))
  /\ (forall (fs : Insight.Firestore) (cal : Insight.Calendar),
        fs.(Insight.users) = Normal (pre ++ uid :: post) ->
        (forall p, In p pre -> snd (Insight.mirrorUser fs cal p) = Normal tt) ->
        snd (Insight.mirrorUser fs cal uid) = Throw err ->
        Insight.generateCognitiveMirror fs cal
        = (LogInfo "Starting cognitive mirror generation"%string
             :: flat_map (fun p => effects (Insight.mirrorUser fs cal p)) pre
             ++ effects (Insight.mirrorUser fs cal uid)
             ++ [LogError "Error generating cognitive mirror:"%string err],
           Normal tt)).
Proof.
  split.
  - intros fs dateKey Hus Hpre Hthrow.
    unfold DataCapture.aggregateDailyHealthMetrics. rewrite Hus.
    now apply run_stops_at_failure.
  - intros fs cal Hus Hpre Hthrow.
    unfold Insight.generateCognitiveMirror. rewrite Hus.
    now apply run_stops_at_failure.
Qed.

(** When the query for the first of two users fails, both runs consist of
    the start line and the error line. *)
Lemma failing_user_ends_run_witness :
  effects (DataCapture.aggregateDailyHealthMetrics Sample.faultyTelemetryStore
             "2024-05-04"%string)
  = [LogInfo "Starting daily health metrics aggregation"%string;
     LogError "Error aggregating daily health metrics:"%string "UNAVAILABLE"%string]
  /\ effects (Insight.generateCognitiveMirror Sample.faultyStore Sample.calendar)
     = [LogInfo "Starting cognitive mirror generation"%string;
        LogError "Error generating cognitive mirror:"%string "UNAVAILABLE"%string].
Proof.
  destruct (failing_user_ends_run [] ["bob"%string] "ada"%string "UNAVAILABLE"%string) as [Hagg Hmir].
  split.
  - rewrite (Hagg Sample.faultyTelemetryStore "2024-05-04"%string); try reflexivity.
    intros p [].
  - rewrite (Hmir Sample.faultyStore Sample.calendar); try reflexivity.
    intros p [].
Defined.

(** C8, as stated, fails: the query for the first user fails, the second
    user has telemetry that on its own yields a rhythm map, and yet the run
    writes no rhythm map at all; likewise no mirror is written for the second
    user of the builder's run. *)
Lemma later_user_not_processed :
  throws (DataCapture.aggregateUser Sample.faultyTelemetryStore "2024-05-04"%string "ada"%string)
  /\ DataCapture.rhythmMaps
       (effects (DataCapture.aggregateUser Sample.faultyTelemetryStore "2024-05-04"%string "bob"%string))
     <> []
  /\ DataCapture.rhythmMaps
       (effects (DataCapture.aggregateDailyHealthMetrics Sample.faultyTelemetryStore
                   "2024-05-04"%string))
     = []
  /\ throws (Insight.mirrorUser Sample.faultyStore Sample.calendar "ada"%string)
  /\ Insight.mirrors (effects (Insight.mirrorUser Sample.faultyStore Sample.calendar "bob"%string))
     <> []
  /\ Insight.mirrors
       (effects (Insight.generateCognitiveMirror Sample.faultyStore Sample.calendar))
     = [].
Proof.
  repeat split; try reflexivity; try discriminate;
    exists "UNAVAILABLE"%string; reflexivity.
Qed.

End FailureSemantics.

(** ** Forecast Engine *)

Section ForecastEngine.
Import Insight.

Lemma seasonalEstimate_confidence (sameDayHistory : list CognitiveMirror) :
  snd (seasonalEstimate sameDayHistory) = 0.6
  \/ snd (seasonalEstimate sameDayHistory) = 0.7
  \/ snd (seasonalEstimate sameDayHistory) = 0.75.
Proof.
  unfold seasonalEstimate.
  destruct (2 <? List.length sameDayHistory)%nat; [| now left].
  destruct (_ >? 70); [now right; right |].
  destruct (_ <? 40); [now right; left | now left].
Qed.

(** The two trend rules are the branches of one [if]/[else if]: at most one
    of them adds its tenth. *)
Lemma trendAdjustment_confidence (trendSlope : Q) (estimate : string * Q) :
  snd (trendAdjustment trendSlope estimate) = snd estimate
  \/ snd (trendAdjustment trendSlope estimate) = snd estimate + 0.1.
Proof.
  destruct estimate as [predictedMood confidence]. unfold trendAdjustment.
  destruct (trendSlope >? 5); [now right |].
  destruct (trendSlope <? -5); [now right | now left].
Qed.

(** The confidence of a forecast: a base of the seasonal classification,
    plus at most one tenth. *)
Lemma emotionForecast_confidence (cal : Calendar) (uid : UserId)
    (moodHistory : list CognitiveMirror) :
  exists base bump,
    (base = 0.6 \/ base = 0.7 \/ base = 0.75)
    /\ (bump = 0 \/ bump = 0.1)
    /\ (emotionForecast cal uid moodHistory).(confidence) == base + bump.
Proof.
  unfold emotionForecast.
  set (slope := (_ - _) / 6).
  set (same := filter _ moodHistory).
  pose proof (seasonalEstimate_confidence same) as Hbase.
  pose proof (trendAdjustment_confidence slope (seasonalEstimate same)) as Hbump.
  destruct (trendAdjustment slope (seasonalEstimate same)) as [mood conf].
  simpl in Hbump |- *.
  exists (snd (seasonalEstimate same)).
  destruct Hbump as [-> | ->]; [exists 0 | exists 0.1];
    (split; [exact Hbase |]); (split; [auto |]);
    destruct Hbase as [-> | [-> | ->]]; reflexivity.
Qed.

(** With a week of history, [recentWeek] has the seven entries that the
    trend slope indexes. *)
Lemma recentWeek_length (moodHistory : list CognitiveMirror) :
  (7 <= List.length moodHistory)%nat ->
  List.length (map moodScore (firstn 7 moodHistory)) = 7%nat.
Proof.
  intros H. rewrite length_map, length_firstn. lia.
Qed.

(** Every forecast the engine writes is the one [emotionForecast] builds for
    a user whose history has at least seven records. *)
Lemma written_forecast (fs : Firestore) (cal : Calendar) (f : EmotionForecast) :
  In f (forecasts (effects (generateEmotionForecast fs cal))) ->
  exists uid history,
    fs.(mirrorsLast30Days) uid = Normal history
    /\ (7 <= List.length history)%nat
    /\ f = emotionForecast cal uid history.
Proof.
  unfold forecasts. rewrite in_flat_map.
  intros ([| f' | |] & Hin & Hf); simpl in Hf; try contradiction.
  destruct Hf as [-> | []].
  apply in_written in Hin. unfold generateEmotionForecast in Hin.
  apply in_effects_bind in Hin as [Hin | (_ & _ & Hin)].
  { in_effects Hin. discriminate. }
  apply in_effects_try_catch in Hin as [Hin | (err & Hin)].
  2: { in_effects Hin. discriminate. }
  apply in_effects_bind in Hin as [[] | (us & _ & Hin)].
  apply in_effects_for_of in Hin as (uid & _ & Hin).
  unfold forecastUser, db_set in Hin.
  apply in_effects_bind in Hin as [[] | (history & Hh & Hin)].
  exists uid, history. simpl in Hh.
  destruct (List.length history <? 7)%nat eqn:Hlen; [destruct Hin |].
  apply Nat.ltb_ge in Hlen.
  in_effects Hin; try discriminate.
  inversion Hin. auto.
Qed.

(** C4.  The confidence of every forecast the engine writes lies in [0, 1]:
    it is a base of the seasonal classification (0.6, 0.7 or 0.75) plus at
    most one increment of 0.1, since the rules for a slope above 5 and for a
    slope below -5 cannot both fire; so it is at least 0.6 and at most
    0.85. *)
Theorem forecast_confidence_bounded (fs : Firestore) (cal : Calendar)
    (f : EmotionForecast) :
  In f (forecasts (effects (generateEmotionForecast fs cal))) ->
  (exists base bump,
     (base = 0.6 \/ base = 0.7 \/ base = 0.75)
     /\ (bump = 0 \/ bump = 0.1)
     /\ f.(confidence) == base + bump)
  /\ 0.6 <= f.(confidence) <= 0.85
  /\ 0 <= f.(confidence) <= 1.
Proof.
  intros H. apply written_forecast in H as (uid & history & _ & _ & ->).
  destruct (emotionForecast_confidence cal uid history)
    as (base & bump & Hbase & Hbump & E).
  split; [exists base, bump; auto |].
  rewrite E.
  destruct Hbase as [-> | [-> | ->]]; destruct Hbump as [-> | ->];
    repeat split; vm_compute; discriminate.
Qed.

(** Three Mondays averaging above 70 and a rising week: the forecast of the
    sample user carries the largest confidence there is. *)
Lemma forecast_confidence_bounded_witness :
  0.6 <= Sample.forecastOfBob.(confidence) <= 0.85
  /\ 0 <= Sample.forecastOfBob.(confidence) <= 1.
Proof.
  refine (proj2 (forecast_confidence_bounded Sample.historyStore Sample.calendar
                   Sample.forecastOfBob _)).
  vm_compute. left. reflexivity.
Defined.

Example forecast_confidence_max_reached :
  Sample.forecastOfBob.(confidence) == 0.85
  /\ Sample.forecastOfBob.(predictedMood) = "positive"%string.
Proof. split; reflexivity. Qed.

Example forecast_confidence_min_reached :
  (emotionForecast Sample.calendar "ada"%string (Sample.flatWeek "ada"%string)).(confidence) == 0.6
  /\ (emotionForecast Sample.calendar "ada"%string (Sample.flatWeek "ada"%string)).(predictedMood)
     = "stable"%string.
Proof. split; reflexivity. Qed.

Lemma emotionForecast_owner (cal : Calendar) (uid : UserId)
    (history : list CognitiveMirror) :
  (emotionForecast cal uid history).(ef_userId) = uid
  /\ (emotionForecast cal uid history).(ef_date) = cal.(tomorrowKey).
Proof.
  unfold emotionForecast. destruct (trendAdjustment _ _). split; reflexivity.
Qed.

Lemma forecasts_app (w1 w2 : list (Effect Doc)) :
  forecasts (w1 ++ w2) = forecasts w1 ++ forecasts w2.
Proof.
  unfold forecasts, written. now rewrite !flat_map_app.
Qed.

(** What the loop body does for a user when the store answers and accepts
    the write: nothing below seven records, one forecast from seven on. *)
Lemma forecastUser_complete (fs : Firestore) (cal : Calendar) (uid : UserId)
    (history : list CognitiveMirror) :
  fs.(mirrorsLast30Days) uid = Normal history ->
  fs.(set_result) "emotionForecast"%string uid = Normal tt ->
  snd (forecastUser fs cal uid) = Normal tt
  /\ forecasts (effects (forecastUser fs cal uid))
     = if (List.length history <? 7)%nat then []
       else [emotionForecast cal uid history].
Proof.
  intros Hh Hset. unfold forecastUser, db_set. rewrite Hh, Hset. simpl.
  destruct (List.length history <? 7)%nat; split; reflexivity.
Qed.

Lemma forecasts_by_effect (w : list (Effect Doc)) :
  forecasts w = flat_map (fun e => forecasts [e]) w.
Proof.
  induction w as [| e w IH]; [reflexivity |].
  change (e :: w) with ([e] ++ w).
  rewrite forecasts_app, IH. reflexivity.
Qed.

(** A forecast written while a user is processed is that user's. *)
Lemma forecastUser_owner (fs : Firestore) (cal : Calendar) (uid : UserId)
    (f : EmotionForecast) :
  In f (forecasts (effects (forecastUser fs cal uid))) -> f.(ef_userId) = uid.
Proof.
  unfold forecastUser, db_set.
  destruct (fs.(mirrorsLast30Days) uid) as [history | err]; simpl; [| intros []].
  destruct (List.length history <? 7)%nat; simpl; [intros [] |].
  destruct (fs.(set_result) "emotionForecast"%string uid) as [[] | err]; simpl;
    [| intros []].
  intros [<- | []]. apply emotionForecast_owner.
Qed.

(** The forecasts a run writes for a user are those written while the user
    is processed, if the loop gets that far. *)
Lemma forecastsFor_started (fs : Firestore) (cal : Calendar) (uid : UserId)
    (us : list UserId) :
  fs.(users) = Normal us -> NoDup us ->
  forecastsFor uid fs cal
  = if in_dec string_dec uid (started (forecastUser fs cal) us)
    then forecasts (effects (forecastUser fs cal uid))
    else [].
Proof.
  intros Hus Hnd. unfold forecastsFor, generateEmotionForecast.
  rewrite Hus, forecasts_by_effect.
  rewrite (records_of_user (fun e => forecasts [e]) ef_userId); auto.
  - now rewrite <- forecasts_by_effect.
  - intros p f _. rewrite <- forecasts_by_effect. apply forecastUser_owner.
Qed.

(** C5, as the code has it.  For a user with fewer than 7 mirrors in the
    trailing 30 days the engine writes no forecast.  For a user with 7 or
    more it writes exactly one forecast per run, dated tomorrow, when the run
    gets to the user and the store accepts the forecast: the users before
    this one in the snapshot are processed without an exception.  When the
    processing of an earlier user throws, the one [try] around the loop ends
    the run and the user gets no forecast. *)
Theorem forecast_needs_a_week (fs : Firestore) (cal : Calendar) (uid : UserId)
    (history : list CognitiveMirror) :
  fs.(mirrorsLast30Days) uid = Normal history ->
  ((List.length history < 7)%nat -> forecastsFor uid fs cal = [])
  /\ (forall pre post,
        (7 <= List.length history)%nat ->
        fs.(users) = Normal (pre ++ uid :: post) -> NoDup (pre ++ uid :: post) ->
        (forall p, In p pre -> snd (forecastUser fs cal p) = Normal tt) ->
        fs.(set_result) "emotionForecast"%string uid = Normal tt ->
        exists f,
          forecastsFor uid fs cal = [f]
          /\ f = emotionForecast cal uid history
          /\ f.(ef_userId) = uid /\ f.(ef_date) = cal.(tomorrowKey))
  /\ (forall pre failing post err,
        fs.(users) = Normal (pre ++ failing :: post) ->
        NoDup (pre ++ failing :: post) -> In uid post ->
        (forall p, In p pre -> snd (forecastUser fs cal p) = Normal tt) ->
        snd (forecastUser fs cal failing) = Throw err ->
        forecastsFor uid fs cal = []).
Proof.
  intros Hh. split; [| split].
  - intros Hshort. apply filter_none. intros f Hf.
    apply written_forecast in Hf as (uid' & h' & Hh' & Hlen & ->).
    rewrite (proj1 (emotionForecast_owner cal uid' h')).
    apply String.eqb_neq. intros ->. rewrite Hh in Hh'. inversion Hh'. subst. lia.
  - intros pre post Hlong Hus Hnd Hpre Hwrite.
    exists (emotionForecast cal uid history).
    split; [| split; [reflexivity | apply emotionForecast_owner]].
    rewrite (forecastsFor_started fs cal uid _ Hus Hnd).
    rewrite (started_reached pre post uid _ Hpre).
    destruct (in_dec string_dec uid _) as [_ | Hout].
    + rewrite (proj2 (forecastUser_complete fs cal uid history Hh Hwrite)).
      apply Nat.ltb_ge in Hlong. now rewrite Hlong.
    + exfalso. apply Hout, in_or_app. right. now left.
  - intros pre failing post err Hus Hnd Hin Hpre Hfail.
    rewrite (forecastsFor_started fs cal uid _ Hus Hnd).
    rewrite (started_reached pre post failing _ Hpre), Hfail.
    destruct (in_dec string_dec uid _) as [Hreached | _]; [| reflexivity].
    exfalso. apply (NoDup_app_disjoint (pre ++ [failing]) post uid); auto.
    now rewrite <- app_assoc.
Qed.

(** In the sample run the user with six mirrors gets no forecast and the
    user with seven, listed after, gets one. *)
Lemma forecast_needs_a_week_witness :
  forecastsFor "ada"%string Sample.historyStore Sample.calendar = []
  /\ exists f,
       forecastsFor "bob"%string Sample.historyStore Sample.calendar = [f]
       /\ f = emotionForecast Sample.calendar "bob"%string (Sample.risingWeek "bob"%string)
       /\ f.(ef_userId) = "bob"%string
       /\ f.(ef_date) = Sample.calendar.(tomorrowKey).
Proof.
  split.
  - apply (proj1 (forecast_needs_a_week Sample.historyStore Sample.calendar "ada"%string
                    (firstn 6 (Sample.risingWeek "ada"%string)) eq_refl)).
    simpl. lia.
  - apply (proj1 (proj2 (forecast_needs_a_week Sample.historyStore Sample.calendar
                           "bob"%string (Sample.risingWeek "bob"%string) eq_refl))
             ["ada"%string] []).
    + simpl. lia.
    + reflexivity.
    + repeat constructor; simpl; intuition discriminate.
    + intros p [<- | []]. reflexivity.
    + reflexivity.
Defined.

(** C5, as stated, fails: the second user has seven mirrors, and gets no
    forecast in a run in which the history query of the first user throws. *)
Lemma forecast_lost_after_failure :
  Sample.brokenHistoryStore.(mirrorsLast30Days) "bob"%string
  = Normal (Sample.risingWeek "bob"%string)
  /\ (7 <= List.length (Sample.risingWeek "bob"%string))%nat
  /\ Sample.brokenHistoryStore.(set_result) "emotionForecast"%string "bob"%string
     = Normal tt
  /\ forecastsFor "bob"%string Sample.brokenHistoryStore Sample.calendar = [].
Proof. repeat split. simpl. lia. Qed.

End ForecastEngine.

(** ** Behavioral Recovery detector *)

Section RecoveryDetector.
Import Insight.

Lemma nth_combined_middle (pre post : list DailyScore) (x : DailyScore) :
  nth (List.length pre) (map combined (pre ++ x :: post)) 0 = x.(combined).
Proof.
  rewrite map_app. simpl.
  rewrite <- (length_map combined pre). apply nth_middle.
Qed.

Lemma fold_lowerOf (dailyScores post pre : list DailyScore) (minIdx : nat) :
  dailyScores = pre ++ post ->
  lowest_so_far dailyScores pre minIdx ->
  lowest_so_far dailyScores dailyScores
    (fst (fold_left (lowerOf dailyScores) post (minIdx, List.length pre))).
Proof.
  revert pre minIdx.
  induction post as [| x post IH]; intros pre minIdx Hds Hinv.
  - rewrite app_nil_r in Hds. subst pre. exact Hinv.
  - simpl.
    replace (S (List.length pre)) with (List.length (pre ++ [x]))
      by (rewrite length_app; simpl; lia).
    apply IH; [now rewrite <- app_assoc |].
    pose proof (nth_combined_middle pre post x) as Hx. rewrite <- Hds in Hx.
    right. rewrite length_app. simpl.
    destruct Hinv as [[-> ->] | [Hlt Hmin]].
    + simpl in Hx |- *. rewrite Hx.
      replace (combined x <? combined x) with false
        by (symmetry; apply ltb_ge; lra).
      split; [lia |]. intros j Hj. replace j with 0%nat by lia. lra.
    + destruct (combined x <? nth minIdx (map combined dailyScores) 0) eqn:E.
      * apply ltb_lt in E. split; [lia |]. intros j Hj.
        destruct (Nat.eq_dec j (List.length pre)) as [-> | Hne]; [lra |].
        rewrite Hx. specialize (Hmin j ltac:(lia)). lra.
      * apply ltb_ge in E. split; [lia |]. intros j Hj.
        destruct (Nat.eq_dec j (List.length pre)) as [-> | Hne].
        -- now rewrite Hx.
        -- apply Hmin. lia.
Qed.

(** The index the [reduce] returns is within bounds and points at a lowest
    combined score of the window. *)
Lemma lowestIndex_in_range (dailyScores : list DailyScore) :
  dailyScores <> [] -> (lowestIndex dailyScores < List.length dailyScores)%nat.
Proof.
  intros Hne.
  destruct (fold_lowerOf dailyScores dailyScores [] 0 eq_refl) as [[H _] | [H _]];
    [left; auto | contradiction | exact H].
Qed.

Lemma lowestIndex_lowest (dailyScores : list DailyScore) (j : nat) :
  (j < List.length dailyScores)%nat ->
  nth (lowestIndex dailyScores) (map combined dailyScores) 0
  <= nth j (map combined dailyScores) 0.
Proof.
  intros Hj.
  destruct (fold_lowerOf dailyScores dailyScores [] 0 eq_refl) as [[-> _] | [_ H]];
    [left; auto | simpl in Hj; lia | now apply H].
Qed.

(** The pattern is found exactly when the last entry stands more than 30
    above a lowest entry that is itself below 20. *)
Lemma recoveryPattern_iff (mirrorData : CognitiveMirror) (dailyScores : list DailyScore) :
  dailyScores <> [] ->
  recoveryPattern mirrorData dailyScores <> None
  <-> 30 < nth (List.length dailyScores - 1) (map combined dailyScores) 0
           - nth (lowestIndex dailyScores) (map combined dailyScores) 0
      /\ nth (lowestIndex dailyScores) (map combined dailyScores) 0 < 20.
Proof.
  intros Hne. pose proof (lowestIndex_in_range dailyScores Hne) as Hrange.
  unfold recoveryPattern.
  destruct (lowestIndex dailyScores <? List.length dailyScores - 1)%nat eqn:Hlast.
  - destruct (_ >? 30) eqn:Himp; destruct (_ <? 20) eqn:Hlow; simpl;
      try apply gtb_gt in Himp; try apply gtb_le in Himp;
      try apply ltb_lt in Hlow; try apply ltb_ge in Hlow.
    + split; [auto |]. intros _. destruct (_ >? _); discriminate.
    + split; [congruence | intros [_ H]; lra].
    + split; [congruence | intros [H _]; lra].
    + split; [congruence | intros [H _]; lra].
  - apply Nat.ltb_ge in Hlast.
    replace (List.length dailyScores - 1)%nat with (lowestIndex dailyScores) by lia.
    split; [congruence | intros [H _]; lra].
Qed.

(** The record the handler writes is the one [recoveryEngine] builds, when
    the store answers the window query and accepts the write. *)
Lemma detectBehavioralRecovery_writes (fs : Firestore) (mirrorData : CognitiveMirror)
    (recentMirrors : list CognitiveMirror) :
  fs.(mirrorsLast7Days) mirrorData.(userId) mirrorData.(date) = Normal recentMirrors ->
  fs.(set_result) "recoveryEngine"%string mirrorData.(userId) = Normal tt ->
  written "recoveryEngine" (effects (detectBehavioralRecovery fs (Some mirrorData)))
  = match recoveryEngine mirrorData recentMirrors with
    | Some record => [RecoveryEngineDoc record]
    | None => []
    end.
Proof.
  intros Hread Hwrite. unfold detectBehavioralRecovery. rewrite Hread. simpl.
  destruct (recoveryEngine mirrorData recentMirrors) as [record |]; [| reflexivity].
  unfold db_set. rewrite Hwrite. reflexivity.
Qed.

(** C3, as the code has it.  Given at least 3 mirrors in the trailing
    window, the detector writes a recovery record if and only if the combined
    score (mood score minus stress index) of the latest mirror exceeds that
    of the trough by more than 30 and the trough's combined score is below
    20, the trough being the entry of the window with the lowest combined
    score.  With fewer than 3 mirrors it writes nothing. *)
Theorem recovery_iff_rebound_from_trough (fs : Firestore)
    (mirrorData : CognitiveMirror) (recentMirrors : list CognitiveMirror) :
  fs.(mirrorsLast7Days) mirrorData.(userId) mirrorData.(date) = Normal recentMirrors ->
  fs.(set_result) "recoveryEngine"%string mirrorData.(userId) = Normal tt ->
  let dailyScores := map dailyScore recentMirrors in
  let scores := map combined dailyScores in
  let trough := nth (lowestIndex dailyScores) scores 0 in
  let current := nth (List.length dailyScores - 1) scores 0 in
  let emitted :=
    written "recoveryEngine" (effects (detectBehavioralRecovery fs (Some mirrorData))) in
  ((List.length recentMirrors < 3)%nat -> emitted = [])
  /\ ((3 <= List.length recentMirrors)%nat ->
      (lowestIndex dailyScores < List.length dailyScores)%nat
      /\ (forall j, (j < List.length dailyScores)%nat -> trough <= nth j scores 0)
      /\ ((exists record, emitted = [RecoveryEngineDoc record])
          <-> 30 < current - trough /\ trough < 20)
      /\ (emitted = [] <-> ~ (30 < current - trough /\ trough < 20))).
Proof.
  intros Hread Hwrite dailyScores scores trough current emitted.
  assert (Hem : emitted = match recoveryEngine mirrorData recentMirrors with
                          | Some record => [RecoveryEngineDoc record]
                          | None => []
                          end)
    by now apply detectBehavioralRecovery_writes.
  unfold recoveryEngine in Hem. split.
  - intros Hshort. apply Nat.ltb_lt in Hshort. now rewrite Hshort in Hem.
  - intros Hlong.
    assert (Hne : dailyScores <> []).
    { intros E. apply (f_equal (@List.length _)) in E.
      unfold dailyScores in E. rewrite length_map in E. simpl in E. lia. }
    apply Nat.ltb_ge in Hlong. rewrite Hlong in Hem.
    pose proof (recoveryPattern_iff mirrorData dailyScores Hne) as Hiff.
    fold dailyScores in Hem. fold scores trough current in Hiff.
    split; [now apply lowestIndex_in_range |].
    split; [intros j Hj; now apply lowestIndex_lowest |].
    destruct (recoveryPattern mirrorData dailyScores) as [[recoveryType triggerEvent] |].
    + split; split.
      * intros _. apply Hiff. discriminate.
      * intros _. eexists. exact Hem.
      * rewrite Hem. discriminate.
      * intros Hno. exfalso. apply Hno, Hiff. discriminate.
    + split; split.
      * intros [record E]. rewrite Hem in E. discriminate.
      * intros Hc. apply Hiff in Hc. congruence.
      * intros _ Hc. apply Hiff in Hc. congruence.
      * intros _. exact Hem.
Qed.

(** A trough of 19 and an improvement of 31: the detector writes a record. *)
Lemma recovery_iff_rebound_from_trough_witness :
  exists record,
    written "recoveryEngine"%string
      (effects (detectBehavioralRecovery (Sample.windowStore Sample.reboundWindow)
                  (Some Sample.reboundMirror)))
    = [RecoveryEngineDoc record].
Proof.
  destruct (recovery_iff_rebound_from_trough (Sample.windowStore Sample.reboundWindow)
              Sample.reboundMirror Sample.reboundWindow eq_refl eq_refl)
    as [_ Hlong].
  destruct Hlong as (_ & _ & [_ Hemit] & _).
  - simpl. lia.
  - apply Hemit. split; reflexivity.
Defined.

(** A trough of 21 and an improvement of 31: nothing is written. *)
Example shallow_trough_no_recovery :
  combined (dailyScore Sample.shallowMirror)
  - nth (lowestIndex (map dailyScore Sample.shallowWindow))
        (map combined (map dailyScore Sample.shallowWindow)) 0 == 31
  /\ nth (lowestIndex (map dailyScore Sample.shallowWindow))
         (map combined (map dailyScore Sample.shallowWindow)) 0 == 21
  /\ written "recoveryEngine"%string
       (effects (detectBehavioralRecovery (Sample.windowStore Sample.shallowWindow)
                   (Some Sample.shallowMirror)))
     = [].
Proof. repeat split; reflexivity. Qed.

(** C3, as stated, fails: with two mirrors in the window, a trough of -20
    and an improvement of 70, both conditions hold and no record is
    written. *)
Lemma short_window_no_recovery :
  (30 < combined (dailyScore Sample.reboundMirror)
        - nth (lowestIndex (map dailyScore Sample.shortWindow))
              (map combined (map dailyScore Sample.shortWindow)) 0
   /\ nth (lowestIndex (map dailyScore Sample.shortWindow))
          (map combined (map dailyScore Sample.shortWindow)) 0 < 20)
  /\ written "recoveryEngine"%string
       (effects (detectBehavioralRecovery (Sample.windowStore Sample.shortWindow)
                   (Some Sample.reboundMirror)))
     = [].
Proof. repeat split; reflexivity. Qed.

End RecoveryDetector.

(** ** Life Event detector *)

Section LifeEventDetector.
Import Insight.

Lemma flagged_iff (moodShift stressShift : Q) :
  flagged moodShift stressShift = true
  <-> 25 < Js.Math_abs moodShift \/ 20 < Js.Math_abs stressShift.
Proof.
  unfold flagged. rewrite orb_true_iff, !gtb_gt. reflexivity.
Qed.

(** The chain of tests that names a shift, in its order. *)
Lemma classifyShift_priority (moodShift stressShift : Q) :
  let eventType := classifyShift moodShift stressShift in
  (25 < moodShift /\ stressShift < -15 -> eventType = "positive_life_change"%string)
  /\ (~ (25 < moodShift /\ stressShift < -15) ->
      (moodShift < -25 /\ 15 < stressShift -> eventType = "challenging_life_event"%string)
      /\ (~ (moodShift < -25 /\ 15 < stressShift) ->
          (25 < Js.Math_abs stressShift -> eventType = "major_stress_shift"%string)
          /\ (~ 25 < Js.Math_abs stressShift ->
              (30 < Js.Math_abs moodShift -> eventType = "significant_mood_change"%string)
              /\ (~ 30 < Js.Math_abs moodShift ->
                  eventType = "unknown_transition"%string)))).
Proof.
  unfold classifyShift.
  destruct (moodShift >? 25) eqn:H1; destruct (stressShift <? -15) eqn:H2; simpl;
    try apply gtb_gt in H1; try apply gtb_le in H1;
    try apply ltb_lt in H2; try apply ltb_ge in H2.
  { split; [reflexivity | intros H; exfalso; apply H; auto]. }
  all: split; [intros [? ?]; lra | intros _].
  all: destruct (moodShift <? -25) eqn:H3; destruct (stressShift >? 15) eqn:H4; simpl;
    try apply ltb_lt in H3; try apply ltb_ge in H3;
    try apply gtb_gt in H4; try apply gtb_le in H4.
  all: try (split; [reflexivity | intros H; exfalso; apply H; auto]; fail).
  all: split; [intros [? ?]; lra | intros _].
  all: destruct (Js.Math_abs stressShift >? 25) eqn:H5;
    try apply gtb_gt in H5; try apply gtb_le in H5.
  all: try (split; [reflexivity | intros H; exfalso; apply H; auto]; fail).
  all: split; [intros ?; lra | intros _].
  all: destruct (Js.Math_abs moodShift >? 30) eqn:H6;
    try apply gtb_gt in H6; try apply gtb_le in H6.
  all: try (split; [reflexivity | intros H; exfalso; apply H; auto]; fail).
  all: split; [intros ?; lra | reflexivity].
Qed.

(** The detector over the rationals' own operations is the one above. *)
Lemma detectLifeEventsIn_exact (fs : Firestore) (cal : Calendar) :
  detectLifeEventsIn exactArithmetic fs cal = detectLifeEvents fs cal.
Proof. reflexivity. Qed.

Lemma lifeEventRecords_app (w1 w2 : list (Effect Doc)) :
  lifeEventRecords (w1 ++ w2) = lifeEventRecords w1 ++ lifeEventRecords w2.
Proof.
  unfold lifeEventRecords, written. now rewrite !flat_map_app.
Qed.

Lemma lifeEventRecords_by_effect (w : list (Effect Doc)) :
  lifeEventRecords w = flat_map (fun e => lifeEventRecords [e]) w.
Proof.
  induction w as [| e w IH]; [reflexivity |].
  change (e :: w) with ([e] ++ w).
  rewrite lifeEventRecords_app, IH. reflexivity.
Qed.

(** At most one life event is built for a user: the one of the two shifts,
    when they are flagged. *)
Lemma lifeEventsIn_cases (ar : Arithmetic) (cal : Calendar) (uid : UserId)
    (cognitiveMirrors : list CognitiveMirror) :
  let moodShift := shiftIn ar moodScore cognitiveMirrors in
  let stressShift := shiftIn ar stressIndex cognitiveMirrors in
  (lifeEventsIn ar cal uid cognitiveMirrors = []
   /\ ((List.length cognitiveMirrors < 14)%nat
       \/ ~ (25 < Js.Math_abs moodShift \/ 20 < Js.Math_abs stressShift)))
  \/ (exists record,
        lifeEventsIn ar cal uid cognitiveMirrors = [record]
        /\ (14 <= List.length cognitiveMirrors)%nat
        /\ (25 < Js.Math_abs moodShift \/ 20 < Js.Math_abs stressShift)
        /\ record.(le_userId) = uid
        /\ record.(detectedOn) = cal.(todayKey)
        /\ record.(eventType) = classifyShift moodShift stressShift
        /\ record.(significance)
           = Js.Math_max (Js.Math_abs moodShift) (Js.Math_abs stressShift)).
Proof.
  intros moodShift stressShift. unfold lifeEventsIn, detectedEventsIn.
  fold moodShift stressShift.
  destruct (List.length cognitiveMirrors <? 14)%nat eqn:Hlen.
  { left. apply Nat.ltb_lt in Hlen. auto. }
  apply Nat.ltb_ge in Hlen.
  pose proof (flagged_iff moodShift stressShift) as Hflag.
  destruct (flagged moodShift stressShift).
  - right. eexists. split; [reflexivity |].
    repeat split; auto. now apply Hflag.
  - left. split; [reflexivity | right]. intros Hc. apply Hflag in Hc. discriminate.
Qed.

(** The records written while a user is processed are those built for the
    user, when the store answers the window query and accepts the write, and
    none otherwise. *)
Lemma lifeEventsUserIn_records (ar : Arithmetic) (fs : Firestore) (cal : Calendar)
    (uid : UserId) :
  lifeEventRecords (effects (lifeEventsUserIn ar fs cal uid))
  = match fs.(mirrorsLast4Weeks) uid, fs.(set_result) "lifeEvents"%string uid with
    | Normal cognitiveMirrors, Normal _ => lifeEventsIn ar cal uid cognitiveMirrors
    | _, _ => []
    end.
Proof.
  unfold lifeEventsUserIn.
  destruct (fs.(mirrorsLast4Weeks) uid) as [cognitiveMirrors | err]; [| reflexivity].
  rewrite bind_await_Normal_job.
  destruct (lifeEventsIn_cases ar cal uid cognitiveMirrors)
    as [[-> _] | (record & -> & _)].
  - now destruct (fs.(set_result) "lifeEvents"%string uid).
  - unfold db_set.
    now destruct (fs.(set_result) "lifeEvents"%string uid) as [[] | err].
Qed.

Lemma lifeEventsUserIn_complete (ar : Arithmetic) (fs : Firestore) (cal : Calendar)
    (uid : UserId) (cognitiveMirrors : list CognitiveMirror) :
  fs.(mirrorsLast4Weeks) uid = Normal cognitiveMirrors ->
  fs.(set_result) "lifeEvents"%string uid = Normal tt ->
  snd (lifeEventsUserIn ar fs cal uid) = Normal tt.
Proof.
  intros Hread Hwrite. unfold lifeEventsUserIn. rewrite Hread, bind_await_Normal_job.
  destruct (lifeEventsIn_cases ar cal uid cognitiveMirrors)
    as [[-> _] | (record & -> & _)]; [reflexivity |].
  unfold db_set. now rewrite Hwrite.
Qed.

(** A life event written while a user is processed is that user's. *)
Lemma lifeEventsUserIn_owner (ar : Arithmetic) (fs : Firestore) (cal : Calendar)
    (uid : UserId) (record : LifeEvent) :
  In record (lifeEventRecords (effects (lifeEventsUserIn ar fs cal uid))) ->
  record.(le_userId) = uid.
Proof.
  rewrite lifeEventsUserIn_records.
  destruct (fs.(mirrorsLast4Weeks) uid) as [cognitiveMirrors | err]; [| intros []].
  destruct (fs.(set_result) "lifeEvents"%string uid); [| intros []].
  destruct (lifeEventsIn_cases ar cal uid cognitiveMirrors)
    as [[-> _] | (record' & -> & _ & _ & Hown & _)]; [intros [] |].
  now intros [<- | []].
Qed.

(** The life events a run writes for a user are those written while the user
    is processed, if the loop gets that far. *)
Lemma lifeEventsFor_started (ar : Arithmetic) (fs : Firestore) (cal : Calendar)
    (uid : UserId) (us : list UserId) :
  fs.(users) = Normal us -> NoDup us ->
  lifeEventsFor uid ar fs cal
  = if in_dec string_dec uid (started (lifeEventsUserIn ar fs cal) us)
    then lifeEventRecords (effects (lifeEventsUserIn ar fs cal uid))
    else [].
Proof.
  intros Hus Hnd. unfold lifeEventsFor, detectLifeEventsIn.
  rewrite Hus, lifeEventRecords_by_effect.
  rewrite (records_of_user (fun e => lifeEventRecords [e]) le_userId); auto.
  - now rewrite <- lifeEventRecords_by_effect.
  - intros p record _. rewrite <- lifeEventRecords_by_effect.
    apply lifeEventsUserIn_owner.
Qed.

(** Every life event a run writes was built for its user from a window of at
    least 14 mirrors. *)
Lemma written_life_event (ar : Arithmetic) (fs : Firestore) (cal : Calendar)
    (record : LifeEvent) :
  In record (lifeEventRecords (effects (detectLifeEventsIn ar fs cal))) ->
  exists cognitiveMirrors,
    fs.(mirrorsLast4Weeks) record.(le_userId) = Normal cognitiveMirrors
    /\ In record (lifeEventsIn ar cal record.(le_userId) cognitiveMirrors).
Proof.
  unfold lifeEventRecords at 1. rewrite in_flat_map.
  intros ([| | | l] & Hin & Hl); simpl in Hl; try contradiction.
  destruct Hl as [-> | []].
  apply in_written in Hin. unfold detectLifeEventsIn in Hin.
  apply in_effects_bind in Hin as [Hin | (_ & _ & Hin)].
  { in_effects Hin. discriminate. }
  apply in_effects_try_catch in Hin as [Hin | (err & Hin)].
  2: { in_effects Hin. discriminate. }
  apply in_effects_bind in Hin as [[] | (us & _ & Hin)].
  apply in_effects_for_of in Hin as (uid & _ & Hin).
  assert (Hrec : In record (lifeEventRecords (effects (lifeEventsUserIn ar fs cal uid)))).
  { unfold lifeEventRecords. apply in_flat_map.
    exists (LifeEventDoc record). split; [now apply in_written | now left]. }
  pose proof (lifeEventsUserIn_owner ar fs cal uid record Hrec) as Hown.
  rewrite lifeEventsUserIn_records in Hrec. rewrite Hown.
  destruct (fs.(mirrorsLast4Weeks) uid) as [cognitiveMirrors | err']; [| destruct Hrec].
  destruct (fs.(set_result) "lifeEvents"%string uid); [| destruct Hrec].
  now exists cognitiveMirrors.
Qed.

(** C6, as the code has it.  The shifts are the average of the second half of
    the user's mirrors of the trailing 4 weeks minus that of the first half,
    as the platform's arithmetic computes them.  For a user with fewer than 14
    mirrors the detector writes nothing.  For a user with at least 14, in a
    run that gets to the user (the users before this one in the snapshot are
    processed without an exception) and whose write the store accepts, it
    writes a life event exactly when the mood shift exceeds 25 or the stress
    shift exceeds 20 in absolute value, and the event is named by the fixed
    chain positive_life_change, challenging_life_event, major_stress_shift,
    significant_mood_change, unknown_transition, the first test that holds
    deciding; shifts of 26 and 16 give unknown_transition.  When the
    processing of an earlier user throws, the one [try] around the loop ends
    the run and nothing is written for the user. *)
Theorem life_event_iff_shift (ar : Arithmetic) (fs : Firestore) (cal : Calendar)
    (uid : UserId) (cognitiveMirrors : list CognitiveMirror) :
  fs.(mirrorsLast4Weeks) uid = Normal cognitiveMirrors ->
  let moodShift := shiftIn ar moodScore cognitiveMirrors in
  let stressShift := shiftIn ar stressIndex cognitiveMirrors in
  let emitted := lifeEventsFor uid ar fs cal in
  ((List.length cognitiveMirrors < 14)%nat -> emitted = [])
  /\ (forall pre post,
        (14 <= List.length cognitiveMirrors)%nat ->
        fs.(users) = Normal (pre ++ uid :: post) -> NoDup (pre ++ uid :: post) ->
        (forall p, In p pre -> snd (lifeEventsUserIn ar fs cal p) = Normal tt) ->
        fs.(set_result) "lifeEvents"%string uid = Normal tt ->
        ((exists record,
            emitted = [record]
            /\ record.(le_userId) = uid
            /\ record.(eventType) = classifyShift moodShift stressShift)
         <-> 25 < Js.Math_abs moodShift \/ 20 < Js.Math_abs stressShift)
        /\ (emitted = []
            <-> ~ (25 < Js.Math_abs moodShift \/ 20 < Js.Math_abs stressShift)))
  /\ (forall pre failing post err,
        fs.(users) = Normal (pre ++ failing :: post) ->
        NoDup (pre ++ failing :: post) -> In uid post ->
        (forall p, In p pre -> snd (lifeEventsUserIn ar fs cal p) = Normal tt) ->
        snd (lifeEventsUserIn ar fs cal failing) = Throw err ->
        emitted = [])
  /\ (forall m s : Q,
        let name := classifyShift m s in
        (25 < m /\ s < -15 -> name = "positive_life_change"%string)
        /\ (~ (25 < m /\ s < -15) ->
            (m < -25 /\ 15 < s -> name = "challenging_life_event"%string)
            /\ (~ (m < -25 /\ 15 < s) ->
                (25 < Js.Math_abs s -> name = "major_stress_shift"%string)
                /\ (~ 25 < Js.Math_abs s ->
                    (30 < Js.Math_abs m -> name = "significant_mood_change"%string)
                    /\ (~ 30 < Js.Math_abs m -> name = "unknown_transition"%string)))))
  /\ classifyShift 26 16 = "unknown_transition"%string.
Proof.
  intros Hread moodShift stressShift emitted.
  split; [| split; [| split; [| split; [exact classifyShift_priority | reflexivity]]]].
  - intros Hshort. apply filter_none. intros record Hrec.
    apply written_life_event in Hrec as (docs & Hdocs & Hin).
    apply String.eqb_neq. intros Hown. rewrite Hown, Hread in Hdocs.
    inversion Hdocs; subst docs.
    destruct (lifeEventsIn_cases ar cal (le_userId record) cognitiveMirrors)
      as [[E _] | (r & _ & Hlong & _)]; [| lia].
    rewrite E in Hin. destruct Hin.
  - intros pre post Hlong Hus Hnd Hpre Hwrite.
    assert (Hem : emitted = lifeEventsIn ar cal uid cognitiveMirrors).
    { unfold emitted. rewrite (lifeEventsFor_started ar fs cal uid _ Hus Hnd).
      rewrite (started_reached pre post uid _ Hpre).
      destruct (in_dec string_dec uid _) as [_ | Hout].
      - now rewrite lifeEventsUserIn_records, Hread, Hwrite.
      - exfalso. apply Hout, in_or_app. right. now left. }
    rewrite Hem.
    destruct (lifeEventsIn_cases ar cal uid cognitiveMirrors)
      as [[-> [Hshort | Hno]] | (record & -> & _ & Hflag & Hown & _ & Hname & _)];
      [lia | |].
    + split; split.
      * intros (record & E & _). discriminate.
      * intros Hc. contradiction.
      * intros _. exact Hno.
      * reflexivity.
    + split; split.
      * intros _. exact Hflag.
      * intros _. exists record. auto.
      * discriminate.
      * intros Hno. contradiction.
  - intros pre failing post err Hus Hnd Hin Hpre Hfail.
    unfold emitted. rewrite (lifeEventsFor_started ar fs cal uid _ Hus Hnd).
    rewrite (started_reached pre post failing _ Hpre), Hfail.
    destruct (in_dec string_dec uid _) as [Hreached | _]; [| reflexivity].
    exfalso. apply (NoDup_app_disjoint (pre ++ [failing]) post uid); auto.
    now rewrite <- app_assoc.
Qed.

(** In the sample run, in double arithmetic, the first user has thirteen
    mirrors and gets nothing; the second has a mood shift of 26 and a stress
    shift of 16, which is flagged and falls through every named test to
    "unknown_transition". *)
Lemma life_event_iff_shift_witness :
  lifeEventsFor "ada"%string doubleArithmetic Sample.fortnightStore Sample.calendar = []
  /\ shiftIn doubleArithmetic moodScore Sample.shiftedFortnight == 26
  /\ shiftIn doubleArithmetic stressIndex Sample.shiftedFortnight == 16
  /\ exists record,
       lifeEventsFor "bob"%string doubleArithmetic Sample.fortnightStore Sample.calendar
       = [record]
       /\ record.(le_userId) = "bob"%string
       /\ record.(eventType) = "unknown_transition"%string.
Proof.
  split; [| split; [vm_compute; reflexivity | split; [vm_compute; reflexivity |]]].
  - apply (proj1 (life_event_iff_shift doubleArithmetic Sample.fortnightStore
                    Sample.calendar "ada"%string Sample.thirteenDays eq_refl)).
    simpl. lia.
  - destruct (life_event_iff_shift doubleArithmetic Sample.fortnightStore
                Sample.calendar "bob"%string Sample.shiftedFortnight eq_refl)
      as (_ & Hlong & _).
    destruct (Hlong ["ada"%string] []) as [[_ Hemit] _].
    + simpl. lia.
    + reflexivity.
    + repeat constructor; simpl; intuition discriminate.
    + intros p [<- | []]. reflexivity.
    + reflexivity.
    + destruct Hemit as (record & Hrec & Hown & Hname).
      * left. vm_compute. reflexivity.
      * exists record. split; [exact Hrec | split; [exact Hown |]].
        rewrite Hname. vm_compute. reflexivity.
Defined.

(** C6, as stated, fails three times.  Thirteen mirrors whose halves differ
    by 100 in mood produce no life event, in any arithmetic.  A user with
    fourteen mirrors and a mood shift of 26 gets no life event in a run in
    which the window query of the user before throws, in any arithmetic.  And
    with averages of 50/7 and 225/7, whose difference is 25, and a constant
    stress index, neither shift exceeds its threshold, yet the detector, in
    doubles, writes a life event. *)
Lemma life_event_not_as_stated :
  (25 < Js.Math_abs (shiftIn doubleArithmetic moodScore Sample.thirteenDays)
   /\ forall ar,
        lifeEventsFor "ada"%string ar (Sample.windowStore Sample.thirteenDays)
          Sample.calendar = [])
  /\ (Sample.brokenWindowStore.(mirrorsLast4Weeks) "bob"%string
      = Normal Sample.shiftedFortnight
      /\ 25 < Js.Math_abs (shiftIn doubleArithmetic moodScore Sample.shiftedFortnight)
      /\ forall ar,
           lifeEventsFor "bob"%string ar Sample.brokenWindowStore Sample.calendar = [])
  /\ (Js.Math_abs (shift moodScore (Sample.thresholdFortnight 30 30)) == 25
      /\ Js.Math_abs (shift stressIndex (Sample.thresholdFortnight 30 30)) == 0
      /\ List.length
           (lifeEventsFor "ada"%string doubleArithmetic
              (Sample.windowStore (Sample.thresholdFortnight 30 30)) Sample.calendar)
         = 1%nat).
Proof.
  split; [split | split; [split; [| split] | split; [| split]]];
    try (vm_compute; reflexivity); intros ar; reflexivity.
Qed.

(** At a threshold the rounding decides.  With mood averages of 50/7 and
    225/7 the mood shift is 25 in the rationals, and nothing is flagged when
    the stress index is constant; in doubles it is 25 + 2^-48, and an event
    is written.  With a stress index falling from 60 to 30 the event is a
    major stress shift in the rationals and a positive life change in
    doubles. *)
Example threshold_shift_in_doubles :
  shiftIn exactArithmetic moodScore (Sample.thresholdFortnight 30 30) == 25
  /\ shiftIn doubleArithmetic moodScore (Sample.thresholdFortnight 30 30)
     == 25 + / inject_Z (2 ^ 48)
  /\ lifeEventsIn exactArithmetic Sample.calendar "ada"%string
       (Sample.thresholdFortnight 30 30) = []
  /\ map eventType
         (lifeEventsIn doubleArithmetic Sample.calendar "ada"%string
            (Sample.thresholdFortnight 30 30))
     = ["unknown_transition"%string]
  /\ map eventType
         (lifeEventsIn exactArithmetic Sample.calendar "ada"%string
            (Sample.thresholdFortnight 60 30))
     = ["major_stress_shift"%string]
  /\ map eventType
         (lifeEventsIn doubleArithmetic Sample.calendar "ada"%string
            (Sample.thresholdFortnight 60 30))
     = ["positive_life_change"%string].
Proof. repeat split; vm_compute; reflexivity. Qed.

End LifeEventDetector.

(** * Further properties *)

(** ** Handlers, continued *)

Section RunFacts.
Context {Doc : Type}.
Local Abbreviation Job := (Job (Doc := Doc)).

(** A [catch] block that only logs ends the handler normally. *)
Lemma try_catch_log_completes (m : Job unit) (message : string) :
  snd (try_catch m (fun error => emit (LogError message error))) = Normal tt.
Proof. destruct m as [w [[] | err]]; reflexivity. Qed.

Lemma snd_emit_then {A : Type} (e : Effect Doc) (k : Job A) :
  snd (emit e ;;; k) = snd k.
Proof. destruct k as [w r]. reflexivity. Qed.

Lemma effects_emit_then {A : Type} (e : Effect Doc) (k : Job A) :
  effects (emit e ;;; k) = e :: effects k.
Proof. destruct k as [w r]. reflexivity. Qed.

Lemma incl_effects_try_catch (m : Job unit) (handler : string -> Job unit) :
  incl (effects m) (effects (try_catch m handler)).
Proof.
  destruct m as [w [[] | err]]; simpl; [apply incl_refl |].
  destruct (handler err). simpl. apply incl_appl, incl_refl.
Qed.

(** An effect of a loop comes from an iteration all of whose effects are
    effects of the loop. *)
Lemma in_effects_for_of_incl {A : Type} (xs : list A) (body : A -> Job unit)
    (e : Effect Doc) :
  In e (effects (for_of xs body)) ->
  exists x, In x xs /\ In e (effects (body x))
            /\ incl (effects (body x)) (effects (for_of xs body)).
Proof.
  induction xs as [| x xs IH]; [intros [] |].
  change (for_of (x :: xs) body) with (body x ;;; for_of xs body).
  rewrite effects_bind, in_app_iff. intros [H | H].
  - exists x. repeat split; [now left | assumption |]. apply incl_appl, incl_refl.
  - destruct (snd (body x)) as [[] | err] eqn:E; [| contradiction].
    destruct (IH H) as (y & Hy & He & Hincl).
    exists y. repeat split; [now right | assumption |].
    apply incl_appr, Hincl.
Qed.

(** In a scheduled run, a document written comes from the processing of one
    user, all of whose effects are part of the run. *)
Lemma scheduled_run_origin (start message : string) (users : completion (list UserId))
    (body : UserId -> Job unit) (collection : string) (doc : Doc) :
  let run :=
    emit (LogInfo start) ;;;
    try_catch (usersSnapshot <- await users ;; for_of usersSnapshot body)
              (fun error => emit (LogError message error)) in
  In (DbSet collection doc) (effects run) ->
  exists us uid,
    users = Normal us /\ In uid us
    /\ In (DbSet collection doc) (effects (body uid))
    /\ incl (effects (body uid)) (effects run).
Proof.
  intros run H. unfold run in *. rewrite effects_emit_then in H |- *.
  destruct H as [H | H]; [discriminate |].
  apply in_effects_try_catch in H as [H | (err & [H | []])]; [| discriminate].
  destruct users as [us | err]; [| destruct H].
  assert (Eb : effects (usersSnapshot <- await (Normal us) ;; for_of usersSnapshot body)
               = effects (for_of us body))
    by (rewrite effects_bind; reflexivity).
  rewrite Eb in H.
  apply in_effects_for_of_incl in H as (uid & Hin & He & Hincl).
  exists us, uid. repeat split; auto.
  apply incl_tl.
  eapply incl_tran; [| apply incl_effects_try_catch].
  rewrite Eb. exact Hincl.
Qed.

Lemma bind_await_Normal {A B : Type} (a : A) (k : A -> Job B) :
  (x <- await (Normal a) ;; k x) = k a.
Proof. unfold bind, await. now destruct (k a). Qed.

End RunFacts.

(** ** Handlers never reject *)

Section HandlersComplete.

(** X1.  Every scheduled job and every trigger that wraps its work in a
    [try] whose [catch] only logs returns normally, whatever the store
    answers: no exception leaves the handler. *)
Theorem handlers_never_reject :
  (forall fs dateKey,
     snd (DataCapture.aggregateDailyHealthMetrics fs dateKey) = Normal tt)
  /\ (forall fs, snd (DeviceCapture.aggregateDeviceSignals fs) = Normal tt)
  /\ (forall fs getHours dateKey,
        snd (DeviceCapture.aggregateShadowCognition fs getHours dateKey) = Normal tt)
  /\ (forall fs dateKey,
        snd (DeviceCapture.aggregateObscuraPatterns fs dateKey) = Normal tt)
  /\ (forall fs eventData, snd (Gps.processGpsEvent fs eventData) = Normal tt)
  /\ (forall fs cal, snd (Insight.generateCognitiveMirror fs cal) = Normal tt)
  /\ (forall fs cal, snd (Insight.generateEmotionForecast fs cal) = Normal tt)
  /\ (forall fs eventData,
        snd (RhythmScoring.generateRhythmScore fs eventData) = Normal tt)
  /\ (forall fs eventData,
        snd (Insight.detectBehavioralRecovery fs eventData) = Normal tt)
  /\ (forall fs cal, snd (Insight.detectLifeEvents fs cal) = Normal tt).
Proof.
  repeat split; intros.
  all: try (destruct eventData as [data |];
            [apply try_catch_log_completes | reflexivity]).
  all: unfold DataCapture.aggregateDailyHealthMetrics,
         DeviceCapture.aggregateDeviceSignals, DeviceCapture.aggregateShadowCognition,
         DeviceCapture.aggregateObscuraPatterns, Insight.generateCognitiveMirror,
         Insight.generateEmotionForecast, Insight.detectLifeEvents.
  all: match goal with
       | |- snd (emit ?e ;;; ?k) = _ =>
           rewrite (snd_emit_then e k); apply try_catch_log_completes
       end.
Qed.

End HandlersComplete.

(** ** Daily Aggregator, continued *)

Section DailyAggregatorMore.
Import DataCapture.

Lemma ltb_compat (x x' y y' : Q) : x == x' -> y == y' -> (x <? y) = (x' <? y').
Proof.
  intros Hx Hy.
  destruct (x <? y) eqn:E1; destruct (x' <? y') eqn:E2; try reflexivity;
    try apply ltb_lt in E1; try apply ltb_ge in E1;
    try apply ltb_lt in E2; try apply ltb_ge in E2; lra.
Qed.

Lemma count_motion_pair (t : Q) (n : Z) (x : TelemetryEvent) :
  count_motion (t, n) x
  = if String.eqb (eventType x) "motion_event"%string
    then (t + Js.or_zero (eventDuration x), (n + 1)%Z)
    else (t, n).
Proof. reflexivity. Qed.

(** The running totals of the [forEach] are the starting values plus the
    totals of the snapshot. *)
Lemma fold_count_motion_acc (docs : list TelemetryEvent) (t : Q) (n : Z) :
  fst (fold_left count_motion docs (t, n))
  == t + fst (fold_left count_motion docs (0%Q, 0%Z))
  /\ snd (fold_left count_motion docs (t, n))
     = (n + snd (fold_left count_motion docs (0%Q, 0%Z)))%Z.
Proof.
  revert t n. induction docs as [| x docs IH]; intros t n.
  - simpl. split; [ring | lia].
  - cbn [fold_left]. rewrite !count_motion_pair.
    destruct (String.eqb (eventType x) "motion_event"%string).
    + destruct (IH (t + Js.or_zero (eventDuration x)) (n + 1)%Z) as [E1 E2].
      destruct (IH (0 + Js.or_zero (eventDuration x)) (0 + 1)%Z) as [E3 E4].
      rewrite E1, E2, E3, E4. split; [ring | lia].
    + apply IH.
Qed.

Lemma motion_total_nonnegative (docs : list TelemetryEvent) :
  nonnegative_durations docs -> 0 <= fst (fold_left count_motion docs (0%Q, 0%Z)).
Proof.
  induction docs as [| x docs IH]; intros H; [simpl; lra |].
  assert (Hd : 0 <= fst (fold_left count_motion docs (0%Q, 0%Z)))
    by (apply IH; intros d Hin; apply H; now right).
  pose proof (H x (or_introl eq_refl)) as Hx.
  cbn [fold_left]. rewrite count_motion_pair.
  destruct (String.eqb (eventType x) "motion_event"%string); [| exact Hd].
  destruct (fold_count_motion_acc docs (0 + Js.or_zero (eventDuration x)) (0 + 1)%Z)
    as [E _].
  rewrite E. lra.
Qed.

Lemma motion_count_nonnegative (docs : list TelemetryEvent) :
  (0 <= snd (fold_left count_motion docs (0%Q, 0%Z)))%Z.
Proof.
  induction docs as [| x docs IH]; [simpl; lia |].
  cbn [fold_left]. rewrite count_motion_pair.
  destruct (String.eqb (eventType x) "motion_event"%string); [| exact IH].
  destruct (fold_count_motion_acc docs (0 + Js.or_zero (eventDuration x)) (0 + 1)%Z)
    as [_ E].
  rewrite E. lia.
Qed.

Lemma dailyHealthMetrics_movementScore (uid : UserId) (dateKey : string)
    (docs : list TelemetryEvent) :
  movementScore (fst (dailyHealthMetrics uid dateKey docs))
  = Js.Math_min 100 (fst (fold_left count_motion docs (0%Q, 0%Z)) / 60).
Proof.
  unfold dailyHealthMetrics.
  destruct (fold_left count_motion docs (0%Q, 0%Z)). reflexivity.
Qed.

(** X2.  The movement score lies between 0 and 100 when no event has a
    negative duration, and further events of that kind in the window never
    lower it. *)
Theorem movement_score_bounded_monotone (uid : UserId) (dateKey : string)
    (docs more : list TelemetryEvent) :
  nonnegative_durations docs -> nonnegative_durations more ->
  0 <= movementScore (fst (dailyHealthMetrics uid dateKey docs)) <= 100
  /\ movementScore (fst (dailyHealthMetrics uid dateKey docs))
     <= movementScore (fst (dailyHealthMetrics uid dateKey (docs ++ more))).
Proof.
  intros Hdocs Hmore. rewrite !dailyHealthMetrics_movementScore.
  pose proof (motion_total_nonnegative docs Hdocs) as H0.
  pose proof (motion_total_nonnegative more Hmore) as H1.
  rewrite fold_left_app.
  destruct (fold_left count_motion docs (0%Q, 0%Z)) as [t n] eqn:E.
  destruct (fold_count_motion_acc more t n) as [Eacc _].
  simpl in H0 |- *.
  assert (Ht : 0 <= t / 60) by (apply Qle_shift_div_l; lra).
  assert (Hmono : t / 60 <= fst (fold_left count_motion more (t, n)) / 60).
  { rewrite Eacc. apply Qle_shift_div_l; [lra |].
    unfold Qdiv. rewrite <- Qmult_assoc.
    setoid_replace (/ 60 * 60) with 1 by reflexivity. lra. }
  repeat split.
  - apply Math_min_glb; lra.
  - apply Math_min_le_l.
  - apply Math_min_glb; [apply Math_min_le_l |].
    eapply Qle_trans; [apply Math_min_le_r | exact Hmono].
Qed.

Lemma movement_score_bounded_monotone_witness :
  0 <= movementScore (fst (dailyHealthMetrics "ada"%string "2024-05-04"%string [Sample.motion 1500]))
       <= 100
  /\ movementScore (fst (dailyHealthMetrics "ada"%string "2024-05-04"%string [Sample.motion 1500]))
     <= movementScore
          (fst (dailyHealthMetrics "ada"%string "2024-05-04"%string
                  ([Sample.motion 1500] ++ [Sample.motion 300]))).
Proof.
  apply (movement_score_bounded_monotone "ada"%string "2024-05-04"%string
           [Sample.motion 1500] [Sample.motion 300]);
    intros d [<- | []]; vm_compute; discriminate.
Defined.

Lemma in_rhythmMaps (w : list (Effect Doc)) (r : RhythmMap) :
  In r (rhythmMaps w) <-> In (DbSet "rhythmMap"%string (RhythmMapDoc r)) w.
Proof.
  unfold rhythmMaps. rewrite in_flat_map. split.
  - intros ([r' | h] & Hin & Hr); simpl in Hr; [| contradiction].
    destruct Hr as [-> | []]. now apply in_written.
  - intros H. exists (RhythmMapDoc r). split; [now apply in_written | now left].
Qed.

Lemma in_healthEchos (w : list (Effect Doc)) (h : HealthEcho) :
  In h (healthEchos w) <-> In (DbSet "healthEcho"%string (HealthEchoDoc h)) w.
Proof.
  unfold healthEchos. rewrite in_flat_map. split.
  - intros ([r | h'] & Hin & Hh); simpl in Hh; [contradiction |].
    destruct Hh as [-> | []]. now apply in_written.
  - intros H. exists (HealthEchoDoc h). split; [now apply in_written | now left].
Qed.

(** A document written while a user is processed is the rhythm map or the
    health echo built from that user's non-empty snapshot, and the rhythm map
    is then among the documents written. *)
Lemma aggregateUser_origin (fs : Firestore) (dateKey : string) (uid : UserId)
    (collection : string) (doc : Doc) :
  In (DbSet collection doc) (effects (aggregateUser fs dateKey uid)) ->
  exists docs,
    fs.(telemetryEvents) uid = Normal docs /\ docs <> []
    /\ In (DbSet "rhythmMap"%string (RhythmMapDoc (fst (dailyHealthMetrics uid dateKey docs))))
          (effects (aggregateUser fs dateKey uid))
    /\ ((collection = "rhythmMap"%string
         /\ doc = RhythmMapDoc (fst (dailyHealthMetrics uid dateKey docs)))
        \/ (collection = "healthEcho"%string
            /\ doc = HealthEchoDoc (snd (dailyHealthMetrics uid dateKey docs)))).
Proof.
  unfold aggregateUser, db_set.
  destruct (telemetryEvents fs uid) as [docs | err]; [| intros []].
  destruct docs as [| x docs]; [intros [] |].
  intros H. exists (x :: docs). split; [reflexivity |]. split; [discriminate |].
  revert H. rewrite bind_await_Normal. cbn [Js.empty].
  destruct (dailyHealthMetrics uid dateKey (x :: docs)) as [rhythmMap healthEcho].
  cbn [fst snd].
  destruct (set_result fs "rhythmMap"%string uid) as [[] | e1];
    [| simpl; intros []].
  destruct (set_result fs "healthEcho"%string uid) as [[] | e2]; simpl.
  - intros [H | [H | [H | []]]]; inversion H; subst; auto.
  - intros [H | []]; inversion H; subst; auto.
Qed.

(** X3.  A user whose telemetry snapshot is empty is skipped without an
    error: processing that user has no effect and ends normally, and no run
    writes a rhythm map or a health echo for that user. *)
Theorem empty_telemetry_skips_user (fs : Firestore) (dateKey : string) (uid : UserId) :
  fs.(telemetryEvents) uid = Normal [] ->
  aggregateUser fs dateKey uid = ([], Normal tt)
  /\ (forall r, In r (rhythmMaps (effects (aggregateDailyHealthMetrics fs dateKey))) ->
                rm_userId r <> uid)
  /\ (forall h, In h (healthEchos (effects (aggregateDailyHealthMetrics fs dateKey))) ->
                he_userId h <> uid).
Proof.
  intros Hempty. split; [| split].
  - unfold aggregateUser. now rewrite Hempty.
  - intros r Hr Heq. apply in_rhythmMaps in Hr.
    apply scheduled_run_origin in Hr as (us & p & _ & _ & Hp & _).
    apply aggregateUser_origin in Hp as (docs & Hdocs & Hne & _ & [[_ E] | [E _]]);
      [| discriminate].
    inversion E; subst r. unfold dailyHealthMetrics in Heq.
    destruct (fold_left count_motion docs (0%Q, 0%Z)). simpl in Heq. subst p.
    rewrite Hempty in Hdocs. inversion Hdocs. subst docs. now apply Hne.
  - intros h Hh Heq. apply in_healthEchos in Hh.
    apply scheduled_run_origin in Hh as (us & p & _ & _ & Hp & _).
    apply aggregateUser_origin in Hp as (docs & Hdocs & Hne & _ & [[E _] | [_ E]]);
      [discriminate |].
    inversion E; subst h. unfold dailyHealthMetrics in Heq.
    destruct (fold_left count_motion docs (0%Q, 0%Z)). simpl in Heq. subst p.
    rewrite Hempty in Hdocs. inversion Hdocs. subst docs. now apply Hne.
Qed.

(** In the sample run the user without telemetry is passed over and the
    next user gets a rhythm map. *)
Lemma empty_telemetry_skips_user_witness :
  aggregateUser Sample.sparseTelemetryStore "2024-05-04"%string "ada"%string = ([], Normal tt)
  /\ map rm_userId
         (rhythmMaps (effects (aggregateDailyHealthMetrics Sample.sparseTelemetryStore
                                 "2024-05-04"%string)))
     = ["bob"%string].
Proof.
  split; [| reflexivity].
  apply (empty_telemetry_skips_user Sample.sparseTelemetryStore "2024-05-04"%string "ada"%string).
  reflexivity.
Defined.

(** X4.  A health echo is written only after the rhythm map of the same
    user and day: every health echo of a run has a rhythm map in that run
    with the same user, date and movement score; its wellness index is the
    mean of that movement score and 100, and its stress index is 80, 60 or
    30 as the rhythm state is "Overstimulated", "Off-Rhythm" or anything
    else. *)
Theorem health_echo_follows_rhythm_map (fs : Firestore) (dateKey : string)
    (h : HealthEcho) :
  In h (healthEchos (effects (aggregateDailyHealthMetrics fs dateKey))) ->
  exists r,
    In r (rhythmMaps (effects (aggregateDailyHealthMetrics fs dateKey)))
    /\ rm_userId r = he_userId h /\ rm_date r = he_date h
    /\ movementScore r = he_movementScore h
    /\ wellnessIndex h == (movementScore r + 100) / 2
    /\ he_stressIndex h
       = if String.eqb (rhythmState r) "Overstimulated"%string then 80
         else if String.eqb (rhythmState r) "Off-Rhythm"%string then 60 else 30.
Proof.
  intros Hh. apply in_healthEchos in Hh.
  apply scheduled_run_origin in Hh as (us & p & _ & _ & Hp & Hincl).
  apply aggregateUser_origin in Hp as (docs & _ & _ & Hr & [[E _] | [_ E]]);
    [discriminate |].
  inversion E; subst h.
  exists (fst (dailyHealthMetrics p dateKey docs)).
  split; [apply in_rhythmMaps, Hincl, Hr |].
  unfold dailyHealthMetrics.
  destruct (fold_left count_motion docs (0%Q, 0%Z)) as [totalMovement motionEvents].
  simpl. repeat split; try reflexivity. field.
Qed.

Lemma health_echo_follows_rhythm_map_witness :
  exists r,
    In r (rhythmMaps (effects (aggregateDailyHealthMetrics Sample.telemetryStore
                                 "2024-05-04"%string)))
    /\ rm_userId r = "ada"%string /\ movementScore r == 25.
Proof.
  destruct (health_echo_follows_rhythm_map Sample.telemetryStore "2024-05-04"%string
              (snd (dailyHealthMetrics "ada"%string "2024-05-04"%string [Sample.motion 1500])))
    as (r & Hin & Huid & _ & Hm & _).
  - vm_compute. left. reflexivity.
  - exists r. split; [exact Hin |]. split; [exact Huid |]. rewrite Hm. reflexivity.
Defined.

(** The converse fails: when the store rejects the health echo, the rhythm
    map already written stays without one. *)
Example rhythm_map_without_health_echo :
  map rm_userId
      (rhythmMaps (effects (aggregateDailyHealthMetrics Sample.halfWrittenStore
                              "2024-05-04"%string)))
  = ["ada"%string]
  /\ healthEchos (effects (aggregateDailyHealthMetrics Sample.halfWrittenStore
                             "2024-05-04"%string))
     = [].
Proof. split; reflexivity. Qed.

Lemma fold_count_motion_perm (docs docs' : list TelemetryEvent) :
  Permutation docs docs' ->
  forall t n,
    fst (fold_left count_motion docs (t, n)) == fst (fold_left count_motion docs' (t, n))
    /\ snd (fold_left count_motion docs (t, n))
       = snd (fold_left count_motion docs' (t, n)).
Proof.
  induction 1 as [| x l l' _ IH | x y l | l l' l'' _ IH1 _ IH2]; intros t n.
  - split; reflexivity.
  - cbn [fold_left]. rewrite count_motion_pair.
    destruct (String.eqb (eventType x) "motion_event"%string); apply IH.
  - cbn [fold_left]. rewrite !count_motion_pair.
    destruct (String.eqb (eventType x) "motion_event"%string) eqn:Ex;
      destruct (String.eqb (eventType y) "motion_event"%string) eqn:Ey;
      rewrite ?count_motion_pair, ?Ex, ?Ey; try (split; reflexivity).
    destruct (fold_count_motion_acc l
                (t + Js.or_zero (eventDuration y) + Js.or_zero (eventDuration x))
                (n + 1 + 1)%Z) as [E1 E2].
    destruct (fold_count_motion_acc l
                (t + Js.or_zero (eventDuration x) + Js.or_zero (eventDuration y))
                (n + 1 + 1)%Z) as [E3 E4].
    rewrite E1, E2, E3, E4. split; [ring | reflexivity].
  - destruct (IH1 t n) as [E1 E2]. destruct (IH2 t n) as [E3 E4].
    split; [now rewrite E1 | now rewrite E2].
Qed.

Lemma count_motion_with_pair (add : Q -> Q -> Q) (t : Q) (n : Z) (x : TelemetryEvent) :
  count_motion_with add (t, n) x
  = if String.eqb (eventType x) "motion_event"%string
    then (add t (Js.or_zero (eventDuration x)), (n + 1)%Z)
    else (t, n).
Proof. reflexivity. Qed.

(** On whole durations an addition that is exact on whole numbers computes
    the totals of [count_motion]. *)
Lemma fold_count_motion_with (add : Q -> Q -> Q) (docs : list TelemetryEvent) :
  exact_on_whole add ->
  (forall data, In data docs ->
     exists d, (0 <= d)%Z /\ Js.or_zero data.(eventDuration) == inject_Z d) ->
  forall (t t' : Q) (n z : Z),
    t == inject_Z z -> t' == t -> (0 <= z)%Z ->
    fst (fold_left count_motion docs (t, n)) <= inject_Z (2 ^ 53) ->
    fst (fold_left (count_motion_with add) docs (t', n))
    == fst (fold_left count_motion docs (t, n))
    /\ snd (fold_left (count_motion_with add) docs (t', n))
       = snd (fold_left count_motion docs (t, n)).
Proof.
  intros Hadd. induction docs as [| x docs IH]; intros Hwhole t t' n z Ht Ht' Hz Hmax.
  - simpl. split; [exact Ht' | reflexivity].
  - assert (Hrest : forall data, In data docs ->
              exists d, (0 <= d)%Z /\ Js.or_zero data.(eventDuration) == inject_Z d)
      by (intros data Hin; apply Hwhole; now right).
    assert (Hnonneg : 0 <= fst (fold_left count_motion docs (0%Q, 0%Z))).
    { apply motion_total_nonnegative. intros data Hin.
      destruct (Hrest data Hin) as (d & Hd & Ed). rewrite Ed.
      change 0 with (inject_Z 0). now rewrite <- Zle_Qle. }
    cbn [fold_left] in Hmax |- *.
    rewrite count_motion_pair in Hmax |- *. rewrite count_motion_with_pair.
    destruct (String.eqb (eventType x) "motion_event"%string).
    + destruct (Hwhole x (or_introl eq_refl)) as (d & Hd & Ed).
      destruct (fold_count_motion_acc docs (t + Js.or_zero (eventDuration x)) (n + 1)%Z)
        as [Eacc _].
      assert (Esum : t + Js.or_zero (eventDuration x) == inject_Z (z + d)).
      { rewrite inject_Z_plus, Ht, Ed. reflexivity. }
      assert (Hsum : (z + d <= 2 ^ 53)%Z).
      { rewrite Zle_Qle, <- Esum. rewrite Eacc in Hmax. lra. }
      apply (IH Hrest _ _ _ (z + d)%Z); auto; [| lia].
      rewrite Esum. apply Hadd; auto. now rewrite Ht'.
    + now apply (IH Hrest _ _ _ z).
Qed.

(** X5.  When every duration is a whole number that is not negative and the
    total is at most 2^53, the additions of the platform are exact: the total
    it computes is the sum of the durations of the motion events, in whatever
    order the store returns the events, and so the rhythm map and the health
    echo do not depend on that order. *)
Theorem daily_metrics_order_independent (add : Q -> Q -> Q) (uid : UserId)
    (dateKey : string) (docs docs' : list TelemetryEvent) :
  exact_on_whole add -> whole_durations docs -> Permutation docs docs' ->
  let total := fun snapshot =>
    fst (fold_left (count_motion_with add) snapshot (0, 0%Z)) in
  let r := fst (dailyHealthMetrics uid dateKey docs) in
  let r' := fst (dailyHealthMetrics uid dateKey docs') in
  let h := snd (dailyHealthMetrics uid dateKey docs) in
  let h' := snd (dailyHealthMetrics uid dateKey docs') in
  total docs == fst (fold_left count_motion docs (0, 0%Z))
  /\ total docs' == total docs
  /\ movementScore r == movementScore r'
  /\ rhythmState r = rhythmState r'
  /\ sleepHours r = sleepHours r'
  /\ restfulnessScore r = restfulnessScore r'
  /\ stepsCount h = stepsCount h'
  /\ activeMinutes h == activeMinutes h'
  /\ wellnessIndex h == wellnessIndex h'
  /\ he_stressIndex h = he_stressIndex h'.
Proof.
  intros Hadd [Hwhole Hmax] Hperm.
  destruct (fold_count_motion_perm docs docs' Hperm 0 0%Z) as [Et En].
  assert (Hwhole' : forall data, In data docs' ->
            exists d, (0 <= d)%Z /\ Js.or_zero data.(eventDuration) == inject_Z d).
  { intros data Hin. apply Hwhole.
    apply (Permutation_in _ (Permutation_sym Hperm) Hin). }
  destruct (fold_count_motion_with add docs Hadd Hwhole 0 0 0%Z 0%Z)
    as [Etotal _]; [reflexivity | reflexivity | lia | exact Hmax |].
  destruct (fold_count_motion_with add docs' Hadd Hwhole' 0 0 0%Z 0%Z)
    as [Etotal' _]; [reflexivity | reflexivity | lia | now rewrite <- Et |].
  cbv zeta.
  split; [exact Etotal |].
  split; [now rewrite Etotal, Etotal', Et |].
  unfold dailyHealthMetrics.
  destruct (fold_left count_motion docs (0%Q, 0%Z)) as [t n].
  destruct (fold_left count_motion docs' (0%Q, 0%Z)) as [t' n'].
  simpl in Et, En |- *. subst n'.
  assert (Em : Js.Math_min 100 (t / 60) == Js.Math_min 100 (t' / 60)).
  { unfold Js.Math_min. apply Q.min_compat; [reflexivity | now rewrite Et]. }
  assert (Es : determineRhythmState 8 (Js.Math_min 100 (t / 60)) n
               = determineRhythmState 8 (Js.Math_min 100 (t' / 60)) n).
  { unfold determineRhythmState, Js.gtb.
    rewrite (ltb_compat _ _ 20 20 Em (Qeq_refl _)).
    rewrite (ltb_compat 80 80 _ _ (Qeq_refl _) Em). reflexivity. }
  rewrite Es. repeat split; try reflexivity; try assumption.
  - now rewrite Et.
  - now rewrite Em.
Qed.

(** The addition of doubles is exact on whole numbers up to 2^53. *)
Lemma double_add_exact_on_whole : exact_on_whole Js.double_add.
Proof.
  intros x y a b Ex Ey Ha Hb Hsum. unfold Js.double_add.
  apply toDouble_whole; [| lia].
  rewrite inject_Z_plus, Ex, Ey. reflexivity.
Qed.

(** Two motion events of 1500 and 300, added as doubles in either order. *)
Lemma daily_metrics_order_independent_witness :
  fst (fold_left (count_motion_with Js.double_add)
         [Sample.motion 300; Sample.motion 1500] (0, 0%Z))
  == fst (fold_left (count_motion_with Js.double_add)
            [Sample.motion 1500; Sample.motion 300] (0, 0%Z))
  /\ rhythmState
       (fst (dailyHealthMetrics "ada"%string "2024-05-04"%string
               [Sample.motion 1500; Sample.motion 300]))
     = rhythmState
         (fst (dailyHealthMetrics "ada"%string "2024-05-04"%string
                 [Sample.motion 300; Sample.motion 1500])).
Proof.
  destruct (daily_metrics_order_independent Js.double_add "ada"%string
              "2024-05-04"%string
              [Sample.motion 1500; Sample.motion 300]
              [Sample.motion 300; Sample.motion 1500])
    as (_ & Htotal & _ & Hstate & _).
  - exact double_add_exact_on_whole.
  - split.
    + intros data [<- | [<- | []]];
        [exists 1500%Z | exists 300%Z]; split; [lia | reflexivity | lia | reflexivity].
    + vm_compute. discriminate.
  - apply perm_swap.
  - split; [exact Htotal | exact Hstate].
Defined.

End DailyAggregatorMore.

(** ** Cognitive Mirror Builder, continued *)

Section MirrorBuilderMore.
Import Insight.

Lemma computeMoodScore_range (v : list VoiceEvent) : 0 <= computeMoodScore v <= 100.
Proof.
  unfold computeMoodScore. destruct (Js.empty v); [split; lra |].
  unfold Js.Math_max, Js.Math_min. split.
  - apply Q.le_max_l.
  - apply Q.max_lub; [lra | apply Q.le_min_l].
Qed.

Lemma len_nonnegative {A : Type} (xs : list A) : 0 <= Js.len xs.
Proof.
  unfold Js.len. change 0 with (inject_Z 0). rewrite <- Zle_Qle. lia.
Qed.

Lemma Math_round_nonnegative (x : Q) : 0 <= x -> 0 <= Js.Math_round x.
Proof.
  intros H. change 0 with (inject_Z 0) at 1. rewrite <- (Math_round_Z 0).
  now apply Math_round_mono.
Qed.

Lemma Math_round_le_Z (x : Q) (z : Z) : x <= inject_Z z -> Js.Math_round x <= inject_Z z.
Proof.
  intros H. rewrite <- (Math_round_Z z). now apply Math_round_mono.
Qed.

(** X6.  Whatever the store returns, a mirror the builder writes has its
    mood score and its social connection between 0 and 100, a stress index
    of at most 100, and an energy level and a purpose alignment that are not
    negative. *)
Theorem mirror_scores_bounded (fs : Firestore) (cal : Calendar) (c : CognitiveMirror) :
  In c (mirrors (effects (generateCognitiveMirror fs cal))) ->
  0 <= c.(moodScore) <= 100
  /\ 0 <= c.(socialConnection) <= 100
  /\ c.(stressIndex) <= 100
  /\ 0 <= c.(energyLevel)
  /\ 0 <= c.(purposeAlignment).
Proof.
  intros H. apply written_mirror in H as (v & d & s & r & _ & _ & _ & _ & ->).
  pose proof (computeMoodScore_range v) as [Hm0 Hm1].
  pose proof (computeStressIndex_le_100 d s) as Hs.
  pose proof (len_nonnegative v) as Hl.
  simpl. repeat split.
  - now apply Math_round_nonnegative.
  - now apply (Math_round_le_Z _ 100).
  - apply Math_min_glb; lra.
  - apply Math_min_le_l.
  - now apply (Math_round_le_Z _ 100).
  - lra.
  - apply Math_round_nonnegative. apply Qle_shift_div_l; lra.
Qed.

Lemma mirror_scores_bounded_witness :
  0 <= Sample.quietMirror.(moodScore) <= 100
  /\ 0 <= Sample.quietMirror.(socialConnection) <= 100
  /\ Sample.quietMirror.(stressIndex) <= 100
  /\ 0 <= Sample.quietMirror.(energyLevel)
  /\ 0 <= Sample.quietMirror.(purposeAlignment).
Proof.
  apply (mirror_scores_bounded Sample.quietStore Sample.calendar).
  vm_compute. left. reflexivity.
Defined.

(** X7.  When the stress inputs are not negative, the energy level is at
    most 70 and the purpose alignment at most 85: the baseline stress of 30
    is always spent. *)
Theorem energy_and_purpose_capped (uid : UserId) (dateKey : string)
    (v : list VoiceEvent) (d : list DeviceSignal) (s : list ShadowCognition)
    (r : list RhythmData) :
  nonnegative_inputs d s ->
  (cognitiveMirror uid dateKey v d s r).(energyLevel) <= 70
  /\ (cognitiveMirror uid dateKey v d s r).(purposeAlignment) <= 85.
Proof.
  intros H. apply computeStressIndex_range in H as [Hlo _].
  pose proof (computeMoodScore_range v) as [_ Hm].
  simpl. split; [lra |].
  apply (Math_round_le_Z _ 85). apply Qle_shift_div_r; [reflexivity |].
  change (inject_Z 85 * 2) with 170. lra.
Qed.

Lemma energy_and_purpose_capped_witness :
  Sample.quietMirror.(energyLevel) <= 70
  /\ Sample.quietMirror.(purposeAlignment) <= 85.
Proof.
  apply (energy_and_purpose_capped "ada"%string "2024-05-04"%string [] [Sample.quietDevice] [] []).
  split.
  - intros x [= <-]. split; vm_compute; discriminate.
  - intros x [=].
Defined.

Lemma mirrors_app (w1 w2 : list (Effect Doc)) :
  mirrors (w1 ++ w2) = mirrors w1 ++ mirrors w2.
Proof. unfold mirrors, written. now rewrite !flat_map_app. Qed.

Lemma mirrors_flat_map {A : Type} (g : A -> list (Effect Doc)) (xs : list A) :
  mirrors (flat_map g xs) = flat_map (fun x => mirrors (g x)) xs.
Proof.
  induction xs as [| x xs IH]; simpl; [reflexivity |].
  now rewrite mirrors_app, IH.
Qed.

Lemma flat_map_agree {A B : Type} (f g : A -> list B) (xs : list A) :
  (forall x, In x xs -> f x = g x) -> flat_map f xs = flat_map g xs.
Proof.
  induction xs as [| x xs IH]; intros H; simpl; [reflexivity |].
  rewrite (H x (or_introl eq_refl)), IH; [reflexivity |].
  intros y Hy. apply H. now right.
Qed.

Lemma flat_map_singleton {A B : Type} (f : A -> B) (xs : list A) :
  flat_map (fun x => [f x]) xs = map f xs.
Proof. induction xs as [| x xs IH]; simpl; [reflexivity | now rewrite IH]. Qed.

(** X8.  In a run in which the store answers every query and accepts every
    write, the builder writes exactly one mirror per user of the snapshot, in
    snapshot order, and skips nobody: a user with no data at all gets the
    baseline mirror (mood 50, stress 30, energy 70, no social connection,
    purpose 60, no insight). *)
Theorem one_mirror_per_user (fs : Firestore) (cal : Calendar) (us : list UserId)
    (v : UserId -> list VoiceEvent) (d : UserId -> list DeviceSignal)
    (s : UserId -> list ShadowCognition) (r : UserId -> list RhythmData) :
  fs.(users) = Normal us ->
  (forall u, In u us ->
     fs.(voiceEvents) u = Normal (v u) /\ fs.(deviceSignals) u = Normal (d u)
     /\ fs.(shadowCognition) u = Normal (s u) /\ fs.(rhythmMap) u = Normal (r u)
     /\ fs.(set_result) "cognitiveMirror"%string u = Normal tt) ->
  mirrors (effects (generateCognitiveMirror fs cal))
  = map (fun u => cognitiveMirror u cal.(yesterdayKey) (v u) (d u) (s u) (r u)) us
  /\ forall u, In u us -> v u = [] -> d u = [] -> s u = [] -> r u = [] ->
       exists c,
         In c (mirrors (effects (generateCognitiveMirror fs cal)))
         /\ c.(userId) = u
         /\ c.(moodScore) == 50 /\ c.(stressIndex) == 30 /\ c.(energyLevel) == 70
         /\ c.(socialConnection) == 0 /\ c.(purposeAlignment) == 60
         /\ c.(highlightInsights) = [].
Proof.
  intros Hus Hok.
  assert (Hbody : forall u, In u us ->
            mirrorUser fs cal u
            = ([DbSet "cognitiveMirror"%string
                  (CognitiveMirrorDoc
                     (cognitiveMirror u cal.(yesterdayKey) (v u) (d u) (s u) (r u)));
                LogInfo ("Cognitive mirror generated for user "%string ++ u ++ " on "%string
                         ++ cal.(yesterdayKey))],
               Normal tt)).
  { intros u Hu. destruct (Hok u Hu) as (Hv & Hd & Hs & Hr & Hw).
    unfold mirrorUser, db_set. rewrite Hv, Hd, Hs, Hr, Hw. reflexivity. }
  assert (Hrun : mirrors (effects (generateCognitiveMirror fs cal))
                 = map (fun u => cognitiveMirror u cal.(yesterdayKey)
                                   (v u) (d u) (s u) (r u)) us).
  { unfold generateCognitiveMirror. rewrite Hus, effects_emit_then, bind_await_Normal.
    rewrite for_of_complete by (intros u Hu; now rewrite Hbody).
    cbn [try_catch effects fst].
    change (LogInfo ?m :: ?w) with ([LogInfo (Doc := Doc) m] ++ w).
    rewrite mirrors_app, mirrors_flat_map. cbn [mirrors written flat_map app].
    rewrite <- flat_map_singleton. apply flat_map_agree.
    intros u Hu. rewrite Hbody by exact Hu. reflexivity. }
  split; [exact Hrun |].
  intros u Hu Ev Ed Es Er.
  exists (cognitiveMirror u cal.(yesterdayKey) [] [] [] []).
  split.
  - rewrite Hrun. apply in_map_iff. exists u. rewrite Ev, Ed, Es, Er. auto.
  - repeat split; reflexivity.
Qed.

Lemma one_mirror_per_user_witness :
  map userId (mirrors (effects (generateCognitiveMirror Sample.silentStore
                                  Sample.calendar)))
  = ["ada"%string; "bob"%string].
Proof.
  rewrite (proj1 (one_mirror_per_user Sample.silentStore Sample.calendar
                    ["ada"%string; "bob"%string] (fun _ => []) (fun _ => []) (fun _ => [])
                    (fun _ => []) eq_refl
                    (fun u _ => conj eq_refl (conj eq_refl (conj eq_refl
                                  (conj eq_refl eq_refl)))))).
  reflexivity.
Defined.

End MirrorBuilderMore.

(** ** Device signals and shadow cognition *)

Section DeviceAndShadow.
Import DeviceCapture.

Lemma tally_triple (n : Z) (s : Q) (a : Z) (data : Telemetry) :
  tally (n, s, a) data
  = if String.eqb data.(eventType) "notification_received"%string
    then ((n + 1)%Z, s, a)
    else if String.eqb data.(eventType) "screen_on"%string
    then (n, s + Js.or_zero data.(eventDuration) / (1000 * 60), a)
    else if String.eqb data.(eventType) "app_opened"%string
    then (n, s, (a + 1)%Z)
    else (n, s, a).
Proof. reflexivity. Qed.

Lemma minutes_nonnegative (data : Telemetry) :
  0 <= Js.or_zero data.(eventDuration) ->
  0 <= Js.or_zero data.(eventDuration) / (1000 * 60).
Proof. intros H. apply Qle_shift_div_l; [reflexivity | lra]. Qed.

(** The counters of the device signal never go down, and the screen time
    does not either when no duration is negative. *)
Lemma fold_tally_grows (docs : list Telemetry) :
  nonnegative_durations docs ->
  forall n s a,
    (n <= fst (fst (fold_left tally docs (n, s, a))))%Z
    /\ s <= snd (fst (fold_left tally docs (n, s, a)))
    /\ (a <= snd (fold_left tally docs (n, s, a)))%Z.
Proof.
  induction docs as [| x docs IH]; intros H n s a.
  - simpl. repeat split; (lia || lra).
  - assert (Hdocs : nonnegative_durations docs)
      by (intros d Hd; apply H; now right).
    pose proof (minutes_nonnegative x (H x (or_introl eq_refl))) as Hx.
    cbn [fold_left]. rewrite tally_triple.
    destruct (String.eqb (eventType x) "notification_received"%string);
      [| destruct (String.eqb (eventType x) "screen_on"%string);
         [| destruct (String.eqb (eventType x) "app_opened"%string)]].
    + destruct (IH Hdocs (n + 1)%Z s a) as (? & ? & ?). repeat split; (lia || lra).
    + destruct (IH Hdocs n (s + Js.or_zero (eventDuration x) / (1000 * 60)) a)
        as (? & ? & ?).
      repeat split; (lia || lra).
    + destruct (IH Hdocs n s (a + 1)%Z) as (? & ? & ?). repeat split; (lia || lra).
    + apply IH, Hdocs.
Qed.

Lemma countFrictionTaps_nonnegative (events : list Telemetry) :
  (0 <= countFrictionTaps events)%Z.
Proof.
  induction events as [| previous [| current rest] IH]; simpl; try lia.
  simpl in IH. destruct (_ && _); lia.
Qed.

(** X9.  The records the device-signal and shadow-cognition aggregators
    build from events without negative durations are stress inputs the
    Cognitive Mirror Builder reads as not negative, so the stress index it
    computes from them lies between 30 and 100. *)
Theorem aggregated_inputs_nonnegative (getHours : Q -> Z) (uid : UserId)
    (dateKey : string) (events : list Telemetry) :
  nonnegative_durations events ->
  Insight.nonnegative_inputs
    [storedDeviceSignal (deviceSignal uid events)]
    [storedShadowCognition (shadowCognition getHours uid dateKey events)]
  /\ 30 <= Insight.computeStressIndex
             [storedDeviceSignal (deviceSignal uid events)]
             [storedShadowCognition (shadowCognition getHours uid dateKey events)]
        <= 100.
Proof.
  intros H.
  assert (Hnn : Insight.nonnegative_inputs
                  [storedDeviceSignal (deviceSignal uid events)]
                  [storedShadowCognition (shadowCognition getHours uid dateKey events)]).
  { destruct (fold_tally_grows events H 0%Z 0 0%Z) as (Hn & Hs & _).
    split.
    - intros d [= <-]. unfold deviceSignal.
      destruct (fold_left tally events (0%Z, 0, 0%Z)) as [[n s] a].
      cbn [storedDeviceSignal Insight.notificationCount Insight.screenTimeMinutes
           notificationCount screenTimeMinutes fst snd] in *.
      rewrite !or_zero_Some. split; [| exact Hs].
      change 0 with (inject_Z 0). now rewrite <- Zle_Qle.
    - intros x [= <-].
      cbn [storedShadowCognition shadowCognition Insight.frictionTaps frictionTaps].
      rewrite or_zero_Some. change 0 with (inject_Z 0). rewrite <- Zle_Qle.
      apply countFrictionTaps_nonnegative. }
  split; [exact Hnn | now apply computeStressIndex_range].
Qed.

Lemma aggregated_inputs_nonnegative_witness :
  30 <= Insight.computeStressIndex
          [storedDeviceSignal (deviceSignal "ada"%string Sample.evening)]
          [storedShadowCognition
             (shadowCognition Sample.hourOf "ada"%string "2024-05-04"%string Sample.evening)]
     <= 100.
Proof.
  refine (proj2 (aggregated_inputs_nonnegative Sample.hourOf "ada"%string "2024-05-04"%string
                   Sample.evening _)).
  intros d [<- | [<- | [<- | [<- | []]]]]; vm_compute; discriminate.
Defined.

Lemma appSwitches_count (docs : list Telemetry) (n : Z) (s : Q) (a : Z) :
  snd (fold_left tally docs (n, s, a))
  = (a + Z.of_nat (List.length (filter isAppOpened docs)))%Z.
Proof.
  revert n s a. induction docs as [| x docs IH]; intros n s a.
  - simpl. lia.
  - cbn [fold_left filter]. rewrite tally_triple. unfold isAppOpened at 1.
    destruct (String.eqb_spec (eventType x) "notification_received"%string) as [E | _].
    { rewrite E. cbn [String.eqb Ascii.eqb Bool.eqb]. simpl. apply IH. }
    destruct (String.eqb_spec (eventType x) "screen_on"%string) as [E | _].
    { rewrite E. simpl. apply IH. }
    destruct (String.eqb (eventType x) "app_opened"%string).
    + rewrite IH. cbn [List.length]. lia.
    + apply IH.
Qed.

(** A rapid switch is counted at the later of its two events, which opened
    an app. *)
Lemma countFrictionTaps_le_opened (previous : Telemetry) (events : list Telemetry) :
  (countFrictionTaps (previous :: events)
   <= Z.of_nat (List.length (filter isAppOpened events)))%Z.
Proof.
  revert previous. induction events as [| current rest IH]; intros previous.
  - simpl. lia.
  - change (countFrictionTaps (previous :: current :: rest))
      with ((if isAppOpened current && isAppOpened previous
                && (current.(timestamp) - previous.(timestamp) <? 5000)%Q
             then 1 else 0)
            + countFrictionTaps (current :: rest))%Z.
    specialize (IH current). cbn [filter].
    destruct (isAppOpened current); cbn [andb List.length]; [| lia].
    destruct (_ && _); lia.
Qed.

Lemma filter_length_le {A : Type} (p : A -> bool) (xs : list A) :
  (List.length (filter p xs) <= List.length xs)%nat.
Proof.
  induction xs as [| x xs IH]; simpl; [lia |]. destruct (p x); simpl; lia.
Qed.

(** X10.  The friction taps are at most the app switches the device-signal
    aggregator counts on the same events, and fewer than the events; the
    derived counters are ordered: hesitation taps, avoidance behaviours,
    friction taps, compulsive opens, and the last are at most twice the
    friction taps. *)
Theorem friction_counters_ordered (getHours : Q -> Z) (uid : UserId)
    (dateKey : string) (events : list Telemetry) :
  let sc := shadowCognition getHours uid dateKey events in
  (0 <= sc.(frictionTaps) <= (deviceSignal uid events).(appSwitches))%Z
  /\ (sc.(frictionTaps) <= Z.of_nat (List.length events - 1))%Z
  /\ (0 <= sc.(hesitationTaps) <= sc.(avoidanceBehaviors))%Z
  /\ (sc.(avoidanceBehaviors) <= sc.(frictionTaps))%Z
  /\ (sc.(frictionTaps) <= sc.(compulsiveOpenCount) <= 2 * sc.(frictionTaps))%Z.
Proof.
  cbn [shadowCognition frictionTaps hesitationTaps avoidanceBehaviors
       compulsiveOpenCount].
  pose proof (countFrictionTaps_nonnegative events) as H0.
  assert (Hopened : (countFrictionTaps events
                     <= Z.of_nat (List.length (filter isAppOpened (tl events))))%Z).
  { destruct events as [| previous rest]; [simpl; lia |].
    apply countFrictionTaps_le_opened. }
  assert (Hq : 0 <= inject_Z (countFrictionTaps events))
    by (change 0 with (inject_Z 0); now rewrite <- Zle_Qle).
  set (f := countFrictionTaps events) in *.
  repeat split; try exact H0.
  - unfold deviceSignal.
    pose proof (appSwitches_count events 0%Z 0 0%Z) as Ha.
    destruct (fold_left tally events (0%Z, 0, 0%Z)) as [[n s] a].
    cbn [appSwitches snd] in *. rewrite Ha.
    destruct events as [| previous rest]; [simpl in *; lia |].
    cbn [tl filter] in *. destruct (isAppOpened previous); cbn [List.length]; lia.
  - eapply Z.le_trans; [exact Hopened |].
    destruct events as [| previous rest]; [simpl; lia |].
    cbn [tl List.length]. pose proof (filter_length_le isAppOpened rest). lia.
  - rewrite <- (Qfloor_Z 0). apply Qfloor_resp_le. change (inject_Z 0) with 0. lra.
  - apply Qfloor_resp_le. lra.
  - rewrite <- (Qfloor_Z f) at 2. apply Qfloor_resp_le. lra.
  - rewrite <- (Qfloor_Z f) at 1. apply Qfloor_resp_le. lra.
  - rewrite <- (Qfloor_Z (2 * f)). apply Qfloor_resp_le.
    rewrite inject_Z_mult. change (inject_Z 2) with 2. lra.
Qed.

Lemma fold_bedtime_le_screen (getHours : Q -> Z) (docs : list Telemetry) :
  nonnegative_durations docs ->
  forall b n s a,
    0 <= b -> b <= s ->
    0 <= fold_left (addBedtimeScroll getHours) docs b
    /\ fold_left (addBedtimeScroll getHours) docs b
       <= snd (fst (fold_left tally docs (n, s, a))).
Proof.
  induction docs as [| x docs IH]; intros H b n s a Hb Hbs.
  - simpl. split; assumption.
  - assert (Hdocs : nonnegative_durations docs)
      by (intros d Hd; apply H; now right).
    pose proof (minutes_nonnegative x (H x (or_introl eq_refl))) as Hx.
    cbn [fold_left]. rewrite tally_triple. unfold addBedtimeScroll at 2 4.
    destruct (String.eqb_spec (eventType x) "notification_received"%string) as [E | _].
    { rewrite E. simpl String.eqb. rewrite andb_false_r. now apply IH. }
    destruct (String.eqb (eventType x) "screen_on"%string).
    + destruct (_ || _); cbn [andb]; apply IH; auto; lra.
    + rewrite andb_false_r.
      destruct (String.eqb (eventType x) "app_opened"%string); now apply IH.
Qed.

(** X11.  The late-night screen time of the shadow-cognition record is part
    of the screen time of the device signal built from the same events: it
    is not negative and never exceeds it, when no duration is negative. *)
Theorem bedtime_scroll_within_screen_time (getHours : Q -> Z) (uid : UserId)
    (dateKey : string) (events : list Telemetry) :
  nonnegative_durations events ->
  0 <= (shadowCognition getHours uid dateKey events).(bedtimeScroll)
  /\ (shadowCognition getHours uid dateKey events).(bedtimeScroll)
     <= (deviceSignal uid events).(screenTimeMinutes).
Proof.
  intros H.
  destruct (fold_bedtime_le_screen getHours events H 0 0%Z 0 0%Z) as [H0 Hle];
    try lra.
  unfold deviceSignal.
  destruct (fold_left tally events (0%Z, 0, 0%Z)) as [[n s] a].
  cbn [shadowCognition bedtimeScroll screenTimeMinutes fst snd] in *.
  split; assumption.
Qed.

(** Of fifteen minutes of screen time, the ten at 23 h count as bedtime
    scrolling. *)
Lemma bedtime_scroll_within_screen_time_witness :
  0 <= (shadowCognition Sample.hourOf "ada"%string "2024-05-04"%string Sample.evening).(bedtimeScroll)
  /\ (shadowCognition Sample.hourOf "ada"%string "2024-05-04"%string Sample.evening).(bedtimeScroll)
     <= (deviceSignal "ada"%string Sample.evening).(screenTimeMinutes).
Proof.
  apply (bedtime_scroll_within_screen_time Sample.hourOf "ada"%string "2024-05-04"%string
           Sample.evening).
  intros d [<- | [<- | [<- | [<- | []]]]]; vm_compute; discriminate.
Defined.

Example evening_scores :
  (shadowCognition Sample.hourOf "ada"%string "2024-05-04"%string Sample.evening).(bedtimeScroll) == 10
  /\ (deviceSignal "ada"%string Sample.evening).(screenTimeMinutes) == 15
  /\ (shadowCognition Sample.hourOf "ada"%string "2024-05-04"%string Sample.evening).(frictionTaps)
     = 1%Z
  /\ (deviceSignal "ada"%string Sample.evening).(appSwitches) = 2%Z.
Proof. repeat split; reflexivity. Qed.

Lemma len_cons {A : Type} (x : A) (xs : list A) : Js.len (x :: xs) == Js.len xs + 1.
Proof.
  unfold Js.len. cbn [List.length]. rewrite Nat2Z.inj_succ.
  unfold Z.succ. rewrite inject_Z_plus. reflexivity.
Qed.

Lemma observe_pair (f s : Q) (data : CameraCapture) :
  observe (f, s) data
  = (if tilted data then f + 10 else f, if still data then s + 5 else s).
Proof. reflexivity. Qed.

Lemma fold_observe_bounds (docs : list CameraCapture) (f s : Q) :
  (f <= fst (fold_left observe docs (f, s)) <= f + 10 * Js.len docs)
  /\ (s <= snd (fold_left observe docs (f, s)) <= s + 5 * Js.len docs).
Proof.
  revert f s. induction docs as [| x docs IH]; intros f s.
  - cbn [fold_left fst snd]. change (Js.len (@nil CameraCapture)) with 0.
    split; split; lra.
  - cbn [fold_left]. rewrite observe_pair. rewrite len_cons.
    pose proof (len_nonnegative docs) as Hl.
    destruct (IH (if tilted x then f + 10 else f) (if still x then s + 5 else s))
      as [[H1 H2] [H3 H4]].
    destruct (tilted x); destruct (still x); split; split; lra.
Qed.

(** X12.  An obscura record has a face-tilt score between 0 and ten times
    the number of captures, a stillness index between 0 and five times that
    number, a cancel-behaviour count of 0, and posture shifts that are four
    times the micro-expression changes. *)
Theorem obscura_scores_bounded (uid : UserId) (dateKey : string)
    (docs : list CameraCapture) :
  let o := obscuraPatterns uid dateKey docs in
  0 <= o.(faceTiltScore) <= 10 * Js.len docs
  /\ 0 <= o.(stillnessIndex) <= 5 * Js.len docs
  /\ o.(cancelBehaviorCount) = 0
  /\ o.(postureShifts) == 4 * o.(microExpressionChanges)
  /\ o.(environmentalStillness) = o.(stillnessIndex).
Proof.
  unfold obscuraPatterns.
  destruct (fold_observe_bounds docs 0 0) as [[H1 H2] [H3 H4]].
  destruct (fold_left observe docs (0, 0)) as [f s].
  cbn [faceTiltScore stillnessIndex cancelBehaviorCount postureShifts
       microExpressionChanges environmentalStillness fst snd] in *.
  repeat split; try lra; reflexivity.
Qed.

End DeviceAndShadow.

(** ** Rhythm State Scoring *)

Section RhythmScore.
Import RhythmScoring.

Lemma computeScore_range (rhythmData : DataCapture.RhythmMap)
    (healthEchoSnap : list DataCapture.HealthEcho) :
  0 <= computeScore rhythmData healthEchoSnap <= 100.
Proof.
  unfold computeScore, Js.Math_max, Js.Math_min. split.
  - apply Q.le_max_l.
  - apply Q.max_lub; [lra | apply Q.le_min_l].
Qed.

(** X13.  For every rhythm map and health-echo snapshot, the stored score
    lies between 0 and 100; the trend is "declining" exactly when the score
    is below 40, and then the classification is "Off-Rhythm"; a score above
    75 gives "Stable" with trend "improving"; and "Overstimulated" occurs
    only for scores from 40 to 75. *)
Theorem rhythm_score_consistent (rhythmData : DataCapture.RhythmMap)
    (healthEchoSnap : list DataCapture.HealthEcho) :
  let rs := rhythmScore rhythmData healthEchoSnap in
  let computed := computeScore rhythmData healthEchoSnap in
  0 <= rs.(score) <= 100
  /\ (rs.(stabilityTrend) = "declining"%string <-> computed < 40)
  /\ (computed < 40 -> rs.(classification) = "Off-Rhythm"%string)
  /\ (75 < computed ->
      rs.(classification) = "Stable"%string /\ rs.(stabilityTrend) = "improving"%string)
  /\ (rs.(classification) = "Overstimulated"%string -> 40 <= computed <= 75).
Proof.
  cbn [rhythmScore score stabilityTrend classification].
  pose proof (computeScore_range rhythmData healthEchoSnap) as [H0 H1].
  set (computed := computeScore rhythmData healthEchoSnap) in *.
  split; [split; [now apply Math_round_nonnegative
                 | now apply (Math_round_le_Z _ 100)] |].
  unfold classify.
  destruct (computed >? 60) eqn:E60; destruct (computed <? 40) eqn:E40;
    destruct (computed >? 75) eqn:E75;
    try apply gtb_gt in E60; try apply gtb_le in E60;
    try apply ltb_lt in E40; try apply ltb_ge in E40;
    try apply gtb_gt in E75; try apply gtb_le in E75;
    try lra;
    (split; [split; [discriminate || (intros _; assumption)
                    | intros ?; (reflexivity || lra)] |]);
    (split; [intros ?; (reflexivity || lra) |]);
    (split; [intros ?; ((split; reflexivity) || lra) |]);
    intros ?; try discriminate; split; lra.
Qed.

(** A full movement score and the default sleep give a score of 85:
    "Stable" and "improving". *)
Lemma rhythm_score_consistent_witness :
  (rhythmScore
     (fst (DataCapture.dailyHealthMetrics "ada"%string "2024-05-04"%string [Sample.motion 6000])) [])
    .(classification) = "Stable"%string
  /\ (rhythmScore
        (fst (DataCapture.dailyHealthMetrics "ada"%string "2024-05-04"%string [Sample.motion 6000])) [])
       .(stabilityTrend) = "improving"%string.
Proof.
  refine (proj1 (proj2 (proj2 (proj2 (rhythm_score_consistent
            (fst (DataCapture.dailyHealthMetrics "ada"%string "2024-05-04"%string
                    [Sample.motion 6000])) [])))) _).
  vm_compute. reflexivity.
Defined.

(** X14.  The rhythm maps of the Daily Aggregator are never scored as
    "Overstimulated": with no health echo or with the health echo the
    aggregator wrote beside it, the classification is "Off-Rhythm" when the
    movement score is below 20 and "Stable" otherwise.  When no duration is
    negative, the score with that health echo is 55 plus 0.45 times the
    movement score, so the trend is never "declining". *)
Theorem aggregator_maps_never_overstimulated (uid : UserId) (dateKey : string)
    (docs : list DataCapture.TelemetryEvent) :
  let r := fst (DataCapture.dailyHealthMetrics uid dateKey docs) in
  let h := snd (DataCapture.dailyHealthMetrics uid dateKey docs) in
  (forall snap, snap = [] \/ snap = [h] ->
     (DataCapture.movementScore r < 20 ->
      (rhythmScore r snap).(classification) = "Off-Rhythm"%string)
     /\ (20 <= DataCapture.movementScore r ->
         (rhythmScore r snap).(classification) = "Stable"%string))
  /\ (DataCapture.nonnegative_durations docs ->
      computeScore r [h] == 55 + 0.45 * DataCapture.movementScore r
      /\ (rhythmScore r [h]).(stabilityTrend) <> "declining"%string).
Proof.
  pose proof (motion_total_nonnegative docs) as Hnn.
  unfold DataCapture.dailyHealthMetrics.
  destruct (fold_left DataCapture.count_motion docs (0%Q, 0%Z))
    as [totalMovement motionEvents].
  cbn [fst snd Js.truthy andb]. cbn [fst] in Hnn.
  set (m := Js.Math_min 100 (totalMovement / 60)).
  assert (Hm : m <= 100) by apply Math_min_le_l.
  set (state := DataCapture.determineRhythmState 8 m motionEvents).
  set (r := DataCapture.Build_RhythmMap _ _ _ _ _ _ _ _ _).
  set (h := DataCapture.Build_HealthEcho _ _ _ _ _ _ _ _).
  assert (Hsleep : sleepScore r == 100) by reflexivity.
  assert (Hnone : exists x,
            computeScore r [] = Js.Math_max 0 (Js.Math_min 100 x)
            /\ x == 55 + 0.3 * m).
  { eexists. split; [reflexivity |].
    rewrite Hsleep. cbn [DataCapture.movementScore r]. ring. }
  assert (Hecho : exists x,
            computeScore r [h] = Js.Math_max 0 (Js.Math_min 100 x)
            /\ x == 55 + 0.45 * m).
  { eexists. split; [reflexivity |].
    rewrite Hsleep. cbn [DataCapture.movementScore DataCapture.wellnessIndex r h].
    field. }
  assert (Hx : forall snap, snap = [] \/ snap = [h] ->
            exists x,
              computeScore r snap = Js.Math_max 0 (Js.Math_min 100 x)
              /\ (x == 55 + 0.3 * m \/ x == 55 + 0.45 * m)).
  { intros snap [-> | ->].
    - destruct Hnone as (x & E & Hv). exists x. auto.
    - destruct Hecho as (x & E & Hv). exists x. auto. }
  split.
  - intros snap Hsnap. destruct (Hx snap Hsnap) as (x & Ex & Hxm).
    cbn [rhythmScore classification]. unfold classify. rewrite Ex.
    cbn [DataCapture.movementScore DataCapture.sleepHours DataCapture.rhythmState r].
    set (s := Js.Math_max 0 (Js.Math_min 100 x)).
    assert (Hs : (x <= 0 /\ s == 0) \/ (0 <= x <= 100 /\ s == x)
                 \/ (100 <= x /\ s == 100)).
    { unfold s, Js.Math_max, Js.Math_min.
      destruct (Q.min_spec 100 x) as [[H1 E1] | [H1 E1]];
        destruct (Q.max_spec 0 (Qmin 100 x)) as [[H2 E2] | [H2 E2]];
        rewrite E2; rewrite E1 in *; lra. }
    change (8 <? 7) with false. rewrite andb_false_r.
    unfold state, DataCapture.determineRhythmState. change (8 <? 6) with false.
    cbn [orb].
    split; intros Hmove.
    + apply ltb_lt in Hmove as Hb. rewrite Hb.
      destruct (s >? 75) eqn:E75; [apply gtb_gt in E75; lra |].
      destruct (s <? 40); reflexivity.
    + apply ltb_ge in Hmove as Hb. rewrite Hb.
      destruct (s >? 75) eqn:E75; [reflexivity |]. apply gtb_le in E75.
      destruct (s <? 40) eqn:E40; [apply ltb_lt in E40; lra |].
      destruct (m >? 80) eqn:E80; [apply gtb_gt in E80; lra |]. reflexivity.
  - intros Hdur. specialize (Hnn Hdur).
    assert (H0 : 0 <= m).
    { apply Math_min_glb; [lra | apply Qle_shift_div_l; lra]. }
    assert (Ec : computeScore r [h] == 55 + 0.45 * m).
    { destruct Hecho as (x & -> & Hv).
      unfold Js.Math_max, Js.Math_min.
      assert (E1 : Qmin 100 x == x) by (apply Q.min_r; lra).
      rewrite E1. rewrite Q.max_r by lra. exact Hv. }
    split; [exact Ec |].
    cbn [rhythmScore stabilityTrend].
    destruct (_ >? 60); [discriminate |].
    destruct (_ <? 40) eqn:E40; [| discriminate].
    apply ltb_lt in E40. rewrite Ec in E40. lra.
Qed.

Lemma aggregator_maps_never_overstimulated_witness :
  (rhythmScore Sample.rhythmMapOfAda
     [snd (DataCapture.dailyHealthMetrics "ada"%string "2024-05-04"%string [Sample.motion 1500])])
    .(stabilityTrend) <> "declining"%string.
Proof.
  refine (proj2 (proj2 (aggregator_maps_never_overstimulated "ada"%string "2024-05-04"%string
                          [Sample.motion 1500]) _)).
  intros d [<- | []]. vm_compute. discriminate.
Defined.

End RhythmScore.

(** ** Forecast Engine, continued *)

Section ForecastMore.
Import Insight.

Lemma seasonalEstimate_mood (sameDayHistory : list CognitiveMirror) :
  fst (seasonalEstimate sameDayHistory) = "positive"%string
  \/ fst (seasonalEstimate sameDayHistory) = "stable"%string
  \/ fst (seasonalEstimate sameDayHistory) = "challenging"%string.
Proof.
  unfold seasonalEstimate.
  destruct (2 <? List.length sameDayHistory)%nat; [| now right; left].
  destruct (_ >? 70); [now left |].
  destruct (_ <? 40); [now right; right | now right; left].
Qed.

(** X15.  A forecast predicts "positive", "stable" or "challenging".  A
    slope above 5 over the latest week never leaves "challenging" and is
    reported as an improving trend; a slope below -5 never leaves "positive"
    and is reported as a declining trend.  Actions are recommended, two of
    them, exactly when the prediction is not "stable". *)
Theorem forecast_follows_trend (cal : Calendar) (uid : UserId)
    (moodHistory : list CognitiveMirror) :
  let f := emotionForecast cal uid moodHistory in
  (f.(predictedMood) = "positive"%string \/ f.(predictedMood) = "stable"%string
   \/ f.(predictedMood) = "challenging"%string)
  /\ (5 < trendSlope moodHistory ->
      f.(predictedMood) <> "challenging"%string
      /\ In "improving mood trend"%string f.(influencingFactors)
      /\ ~ In "declining mood trend"%string f.(influencingFactors))
  /\ (trendSlope moodHistory < -5 ->
      f.(predictedMood) <> "positive"%string
      /\ In "declining mood trend"%string f.(influencingFactors)
      /\ ~ In "improving mood trend"%string f.(influencingFactors))
  /\ (f.(recommendedActions) = [] <-> f.(predictedMood) = "stable"%string)
  /\ (f.(predictedMood) <> "stable"%string -> List.length f.(recommendedActions) = 2%nat).
Proof.
  unfold emotionForecast.
  change ((nth 0 (map moodScore (firstn 7 moodHistory)) 0
           - nth 6 (map moodScore (firstn 7 moodHistory)) 0) / 6)
    with (trendSlope moodHistory).
  set (slope := trendSlope moodHistory).
  set (same := filter _ moodHistory).
  pose proof (seasonalEstimate_mood same) as Hmood.
  destruct (seasonalEstimate same) as [mood conf]. cbn [fst] in Hmood.
  unfold trendAdjustment.
  destruct (_ >? 60);
    (destruct (slope >? 5) eqn:Eup; [apply gtb_gt in Eup | apply gtb_le in Eup];
     [| destruct (slope <? -5) eqn:Edown;
        [apply ltb_lt in Edown | apply ltb_ge in Edown]]);
    destruct Hmood as [-> | [-> | ->]];
    cbv [predictedMood influencingFactors recommendedActions String.eqb Ascii.eqb
         Bool.eqb app List.length In];
    repeat split; intros; try discriminate; try lra; auto;
    try (intuition (discriminate || lra)).
Qed.

Lemma forecast_follows_trend_witness :
  Sample.forecastOfBob.(predictedMood) <> "challenging"%string
  /\ In "improving mood trend"%string Sample.forecastOfBob.(influencingFactors)
  /\ ~ In "declining mood trend"%string Sample.forecastOfBob.(influencingFactors).
Proof.
  refine (proj1 (proj2 (forecast_follows_trend Sample.calendar "bob"%string
                          (Sample.risingWeek "bob"%string))) _).
  vm_compute. reflexivity.
Defined.

End ForecastMore.

(** ** Behavioral Recovery detector, continued *)

Section RecoveryMore.
Import Insight.

Lemma fold_lowerOf_earliest (dailyScores post pre : list DailyScore) (minIdx : nat) :
  dailyScores = pre ++ post ->
  earliest_lowest_so_far dailyScores pre minIdx ->
  earliest_lowest_so_far dailyScores dailyScores
    (fst (fold_left (lowerOf dailyScores) post (minIdx, List.length pre))).
Proof.
  revert pre minIdx.
  induction post as [| x post IH]; intros pre minIdx Hds Hinv.
  - rewrite app_nil_r in Hds. subst pre. exact Hinv.
  - simpl.
    replace (S (List.length pre)) with (List.length (pre ++ [x]))
      by (rewrite length_app; simpl; lia).
    apply IH; [now rewrite <- app_assoc |].
    pose proof (nth_combined_middle pre post x) as Hx. rewrite <- Hds in Hx.
    right. rewrite length_app. simpl.
    destruct Hinv as [[-> ->] | (Hlt & Hmin & Hfirst)].
    + simpl in Hx |- *. rewrite Hx.
      replace (combined x <? combined x) with false
        by (symmetry; apply ltb_ge; lra).
      split; [lia |]. split; [| intros j Hj; lia].
      intros j Hj. replace j with 0%nat by lia. lra.
    + destruct (combined x <? nth minIdx (map combined dailyScores) 0) eqn:E.
      * apply ltb_lt in E. split; [lia |]. split.
        -- intros j Hj.
           destruct (Nat.eq_dec j (List.length pre)) as [-> | Hne]; [lra |].
           rewrite Hx. specialize (Hmin j ltac:(lia)). lra.
        -- intros j Hj. rewrite Hx. specialize (Hmin j Hj). lra.
      * apply ltb_ge in E. split; [lia |]. split.
        -- intros j Hj.
           destruct (Nat.eq_dec j (List.length pre)) as [-> | Hne].
           ++ now rewrite Hx.
           ++ apply Hmin. lia.
        -- exact Hfirst.
Qed.

(** X16.  The trough the detector picks is the earliest entry of the window
    with the lowest combined score: no entry is lower, and every entry
    before it is strictly higher. *)
Theorem trough_is_earliest_lowest (dailyScores : list DailyScore) (j : nat) :
  (j < List.length dailyScores)%nat ->
  (lowestIndex dailyScores < List.length dailyScores)%nat
  /\ nth (lowestIndex dailyScores) (map combined dailyScores) 0
     <= nth j (map combined dailyScores) 0
  /\ ((j < lowestIndex dailyScores)%nat ->
      nth (lowestIndex dailyScores) (map combined dailyScores) 0
      < nth j (map combined dailyScores) 0).
Proof.
  intros Hj.
  destruct (fold_lowerOf_earliest dailyScores dailyScores [] 0 eq_refl)
    as [[-> _] | (Hlt & Hmin & Hfirst)].
  - left. auto.
  - simpl in Hj. lia.
  - repeat split; auto.
Qed.

(** With the lowest combined score on the first two days, the trough is the
    first day. *)
Lemma trough_is_earliest_lowest_witness :
  (lowestIndex (map dailyScore Sample.tiedWindow) < 3)%nat
  /\ nth (lowestIndex (map dailyScore Sample.tiedWindow))
         (map combined (map dailyScore Sample.tiedWindow)) 0
     <= nth 1 (map combined (map dailyScore Sample.tiedWindow)) 0
  /\ ((1 < lowestIndex (map dailyScore Sample.tiedWindow))%nat ->
      nth (lowestIndex (map dailyScore Sample.tiedWindow))
          (map combined (map dailyScore Sample.tiedWindow)) 0
      < nth 1 (map combined (map dailyScore Sample.tiedWindow)) 0).
Proof.
  apply (trough_is_earliest_lowest (map dailyScore Sample.tiedWindow) 1).
  simpl. lia.
Defined.

Example tied_trough_is_first_day :
  lowestIndex (map dailyScore Sample.tiedWindow) = 0%nat
  /\ option_map durationDays (recoveryEngine Sample.reboundMirror Sample.tiedWindow)
     = Some 2%nat.
Proof. split; reflexivity. Qed.

(** X17.  A recovery record has [reboundDetected] set, starts on the date of
    the trough, lasts at least one day and less than the window, reports an
    improvement of at least 30, belongs to the user of the triggering
    mirror, and is either an emotional recovery triggered by a mood rebound
    or a stress relief triggered by a stress reduction. *)
Theorem recovery_record_shape (mirrorData : CognitiveMirror)
    (recentMirrors : list CognitiveMirror) (record : RecoveryEngine) :
  recoveryEngine mirrorData recentMirrors = Some record ->
  record.(reboundDetected) = true
  /\ record.(re_userId) = mirrorData.(userId)
  /\ record.(startDate)
     = nth (lowestIndex (map dailyScore recentMirrors)) (map date recentMirrors)
           EmptyString
  /\ (1 <= record.(durationDays) < List.length recentMirrors)%nat
  /\ 30 <= record.(improvementScore)
  /\ ((record.(recoveryType) = "emotional"%string /\ record.(triggerEvent) = "mood_rebound"%string)
      \/ (record.(recoveryType) = "stress_relief"%string
          /\ record.(triggerEvent) = "stress_reduction"%string)).
Proof.
  unfold recoveryEngine.
  destruct (List.length recentMirrors <? 3)%nat eqn:Hlen; [discriminate |].
  apply Nat.ltb_ge in Hlen.
  destruct (recoveryPattern mirrorData (map dailyScore recentMirrors))
    as [[rtype trigger] |] eqn:Hpat; [| discriminate].
  intros [= <-]. cbn [reboundDetected re_userId startDate durationDays
                        improvementScore recoveryType triggerEvent].
  unfold recoveryPattern in Hpat.
  destruct (lowestIndex (map dailyScore recentMirrors)
            <? List.length (map dailyScore recentMirrors) - 1)%nat eqn:Hlast;
    [| discriminate].
  apply Nat.ltb_lt in Hlast. rewrite length_map in Hlast.
  destruct (_ >? 30) eqn:Himp; [| discriminate]. apply gtb_gt in Himp.
  destruct (_ <? 20); [| discriminate]. cbn [andb] in Hpat.
  rewrite length_map.
  repeat split.
  - rewrite map_map. reflexivity.
  - lia.
  - lia.
  - change 30 with (inject_Z 30). rewrite <- (Math_round_Z 30).
    apply Math_round_mono. rewrite length_map in Himp.
    change (inject_Z 30) with 30. lra.
  - destruct (_ >? _); inversion Hpat; auto.
Qed.

Lemma recovery_record_shape_witness :
  exists record,
    recoveryEngine Sample.reboundMirror Sample.reboundWindow = Some record
    /\ (1 <= record.(durationDays) < 3)%nat
    /\ 30 <= record.(improvementScore).
Proof.
  eexists. split; [reflexivity |].
  refine (let H := recovery_record_shape Sample.reboundMirror Sample.reboundWindow
                     _ eq_refl in _).
  destruct H as (_ & _ & _ & Hd & Hi & _). split; [exact Hd | exact Hi].
Defined.

End RecoveryMore.

(** ** Life Event detector, continued *)

Section LifeEventsMore.
Import Insight.







(** X19.  In a run over a snapshot that lists every user once, the detector
    writes at most one life event per user; an event written for a user comes
    from a window of at least 14 mirrors, carries the user and today's date,
    is named by the classification of the two shifts as computed, and its
    significance, the larger of the two absolute shifts, exceeds 20. *)
Theorem life_event_shape (ar : Arithmetic) (fs : Firestore) (cal : Calendar)
    (us : list UserId) (uid : UserId) :
  fs.(users) = Normal us -> NoDup us ->
  (List.length (lifeEventsFor uid ar fs cal) <= 1)%nat
  /\ forall event, In event (lifeEventsFor uid ar fs cal) ->
       exists cognitiveMirrors,
         fs.(mirrorsLast4Weeks) uid = Normal cognitiveMirrors
         /\ (14 <= List.length cognitiveMirrors)%nat
         /\ lifeEventsFor uid ar fs cal = [event]
         /\ event.(le_userId) = uid /\ event.(detectedOn) = cal.(todayKey)
         /\ 20 < event.(significance)
         /\ Js.Math_abs (shiftIn ar moodScore cognitiveMirrors) <= event.(significance)
         /\ Js.Math_abs (shiftIn ar stressIndex cognitiveMirrors) <= event.(significance)
         /\ event.(eventType)
            = classifyShift (shiftIn ar moodScore cognitiveMirrors)
                (shiftIn ar stressIndex cognitiveMirrors).
Proof.
  intros Hus Hnd.
  rewrite (lifeEventsFor_started ar fs cal uid us Hus Hnd).
  destruct (in_dec string_dec uid _) as [_ | _];
    [| split; [simpl; lia | intros event []]].
  rewrite lifeEventsUserIn_records.
  destruct (fs.(mirrorsLast4Weeks) uid) as [cognitiveMirrors | err];
    [| split; [simpl; lia | intros event []]].
  destruct (fs.(set_result) "lifeEvents"%string uid);
    [| split; [simpl; lia | intros event []]].
  destruct (lifeEventsIn_cases ar cal uid cognitiveMirrors)
    as [[-> _] | (record & -> & Hlong & Hflag & Hown & Hday & Hname & Hsig)];
    [split; [simpl; lia | intros event []] |].
  split; [simpl; lia |].
  intros event [<- | []]. exists cognitiveMirrors.
  rewrite Hsig. unfold Js.Math_max.
  pose proof (Q.le_max_l (Js.Math_abs (shiftIn ar moodScore cognitiveMirrors))
                (Js.Math_abs (shiftIn ar stressIndex cognitiveMirrors))).
  pose proof (Q.le_max_r (Js.Math_abs (shiftIn ar moodScore cognitiveMirrors))
                (Js.Math_abs (shiftIn ar stressIndex cognitiveMirrors))).
  repeat split; auto. destruct Hflag; lra.
Qed.

(** The life event of the second user of the sample run, in double
    arithmetic: the only one, with a significance above 20. *)
Lemma life_event_shape_witness :
  exists event,
    lifeEventsFor "bob"%string doubleArithmetic Sample.fortnightStore Sample.calendar
    = [event]
    /\ event.(le_userId) = "bob"%string
    /\ 20 < event.(significance).
Proof.
  destruct (life_event_shape doubleArithmetic Sample.fortnightStore Sample.calendar
              ["ada"; "bob"]%string "bob"%string eq_refl) as [_ Hshape].
  - repeat constructor; simpl; intuition discriminate.
  - destruct (Hshape (hd (lifeEvent Sample.calendar EmptyString
                            {| de_eventType := EmptyString; de_significance := 0;
                               de_metricsInvolved := []; de_moodShift := 0;
                               de_stressShift := 0 |})
                         (lifeEventsIn doubleArithmetic Sample.calendar "bob"%string
                            Sample.shiftedFortnight)))
      as (docs & _ & _ & Hone & Hown & _ & Hsig & _).
    + vm_compute. left. reflexivity.
    + eexists. split; [exact Hone | split; [exact Hown | exact Hsig]].
Defined.

End LifeEventsMore.

(** ** Voice profiles *)

Section VoiceProfileFacts.
Import VoiceProfiles.

Lemma slice_last_length {A : Type} (n : nat) (xs : list A) :
  List.length (slice_last n xs) = Nat.min n (List.length xs).
Proof. unfold slice_last. rewrite length_skipn. lia. Qed.

Lemma slice_last_snoc {A : Type} (n : nat) (xs : list A) (x : A) :
  (1 <= n)%nat -> slice_last n (slice_last n xs ++ [x]) = slice_last n (xs ++ [x]).
Proof.
  intros Hn. unfold slice_last at 1 3.
  rewrite !length_app, slice_last_length. cbn [List.length].
  destruct (Nat.le_gt_cases (List.length xs) n) as [Hle | Hgt].
  - unfold slice_last. replace (List.length xs - n)%nat with 0%nat by lia.
    cbn [skipn]. f_equal. lia.
  - unfold slice_last.
    replace (Nat.min n (List.length xs) + 1 - n)%nat with 1%nat by lia.
    rewrite !skipn_app, skipn_skipn, length_skipn.
    replace (1 - (List.length xs - (List.length xs - n)))%nat with 0%nat by lia.
    replace (List.length xs + 1 - n - List.length xs)%nat with 0%nat by lia.
    f_equal. f_equal. lia.
Qed.

Lemma slice_last_ends {A : Type} (n : nat) (xs : list A) (x d : A) :
  (1 <= n)%nat -> last (slice_last n (xs ++ [x])) d = x.
Proof.
  intros Hn. unfold slice_last. rewrite length_app. cbn [List.length].
  rewrite skipn_app.
  replace (List.length xs + 1 - n - List.length xs)%nat with 0%nat by lia.
  cbn [skipn]. apply last_last.
Qed.

(** X20.  Updating an existing voice profile caps the familiarity score at
    100, counts one more conversation, and keeps at most the ten latest
    tones, the new one last; the speaker, the user and the relationship type
    are left as stored. *)
Theorem voice_profile_update_bounded (data : VoiceProfile) (others : list VoiceProfile)
    (uid : UserId) (speakerLabel emotion : string) (now : Q) :
  let p := updateVoiceProfile (data :: others) uid speakerLabel emotion now in
  let tone := {| tone_date := now; dominantTone := emotion |} in
  (exists f, p.(familiarityScore) = Some f /\ f <= 100
             /\ (Js.or_zero data.(familiarityScore) <= 99 ->
                 f == Js.or_zero data.(familiarityScore) + 1))
  /\ (exists c, p.(conversationCount) = Some c
                /\ c == Js.or_zero data.(conversationCount) + 1)
  /\ (exists tones, p.(toneEvolution) = Some tones
                    /\ (1 <= List.length tones <= 10)%nat
                    /\ last tones tone = tone
                    /\ List.length tones
                       = Nat.min 10 (S (List.length (or_empty data.(toneEvolution)))))
  /\ p.(emotionalTrend) = emotion /\ p.(lastInteraction) = now
  /\ p.(speakerName) = data.(speakerName) /\ p.(vp_userId) = data.(vp_userId)
  /\ p.(relationshipType) = data.(relationshipType).
Proof.
  cbn [updateVoiceProfile update updates familiarityScore conversationCount
       toneEvolution emotionalTrend lastInteraction speakerName vp_userId
       relationshipType u_familiarityScore u_emotionalTrend u_lastInteraction
       u_conversationCount u_toneEvolution].
  split; [| split; [| split]].
  - eexists. split; [reflexivity |]. split; [apply Math_min_le_l |].
    intros H. unfold Js.Math_min. apply Q.min_r. lra.
  - eexists. split; reflexivity.
  - eexists. split; [reflexivity |].
    rewrite slice_last_length, length_app. cbn [List.length].
    repeat split; try lia.
    apply slice_last_ends. lia.
  - repeat split; reflexivity.
Qed.

(** The second event of a speaker raises the familiarity from 1 to 2. *)
Lemma voice_profile_update_bounded_witness :
  exists f,
    (updateVoiceProfile [newProfile "ada"%string "maya"%string "calm"%string 1] "ada"%string "maya"%string "tense"%string 2)
      .(familiarityScore) = Some f
    /\ f <= 100 /\ f == 2.
Proof.
  destruct (voice_profile_update_bounded (newProfile "ada"%string "maya"%string "calm"%string 1) []
              "ada"%string "maya"%string "tense"%string 2) as ((f & Ef & Hcap & Hnext) & _).
  exists f. split; [exact Ef |]. split; [exact Hcap |].
  rewrite Hnext; [reflexivity |]. vm_compute. discriminate.
Defined.

Lemma len_snoc {A : Type} (xs : list A) (x : A) : Js.len (xs ++ [x]) == Js.len xs + 1.
Proof.
  unfold Js.len. rewrite length_app. cbn [List.length].
  rewrite Nat2Z.inj_add, inject_Z_plus. reflexivity.
Qed.

Lemma step_tracks (uid : UserId) (speakerLabel : string) (seen : list VoiceEvent)
    (profile : option VoiceProfile) (event : VoiceEvent) :
  match profile with
  | Some p => seen <> [] /\ profile_tracks uid speakerLabel seen p
  | None => seen = []
  end ->
  exists p', step uid speakerLabel profile event = Some p'
             /\ profile_tracks uid speakerLabel (seen ++ [event]) p'.
Proof.
  destruct profile as [p |].
  - intros [Hne ((c & Ec & Hc) & (f & Ef & Hf) & Et & Es & Eu & Er)].
    eexists. split; [reflexivity |].
    unfold profile_tracks.
    cbn [updateVoiceProfile update updates familiarityScore conversationCount
         toneEvolution speakerName vp_userId relationshipType u_familiarityScore
         u_conversationCount u_toneEvolution fst snd].
    rewrite Ec, Ef, Et. cbn [or_empty].
    pose proof (len_nonnegative seen) as Hl.
    repeat split; auto.
    + eexists. split; [reflexivity |]. rewrite or_zero_Some, len_snoc, Hc. reflexivity.
    + eexists. split; [reflexivity |]. rewrite or_zero_Some, len_snoc, Hf.
      unfold Js.Math_min.
      destruct (Q.min_spec 100 (Js.len seen)) as [[H1 E1] | [H1 E1]];
        destruct (Q.min_spec 100 (Js.len seen + 1)) as [[H2 E2] | [H2 E2]];
        destruct (Q.min_spec 100 (Qmin 100 (Js.len seen) + 1)) as [[H3 E3] | [H3 E3]];
        rewrite E3, E2; rewrite ?E1 in *; lra.
    + rewrite map_app. cbn [map]. f_equal.
      change {| tone_date := fst event; dominantTone := snd event |}
        with (toneOf event).
      apply slice_last_snoc. lia.
  - intros ->. eexists. split; [reflexivity |].
    unfold profile_tracks. cbn. repeat split; try reflexivity.
    + eexists. split; reflexivity.
    + eexists. split; reflexivity.
Qed.

Lemma profileAfter_tracks (uid : UserId) (speakerLabel : string)
    (events seen : list VoiceEvent) (profile : option VoiceProfile) :
  match profile with
  | Some p => seen <> [] /\ profile_tracks uid speakerLabel seen p
  | None => seen = []
  end ->
  events <> [] ->
  exists p, fold_left (step uid speakerLabel) events profile = Some p
            /\ profile_tracks uid speakerLabel (seen ++ events) p.
Proof.
  revert seen profile. induction events as [| e events IH]; intros seen profile Hinv Hne.
  - contradiction.
  - cbn [fold_left].
    destruct (step_tracks uid speakerLabel seen profile e Hinv) as (p' & Ep & Hp).
    rewrite Ep.
    destruct events as [| e' events'].
    + exists p'. split; [reflexivity | exact Hp].
    + destruct (IH (seen ++ [e]) (Some p')) as (p & E & H).
      * split; [now destruct seen | exact Hp].
      * discriminate.
      * exists p. split; [exact E |]. now rewrite <- app_assoc in H.
Qed.

(** X21.  After a speaker's first [k] voice events, each handled with the
    profile the previous one left, the profile counts [k] conversations, has
    familiarity [min(100, k)], and holds the tones of the last ten events in
    order. *)
Theorem voice_profile_after_events (uid : UserId) (speakerLabel : string)
    (events : list VoiceEvent) :
  events <> [] ->
  exists p,
    profileAfter uid speakerLabel events = Some p
    /\ (exists c, p.(conversationCount) = Some c /\ c == Js.len events)
    /\ (exists f, p.(familiarityScore) = Some f
                  /\ f == Js.Math_min 100 (Js.len events))
    /\ p.(toneEvolution) = Some (slice_last 10 (map toneOf events))
    /\ p.(speakerName) = speakerLabel /\ p.(vp_userId) = uid.
Proof.
  intros Hne.
  destruct (profileAfter_tracks uid speakerLabel events [] None eq_refl Hne)
    as (p & E & (Hc & Hf & Ht & Hs & Hu & _)).
  exists p. repeat split; auto.
Qed.

Lemma voice_profile_after_events_witness :
  exists p,
    profileAfter "ada"%string "maya"%string Sample.twelveEvents = Some p
    /\ (exists c, p.(conversationCount) = Some c /\ c == 12)
    /\ option_map (@List.length Tone) p.(toneEvolution) = Some 10%nat.
Proof.
  destruct (voice_profile_after_events "ada"%string "maya"%string Sample.twelveEvents)
    as (p & E & Hc & _ & Ht & _).
  - discriminate.
  - exists p. split; [exact E |]. split; [exact Hc |]. rewrite Ht. reflexivity.
Defined.

End VoiceProfileFacts.

(** ** GPS events *)

Section GpsFacts.
Import Gps.

Lemma countOf_increment (emotion key : string) (acc : list (string * Z)) :
  countOf key (increment emotion acc)
  = (countOf key acc + if String.eqb emotion key then 1 else 0)%Z.
Proof.
  induction acc as [| [k n] acc IH]; cbn [increment countOf].
  - destruct (String.eqb emotion key); lia.
  - destruct (String.eqb_spec k emotion) as [-> | Hne]; cbn [countOf].
    + destruct (String.eqb emotion key); lia.
    + destruct (String.eqb_spec k key) as [-> | Hk].
      * apply String.eqb_neq in Hne. rewrite String.eqb_sym in Hne. rewrite Hne. lia.
      * exact IH.
Qed.

Lemma countOf_fold (emotions : list string) (key : string) (acc : list (string * Z)) :
  countOf key (fold_left (fun a e => increment e a) emotions acc)
  = (countOf key acc + occurrences key emotions)%Z.
Proof.
  unfold occurrences. revert acc.
  induction emotions as [| e emotions IH]; intros acc; cbn [fold_left count_occ].
  - lia.
  - rewrite IH, countOf_increment.
    destruct (string_dec e key) as [-> | Hne].
    + rewrite String.eqb_refl. lia.
    + apply String.eqb_neq in Hne. rewrite Hne. lia.
Qed.

Lemma increment_keys (emotion key : string) (acc : list (string * Z)) :
  In key (map fst (increment emotion acc)) -> key = emotion \/ In key (map fst acc).
Proof.
  induction acc as [| [k n] acc IH]; cbn [increment].
  - cbn. intuition.
  - destruct (String.eqb k emotion); cbn [map fst In]; intuition.
Qed.

Lemma increment_well_counted (emotion : string) (acc : list (string * Z)) :
  well_counted acc -> well_counted (increment emotion acc).
Proof.
  intros [Hnd Hpos]. induction acc as [| [k n] acc IH]; cbn [increment].
  - split; [repeat constructor; intros [] |]. intros entry [<- | []]. cbn. lia.
  - cbn [map fst] in Hnd. inversion Hnd as [| ? ? Hnotin Hnd']; subst.
    destruct (String.eqb_spec k emotion) as [-> | Hne].
    + split; [exact Hnd |]. intros entry [<- | Hin].
      * cbn. specialize (Hpos (emotion, n) (or_introl eq_refl)). cbn in Hpos. lia.
      * apply Hpos. now right.
    + destruct IH as [IHnd IHpos]; [exact Hnd' | intros e He; apply Hpos; now right |].
      split.
      * cbn [map fst]. constructor; [| exact IHnd].
        intros Hin. apply increment_keys in Hin as [-> | Hin]; contradiction.
      * intros entry [<- | Hin]; [apply Hpos; now left | now apply IHpos].
Qed.

Lemma emotionCounts_well_counted (emotions : list string) :
  well_counted (emotionCounts emotions).
Proof.
  unfold emotionCounts.
  assert (H : forall acc, well_counted acc ->
                well_counted (fold_left (fun a e => increment e a) emotions acc)).
  { induction emotions as [| e emotions IH]; intros acc Hacc; cbn [fold_left].
    - exact Hacc.
    - apply IH, increment_well_counted, Hacc. }
  apply H. split; [constructor | intros entry []].
Qed.

Lemma countOf_entry (acc : list (string * Z)) (key : string) (n : Z) :
  NoDup (map fst acc) -> In (key, n) acc -> countOf key acc = n.
Proof.
  induction acc as [| [k m] acc IH]; intros Hnd Hin; [destruct Hin |].
  cbn [map fst] in Hnd. inversion Hnd as [| ? ? Hnotin Hnd']; subst.
  cbn [countOf]. destruct Hin as [[= -> ->] | Hin].
  - now rewrite String.eqb_refl.
  - destruct (String.eqb_spec k key) as [-> | Hne].
    + exfalso. apply Hnotin. apply in_map_iff. exists (key, n). auto.
    + now apply IH.
Qed.

Lemma countOf_absent_or_entry (acc : list (string * Z)) (key : string) :
  countOf key acc = 0%Z \/ In (key, countOf key acc) acc.
Proof.
  induction acc as [| [k m] acc IH]; cbn [countOf]; [now left |].
  destruct (String.eqb_spec k key) as [-> | Hne].
  - right. now left.
  - destruct IH as [IH | IH]; [now left | right; now right].
Qed.

(** The [reduce] over the entries returns an entry with the largest count. *)
Lemma fold_larger_max (rest : list (string * Z)) (first : string * Z) :
  In (fold_left larger rest first) (first :: rest)
  /\ forall entry, In entry (first :: rest) ->
       (snd entry <= snd (fold_left larger rest first))%Z.
Proof.
  revert first. induction rest as [| b rest IH]; intros first; cbn [fold_left].
  - split; [now left |]. intros entry [<- | []]. lia.
  - destruct (IH (larger first b)) as [Hin Hmax]. split.
    + destruct Hin as [Hin | Hin]; [| right; now right].
      rewrite <- Hin. unfold larger. destruct (snd b <? snd first)%Z; cbn; auto.
    + intros entry Hentry.
      assert (Hl : (snd first <= snd (larger first b)
                    /\ snd b <= snd (larger first b))%Z).
      { unfold larger. destruct (snd b <? snd first)%Z eqn:E;
          [apply Z.ltb_lt in E | apply Z.ltb_ge in E]; lia. }
      pose proof (Hmax (larger first b) (or_introl eq_refl)) as Htop.
      destruct Hentry as [<- | [<- | Hin']]; try lia.
      apply Hmax. now right.
Qed.

(** X22.  The emotion tagged on a GPS event is "neutral" when there is no
    recent voice event.  Otherwise, when the recent emotions are plain
    labels (none is a name that the counting object inherits, such as
    "constructor" or "__proto__", and none starts with a digit), it is one of
    the recent emotions, and no recent emotion occurs more often than it
    does. *)
Theorem dominant_emotion_is_most_frequent (emotions : list string) :
  dominantEmotion [] = "neutral"%string
  /\ (emotions <> [] ->
      (forall emotion, In emotion emotions -> plain_label emotion = true) ->
      In (dominantEmotion emotions) emotions
      /\ forall emotion,
           (occurrences emotion emotions
            <= occurrences (dominantEmotion emotions) emotions)%Z).
Proof.
  split; [reflexivity |]. intros Hne _.
  unfold dominantEmotion.
  destruct emotions as [| e0 emotions0] eqn:Eem; [contradiction |].
  cbn [Js.empty]. rewrite <- Eem. clear Hne.
  destruct (emotionCounts_well_counted emotions) as [Hnd Hpos].
  assert (Hcount : forall key, countOf key (emotionCounts emotions)
                               = occurrences key emotions).
  { intros key. unfold emotionCounts. rewrite countOf_fold. cbn. lia. }
  destruct (emotionCounts emotions) as [| first rest] eqn:Ecounts.
  { exfalso. specialize (Hcount e0). cbn in Hcount.
    unfold occurrences in Hcount. rewrite Eem in Hcount. cbn in Hcount.
    destruct (string_dec e0 e0); [lia | contradiction]. }
  destruct (fold_larger_max rest first) as [Hin Hmax].
  set (top := fold_left larger rest first) in *.
  assert (Htop : occurrences (fst top) emotions = snd top).
  { rewrite <- Hcount. apply countOf_entry; [exact Hnd |].
    now destruct top. }
  split.
  - specialize (Hpos top Hin). rewrite <- Htop in Hpos. unfold occurrences in Hpos.
    apply (count_occ_In string_dec). lia.
  - intros emotion. rewrite Htop, <- Hcount.
    destruct (countOf_absent_or_entry (first :: rest) emotion) as [-> | Hentry].
    + specialize (Hpos top Hin). lia.
    + apply (Hmax _ Hentry).
Qed.

Lemma dominant_emotion_is_most_frequent_witness :
  In (dominantEmotion Sample.recentEmotions) Sample.recentEmotions
  /\ (occurrences "tense"%string Sample.recentEmotions
      <= occurrences (dominantEmotion Sample.recentEmotions) Sample.recentEmotions)%Z.
Proof.
  destruct (proj2 (dominant_emotion_is_most_frequent Sample.recentEmotions))
    as [Hin Hmax].
  - discriminate.
  - intros emotion Hin. simpl in Hin.
    repeat (destruct Hin as [<- | Hin]; [reflexivity |]). destruct Hin.
  - split; [exact Hin | apply Hmax].
Defined.

Example dominant_emotion_of_sample :
  dominantEmotion Sample.recentEmotions = "calm"%string.
Proof. reflexivity. Qed.

(** The names an object inherits are not plain labels. *)
Example inherited_names_not_plain :
  forallb (fun emotion => negb (plain_label emotion)) Sample.inheritedEmotions = true
  /\ plain_label "calm"%string = true /\ plain_label "undefined"%string = true
  /\ plain_label "42"%string = false.
Proof. repeat split. Qed.

End GpsFacts.

(** ** Audio events *)

Section AudioFacts.
Import Audio.

(** X23.  The audio handler marks an audio event "complete" only after it
    has stored the conversation.  It is the one handler that can reject: it
    does so exactly when a write of the [try] block fails and the status
    "error" written by the [catch] block fails too.  When only the status
    "complete" is rejected, the conversation stays stored beside an audio
    event marked "error". *)
Theorem audio_event_outcomes (fs : Firestore) (audioEventId : string)
    (audioEventData : AudioEvent) :
  let run := processAudioEvent fs audioEventId (Some audioEventData) in
  let stored :=
    DbSet "conversations"%string (SetConversation (conversation audioEventId audioEventData)) in
  (In (DbSet "audioEvents"%string (UpdateStatus audioEventId "complete"%string)) (effects run) ->
   In stored (effects run))
  /\ (throws run
      <-> ((exists e, fs.(set_conversation) = Throw e)
           \/ (exists e, fs.(update_status) "complete"%string = Throw e))
          /\ (exists e, fs.(update_status) "error"%string = Throw e))
  /\ (fs.(set_conversation) = Normal tt ->
      (exists e, fs.(update_status) "complete"%string = Throw e) ->
      fs.(update_status) "error"%string = Normal tt ->
      written "conversations"%string (effects run)
      = [SetConversation (conversation audioEventId audioEventData)]
      /\ written "audioEvents"%string (effects run) = [UpdateStatus audioEventId "error"%string]).
Proof.
  unfold processAudioEvent, update_audioEvent, throws.
  destruct (set_conversation fs) as [[] | e1];
    destruct (update_status fs "complete"%string) as [[] | e2];
    destruct (update_status fs "error"%string) as [[] | e3];
    cbn; repeat split;
    try (intros [e E]; discriminate E);
    try (intros [[[e E] | [e E]] [e' E']]; discriminate);
    try (intros; discriminate);
    try (intros [_ [e E]]; discriminate E);
    try (intros; eexists; reflexivity);
    try (split; [(left + right); eexists; reflexivity | eexists; reflexivity]);
    try (intros [H | H]; [discriminate H | ]);
    try tauto;
    intuition (try discriminate); eauto;
    match goal with
    | H : exists _, Normal _ = Throw _ |- _ => destruct H; discriminate
    end.
Qed.

Lemma audio_event_outcomes_witness :
  written "conversations"%string
    (effects (processAudioEvent Sample.completeRejectingStore "clip-1"%string
                (Some Sample.audioOfAda)))
  = [SetConversation (conversation "clip-1"%string Sample.audioOfAda)]
  /\ written "audioEvents"%string
       (effects (processAudioEvent Sample.completeRejectingStore "clip-1"%string
                   (Some Sample.audioOfAda)))
     = [UpdateStatus "clip-1"%string "error"%string].
Proof.
  refine (proj2 (proj2 (audio_event_outcomes Sample.completeRejectingStore "clip-1"%string
                          Sample.audioOfAda)) eq_refl _ eq_refl).
  eexists. reflexivity.
Defined.

(** With every status update rejected the handler rejects. *)
Example audio_handler_can_reject :
  throws (processAudioEvent Sample.statusRejectingStore "clip-1"%string
            (Some Sample.audioOfAda)).
Proof. eexists. reflexivity. Qed.

End AudioFacts.
